(** * price-data: ingestion and deduplication pipeline

    A shallow embedding of the ingestion core of the repository
    (config.py, models.py, crud.py, scraper.py, data_manager.py) and the
    properties of its fetch client, pagination driver, deduplication
    engine and sync orchestrator.

    Modelling conventions.
    - Python values are the inductive [pyval]; a [dict] with string keys
      is an insertion-ordered association list ([pydict]), because
      [PriceDataCRUD.update] iterates over [update_data.items()].
    - The two lookup tables of [bulk_create_or_update]
      ([existing_records], [processed_in_batch]) are [gmap string _].
    - An exception is a value of [exn]; code that may raise returns a
      [pyresult].  Storage is threaded explicitly.
    - The table [price_data] is the list of its rows in insertion order;
      a query without ORDER BY returns rows in that order.  Rows are never
      deleted by the ingestion path, so the position of a row in the list
      is a stable handle for the ORM object that mirrors it.
    - Python's [float], [str] on floats, [datetime.strptime] and
      [strftime] belong to the language runtime, not to the repository:
      they are the interface [PyLib].  Nothing is assumed about them.
    - Column affinity conversions of the storage engine and the local
      bookkeeping timestamps (created_at, updated_at) are not modelled. *)

From Stdlib Require Import ZArith List Bool Ascii String Lia.
From stdpp Require Import base option list gmap strings pretty.

Local Open Scope Z_scope.

(** ** The Python runtime *)

Class PyLib := {
  pyfloat : Type;
  datetime : Type;
  (* == on floats and on datetimes *)
  float_eqb : pyfloat -> pyfloat -> bool;
  datetime_eqb : datetime -> datetime -> bool;
  (* bool(f) *)
  float_truthy : pyfloat -> bool;
  (* float(s) for a str: None is ValueError *)
  float_of_str : string -> option pyfloat;
  (* float(n) for an int: None is OverflowError *)
  float_of_int : Z -> option pyfloat;
  (* str(f) *)
  float_str : pyfloat -> string;
  (* datetime.strptime(s, '%Y-%m-%d %H:%M:%S'): None is ValueError *)
  strptime : string -> option datetime;
  (* d.strftime('%Y-%m-%d %H:%M:%S') *)
  strftime : datetime -> string;
  (* str(d) *)
  datetime_str : datetime -> string
}.

(** ** Exceptions and results *)

Inductive exn_kind :=
| ValueError | TypeError | AttributeError | ZeroDivisionError
| OverflowError | IntegrityError | OperationalError.

Record exn := Exn { exn_class : exn_kind; exn_msg : string }.

(** str(e) *)
Definition exn_str (e : exn) : string := exn_msg e.

Inductive pyresult (A : Type) :=
| Ok (a : A)
| Raise (e : exn).
Arguments Ok {A} a.
Arguments Raise {A} e.

#[export] Instance pyresult_bind : MBind pyresult := fun A B k r =>
  match r with
  | Ok a => k a
  | Raise e => Raise e
  end.

#[export] Instance pyresult_ret : MRet pyresult := fun A a => Ok a.

Definition is_ok {A} (r : pyresult A) : bool :=
  match r with Ok _ => true | Raise _ => false end.

(** ** config.py *)

Module Config.
Definition RATE_LIMIT_CALLS : Z := 10.
Definition RATE_LIMIT_PERIOD : Z := 60.
Definition REQUEST_TIMEOUT : Z := 30.
Definition RETRY_MAX_ATTEMPTS : nat := 5.
Definition RETRY_INTERVAL : Z := 10.
End Config.

(** ** Python values and dicts *)

Section Values.
Context `{PyLib}.

Inductive pyval :=
| VNone
| VInt (z : Z)
| VFloat (f : pyfloat)
| VStr (s : string)
| VDate (d : datetime).

(** bool(v) *)
Definition truthy (v : pyval) : bool :=
  match v with
  | VNone => false
  | VInt z => negb (z =? 0)
  | VFloat f => float_truthy f
  | VStr s => negb (String.eqb s EmptyString)
  | VDate _ => true
  end.

(** [a or b] *)
Definition py_or (a b : pyval) : pyval := if truthy a then a else b.

(** str(v), as used by an f-string *)
Definition py_str (v : pyval) : string :=
  match v with
  | VNone => "None"
  | VInt z => pretty z
  | VFloat f => float_str f
  | VStr s => s
  | VDate d => datetime_str d
  end.

(** float(v) *)
Definition py_float (v : pyval) : pyresult pyfloat :=
  match v with
  | VNone => Raise (Exn TypeError "float() argument must be a string or a real number, not 'NoneType'")
  | VInt z =>
      match float_of_int z with
      | Some f => Ok f
      | None => Raise (Exn OverflowError "int too large to convert to float")
      end
  | VFloat f => Ok f
  | VStr s =>
      match float_of_str s with
      | Some f => Ok f
      | None => Raise (Exn ValueError ("could not convert string to float: " +:+ s))
      end
  | VDate _ => Raise (Exn TypeError "float() argument must be a string or a real number, not 'datetime.datetime'")
  end.

(** datetime.strptime(s, '%Y-%m-%d %H:%M:%S') *)
Definition py_strptime (s : string) : pyresult datetime :=
  match strptime s with
  | Some d => Ok d
  | None => Raise (Exn ValueError ("time data " +:+ s +:+ " does not match format '%Y-%m-%d %H:%M:%S'"))
  end.

(** A dict with string keys, in insertion order. *)
Definition pydict := list (string * pyval).

(** d.get(k) *)
Fixpoint dget (d : pydict) (k : string) : pyval :=
  match d with
  | [] => VNone
  | (k', v) :: d' => if String.eqb k' k then v else dget d' k
  end.

(** k in d *)
Fixpoint dcontains (d : pydict) (k : string) : bool :=
  match d with
  | [] => false
  | (k', _) :: d' => if String.eqb k' k then true else dcontains d' k
  end.

(** d[k] = v: an existing key keeps its position, a new one goes last *)
Fixpoint dset (d : pydict) (k : string) (v : pyval) : pydict :=
  match d with
  | [] => [(k, v)]
  | (k', v') :: d' =>
      if String.eqb k' k then (k', v) :: d' else (k', v') :: dset d' k v
  end.
End Values.

(** ** models.py *)

(** An instance of the mapped class [PriceData] is its attribute
    dictionary, keyed by column name: [PriceDataCRUD.update] reads and
    writes attributes by name ([hasattr], [setattr]).  NULL is [VNone]. *)
Module PriceData.
Definition columns : list string :=
  ["id"; "prod_name"; "prod_catid"; "prod_cat"; "prod_pcatid"; "prod_pcat";
   "low_price"; "high_price"; "avg_price"; "place"; "spec_info"; "unit_info";
   "pub_date"; "status"; "user_id_create"; "user_id_modified"; "user_create";
   "user_modified"; "gmt_create"; "gmt_modified"].

(** Column(Float) *)
Definition float_columns : list string :=
  ["low_price"; "high_price"; "avg_price"].

(** Column(DateTime) *)
Definition datetime_columns : list string :=
  ["pub_date"; "gmt_create"; "gmt_modified"].

(** UniqueConstraint uq_all_business_fields *)
Definition uq_all_business_fields : list string :=
  ["prod_name"; "prod_catid"; "prod_cat"; "prod_pcatid"; "prod_pcat";
   "low_price"; "high_price"; "avg_price"; "place"; "spec_info"; "unit_info";
   "pub_date"; "status"].

Definition mem (c : string) (l : list string) : bool :=
  existsb (String.eqb c) l.

(** hasattr(db_obj, name), restricted to the mapped columns *)
Definition hasattr (name : string) : bool := mem name columns.
End PriceData.

Record ScrapingLog := {
  total_records : Z;
  new_records : Z;
  updated_records : Z;
  status : string;
  error_message : option string
}.

Section Storage.
Context `{PyLib}.

Definition PriceDataRow := pydict.

(** The session: the two tables, and the faults the engine will report
    on the coming writes to [scraping_logs] (true: the commit fails). *)
Record Session := {
  tbl_price_data : list PriceDataRow;
  tbl_scraping_logs : list ScrapingLog;
  log_faults : list bool
}.

Definition with_price_data (db : Session) (rows : list PriceDataRow) : Session :=
  {| tbl_price_data := rows;
     tbl_scraping_logs := tbl_scraping_logs db;
     log_faults := log_faults db |}.

Definition row_id (r : PriceDataRow) : Z :=
  match dget r "id" with VInt z => z | _ => 0 end.

Definition is_null (v : pyval) : bool :=
  match v with VNone => true | _ => false end.

(** [a = b] in SQL, for values that are not NULL *)
Definition sql_eq (a b : pyval) : bool :=
  match a, b with
  | VInt x, VInt y => x =? y
  | VFloat x, VFloat y => float_eqb x y
  | VStr x, VStr y => String.eqb x y
  | VDate x, VDate y => datetime_eqb x y
  | _, _ => false
  end.

(** [Column == q] as SQLAlchemy renders it: IS NULL for None *)
Definition sql_match (col q : pyval) : bool :=
  match q with
  | VNone => is_null col
  | _ => sql_eq col q
  end.

(** The bind processing of one column value when a statement runs. *)
Definition bind_column (c : string) (v : pyval) : pyresult pyval :=
  if PriceData.mem c PriceData.float_columns then
    match v with
    | VNone => Ok VNone
    | _ => f ← py_float v; Ok (VFloat f)
    end
  else if PriceData.mem c PriceData.datetime_columns then
    match v with
    | VNone | VDate _ => Ok v
    | _ => Raise (Exn TypeError "SQLite DateTime type only accepts Python datetime and date objects as input.")
    end
  else Ok v.

Fixpoint bind_all (kvs : list (string * pyval)) : pyresult (list (string * pyval)) :=
  match kvs with
  | [] => Ok []
  | (c, v) :: rest =>
      v' ← bind_column c v;
      rest' ← bind_all rest;
      Ok ((c, v') :: rest')
  end.

(** The values the statement writes, column by column. *)
Definition flush_object (obj : pydict) : pyresult PriceDataRow :=
  bind_all (map (fun c => (c, dget obj c)) PriceData.columns).

(** The next value of an INTEGER PRIMARY KEY left to the engine *)
Definition next_id (rows : list PriceDataRow) : Z :=
  match rows with
  | [] => 1
  | r :: rest => 1 + fold_left Z.max (map row_id rest) (row_id r)
  end.

(** Two rows collide on the unique constraint when all thirteen columns
    are equal and none is NULL. *)
Definition uq_conflict (a b : PriceDataRow) : bool :=
  forallb (fun c => sql_eq (dget a c) (dget b c)) PriceData.uq_all_business_fields.

Definition integrity (msg : string) : exn := Exn IntegrityError msg.

(** The constraints checked on [row] against the other rows. *)
Definition check_constraints (others : list PriceDataRow) (row : PriceDataRow)
  : pyresult unit :=
  match dget row "id" with
  | VInt z =>
      if is_null (dget row "prod_name") then
        Raise (integrity "NOT NULL constraint failed: price_data.prod_name")
      else if existsb (fun r => row_id r =? z) others then
        Raise (integrity "UNIQUE constraint failed: price_data.id")
      else if existsb (fun r => uq_conflict r row) others then
        Raise (integrity "UNIQUE constraint failed: uq_all_business_fields")
      else Ok tt
  | _ => Raise (integrity "datatype mismatch")
  end.

(** db_obj = PriceData built from db_data; db.add(db_obj); db.commit();
    db.refresh(db_obj) *)
Definition insert_row (rows : list PriceDataRow) (db_data : pydict)
  : pyresult PriceDataRow :=
  obj ← flush_object db_data;
  let row :=
    match dget obj "id" with
    | VNone => dset obj "id" (VInt (next_id rows))
    | _ => obj
    end in
  check_constraints rows row ;;
  Ok row.

End Storage.

(** ** crud.py: PriceDataCRUD *)

Section PriceDataCRUD.
Context `{PyLib}.

(** The thirteen comparisons [PriceData.<column> == <value>] of the
    exact-match query, with [place] and [specInfo] normalised by
    [or ''], as [exists_by_unique_key] and
    [exists_batch_by_unique_key] build them. *)
Definition business_filter (record : pydict) (pub_date : pyval)
  : list (string * pyval) :=
  [("prod_name", dget record "prodName");
   ("prod_catid", dget record "prodCatid");
   ("prod_cat", dget record "prodCat");
   ("prod_pcatid", dget record "prodPcatid");
   ("prod_pcat", dget record "prodPcat");
   ("low_price", dget record "lowPrice");
   ("high_price", dget record "highPrice");
   ("avg_price", dget record "avgPrice");
   ("place", py_or (dget record "place") (VStr EmptyString));
   ("spec_info", py_or (dget record "specInfo") (VStr EmptyString));
   ("unit_info", dget record "unitInfo");
   ("pub_date", pub_date);
   ("status", dget record "status")].

(** and_(...) evaluated on one row *)
Definition row_matches (cond : list (string * pyval)) (row : PriceDataRow) : bool :=
  forallb (fun cq => sql_match (dget row (fst cq)) (snd cq)) cond.

Definition exists_by_unique_key (db : Session) (record_data : pydict)
  : pyresult (option PriceDataRow) :=
  let pub_date := dget record_data "pubDate" in
  pub_date ← match pub_date with
             | VStr s => d ← py_strptime s; Ok (VDate d)
             | _ => Ok pub_date
             end;
  cond ← bind_all (business_filter record_data pub_date);
  Ok (List.find (row_matches cond) (tbl_price_data db)).

(** The f-string that joins the thirteen fields with '|'. *)
Definition unique_key
  (prod_name prod_catid prod_cat prod_pcatid prod_pcat
   low_price high_price avg_price place spec_info unit_info : pyval)
  (date_str : string) (status : pyval) : string :=
  String.concat "|"
    [py_str prod_name; py_str prod_catid; py_str prod_cat;
     py_str prod_pcatid; py_str prod_pcat; py_str low_price;
     py_str high_price; py_str avg_price; py_str place; py_str spec_info;
     py_str unit_info; date_str; py_str status].

(** The date object and the date string of a record whose pubDate is
    truthy: parsed from a str, formatted from anything else. *)
Definition date_key (pub_date : pyval) : pyresult (pyval * string) :=
  match pub_date with
  | VStr s => d ← py_strptime s; Ok (VDate d, s)
  | VDate d => Ok (pub_date, strftime d)
  | VInt _ => Raise (Exn AttributeError "'int' object has no attribute 'strftime'")
  | VFloat _ => Raise (Exn AttributeError "'float' object has no attribute 'strftime'")
  | VNone => Raise (Exn AttributeError "'NoneType' object has no attribute 'strftime'")
  end.

(** The key of a stored row, as the second loop of
    [exists_batch_by_unique_key] formats it. *)
Definition row_key (record : PriceDataRow) : string :=
  let date_str :=
    match dget record "pub_date" with
    | VDate d => strftime d
    | _ => EmptyString
    end in
  unique_key (dget record "prod_name") (dget record "prod_catid")
    (dget record "prod_cat") (dget record "prod_pcatid")
    (dget record "prod_pcat") (dget record "low_price")
    (dget record "high_price") (dget record "avg_price")
    (dget record "place") (dget record "spec_info")
    (dget record "unit_info") date_str (dget record "status").

(** First loop of [exists_batch_by_unique_key]: one condition per
    record that has a product name and a publish date. *)
Fixpoint batch_conditions (records : list pydict)
  : pyresult (list (list (string * pyval))) :=
  match records with
  | [] => Ok []
  | record :: rest =>
      let prod_name := dget record "prodName" in
      let pub_date := dget record "pubDate" in
      if truthy prod_name && truthy pub_date then
        dk ← date_key pub_date;
        conds ← batch_conditions rest;
        Ok (business_filter record (fst dk) :: conds)
      else batch_conditions rest
  end.

Fixpoint bind_conditions (conds : list (list (string * pyval)))
  : pyresult (list (list (string * pyval))) :=
  match conds with
  | [] => Ok []
  | c :: rest =>
      c' ← bind_all c;
      rest' ← bind_conditions rest;
      Ok (c' :: rest')
  end.

(** Second loop: result[unique_key] = record over the rows the query
    returns; [i] is the position of the first row of [rows]. *)
Fixpoint index_existing (conds : list (list (string * pyval)))
  (rows : list PriceDataRow) (i : nat) (result : gmap string nat)
  : gmap string nat :=
  match rows with
  | [] => result
  | record :: rest =>
      index_existing conds rest (S i)
        (if existsb (fun c => row_matches c record) conds
         then <[row_key record := i]> result
         else result)
  end.

Definition exists_batch_by_unique_key (db : Session) (records : list pydict)
  : pyresult (gmap string nat) :=
  match records with
  | [] => Ok ∅
  | _ =>
      conditions ← batch_conditions records;
      match conditions with
      | [] => Ok ∅
      | _ =>
          bound ← bind_conditions conditions;
          Ok (index_existing bound (tbl_price_data db) 0%nat ∅)
      end
  end.

(** if k_in in d and d[k_in]: d[k_out] = float(d[k_in]) *)
Definition set_float (k_in k_out : string) (d : pydict) : pydict * pyresult unit :=
  if dcontains d k_in && truthy (dget d k_in) then
    match py_float (dget d k_in) with
    | Ok f => (dset d k_out (VFloat f), Ok tt)
    | Raise e => (d, Raise e)
    end
  else (d, Ok tt).

Definition set_pub_date (d : pydict) : pydict * pyresult unit :=
  if dcontains d "pubDate" && truthy (dget d "pubDate") then
    match dget d "pubDate" with
    | VStr s =>
        match py_strptime s with
        | Ok dt => (dset d "pub_date" (VDate dt), Ok tt)
        | Raise e => (d, Raise e)
        end
    | v => (dset d "pub_date" v, Ok tt)
    end
  else (d, Ok tt).

Definition and_then (f g : pydict -> pydict * pyresult unit) (d : pydict)
  : pydict * pyresult unit :=
  match f d with
  | (d1, Ok _) => g d1
  | (d1, Raise e) => (d1, Raise e)
  end.

(** The conversions at the head of [create]; they write into the
    caller's dict. *)
Definition convert_fields : pydict -> pydict * pyresult unit :=
  and_then (set_float "lowPrice" "low_price")
    (and_then (set_float "highPrice" "high_price")
       (and_then (set_float "avgPrice" "avg_price") set_pub_date)).

Definition db_data_of (price_data : pydict) : pydict :=
  [("id", dget price_data "id");
   ("prod_name", dget price_data "prodName");
   ("prod_catid", dget price_data "prodCatid");
   ("prod_cat", dget price_data "prodCat");
   ("prod_pcatid", dget price_data "prodPcatid");
   ("prod_pcat", dget price_data "prodPcat");
   ("low_price", dget price_data "low_price");
   ("high_price", dget price_data "high_price");
   ("avg_price", dget price_data "avg_price");
   ("place", dget price_data "place");
   ("spec_info", dget price_data "specInfo");
   ("unit_info", dget price_data "unitInfo");
   ("pub_date", dget price_data "pub_date");
   ("status", dget price_data "status");
   ("user_id_create", dget price_data "userIdCreate");
   ("user_id_modified", dget price_data "userIdModified");
   ("user_create", dget price_data "userCreate");
   ("user_modified", dget price_data "userModified");
   ("gmt_create", dget price_data "gmtCreate");
   ("gmt_modified", dget price_data "gmtModified")].

(** [create] returns the caller's dict as it leaves it, the session and
    the row (or the exception it re-raises after the rollback). *)
Definition create (db : Session) (price_data : pydict)
  : pydict * Session * pyresult PriceDataRow :=
  match convert_fields price_data with
  | (price_data, Raise e) => (price_data, db, Raise e)
  | (price_data, Ok _) =>
      let db_data := db_data_of price_data in
      let prod_name := dget price_data "prodName" in
      let pub_date := dget price_data "pubDate" in
      let existing :=
        if truthy prod_name && truthy pub_date
        then exists_by_unique_key db price_data
        else Ok None in
      match existing with
      | Raise e => (price_data, db, Raise e)
      | Ok (Some existing_record) => (price_data, db, Ok existing_record)
      | Ok None =>
          match insert_row (tbl_price_data db) db_data with
          | Raise e => (price_data, db, Raise e)
          | Ok db_obj =>
              (price_data,
               with_price_data db (tbl_price_data db ++ [db_obj]),
               Ok db_obj)
          end
      end
  end.
End PriceDataCRUD.

Section Update.
Context `{PyLib}.

Definition field_mapping : list (string * string) :=
  [("prodName", "prod_name"); ("prodPcatid", "prod_pcatid");
   ("pubDate", "pub_date"); ("lowPrice", "low_price");
   ("highPrice", "high_price"); ("avgPrice", "avg_price")].

(** field_mapping.get(field, field) *)
Fixpoint mapped_field (m : list (string * string)) (field : string) : string :=
  match m with
  | [] => field
  | (k, v) :: rest => if String.eqb k field then v else mapped_field rest field
  end.

(** One turn of the loop over update_data.items(). *)
Definition set_field (db_obj : pydict) (item : string * pyval) : pyresult pydict :=
  let db_field := mapped_field field_mapping (fst item) in
  if PriceData.hasattr db_field then
    value ← match String.eqb db_field "pub_date", snd item with
            | true, VStr s => d ← py_strptime s; Ok (VDate d)
            | _, value =>
                if PriceData.mem db_field PriceData.float_columns then
                  f ← py_float value; Ok (VFloat f)
                else Ok value
            end;
    Ok (dset db_obj db_field value)
  else Ok db_obj.

Fixpoint set_fields (db_obj : pydict) (items : pydict) : pyresult pydict :=
  match items with
  | [] => Ok db_obj
  | item :: rest =>
      db_obj ← set_field db_obj item;
      set_fields db_obj rest
  end.

(** The row with this id and its position. *)
Fixpoint get_by_id (rows : list PriceDataRow) (record_id : Z)
  : option (nat * PriceDataRow) :=
  match rows with
  | [] => None
  | r :: rest =>
      if sql_match (dget r "id") (VInt record_id) then Some (0%nat, r)
      else prod_map S id <$> get_by_id rest record_id
  end.

(** [update] returns the session and the refreshed row, None when no row
    has this id, or the exception re-raised after the rollback. *)
Definition update (db : Session) (record_id : Z) (update_data : pydict)
  : Session * pyresult (option PriceDataRow) :=
  let rows := tbl_price_data db in
  match get_by_id rows record_id with
  | None => (db, Ok None)
  | Some (i, db_obj) =>
      let committed :=
        db_obj ← set_fields db_obj update_data;
        row ← flush_object db_obj;
        check_constraints (delete i rows) row ;;
        Ok row in
      match committed with
      | Ok row => (with_price_data db (<[i := row]> rows), Ok (Some row))
      | Raise e => (db, Raise e)
      end
  end.
End Update.

(** ** crud.py: ScrapingLogCRUD *)

Section ScrapingLogCRUD.
Context `{PyLib}.

Definition create_log (db : Session)
  (total_records new_records updated_records : Z) (status : string)
  (error_message : option string) : Session * pyresult ScrapingLog :=
  let log_entry :=
    {| total_records := total_records;
       new_records := new_records;
       updated_records := updated_records;
       status := status;
       error_message := error_message |} in
  match log_faults db with
  | true :: faults =>
      ({| tbl_price_data := tbl_price_data db;
          tbl_scraping_logs := tbl_scraping_logs db;
          log_faults := faults |},
       Raise (Exn OperationalError "scraping_logs: the commit failed"))
  | faults =>
      ({| tbl_price_data := tbl_price_data db;
          tbl_scraping_logs := tbl_scraping_logs db ++ [log_entry];
          log_faults := tail faults |},
       Ok log_entry)
  end.
End ScrapingLogCRUD.

(** ** crud.py: bulk_create_or_update *)

Section Bulk.
Context `{PyLib}.

Record BatchState := {
  st_db : Session;
  created_count : Z;
  updated_count : Z;
  processed_in_batch : gmap string Z
}.

(** existing_record.id: the id of the row the handle designates now.
    A handle always designates a row; 0 stands for the case that
    cannot arise. *)
Definition live_id (db : Session) (h : nat) : Z :=
  match tbl_price_data db !! h with
  | Some r => row_id r
  | None => 0
  end.

(** One turn of the loop of [bulk_create_or_update].  The result is
    [Raise] only for an exception that leaves the loop. *)
Definition process_record (existing_records : gmap string nat)
  (st : BatchState) (record : pydict) : pydict * BatchState * pyresult unit :=
  let prod_name := dget record "prodName" in
  let prod_catid := dget record "prodCatid" in
  let prod_cat := dget record "prodCat" in
  let prod_pcatid := dget record "prodPcatid" in
  let prod_pcat := dget record "prodPcat" in
  let low_price := dget record "lowPrice" in
  let high_price := dget record "highPrice" in
  let avg_price := dget record "avgPrice" in
  let place := dget record "place" in
  let spec_info := dget record "specInfo" in
  let unit_info := dget record "unitInfo" in
  let pub_date := dget record "pubDate" in
  let status := dget record "status" in
  if negb (truthy prod_name) || negb (truthy pub_date) then
    (record, st, Ok tt)
  else
    let spec_info := py_or spec_info (VStr EmptyString) in
    let place := py_or place (VStr EmptyString) in
    match date_key pub_date with
    | Raise e => (record, st, Raise e)
    | Ok (_, date_str) =>
        let unique_key :=
          unique_key prod_name prod_catid prod_cat prod_pcatid prod_pcat
            low_price high_price avg_price place spec_info unit_info
            date_str status in
        match processed_in_batch st !! unique_key with
        | Some existing_id =>
            match update (st_db st) existing_id record with
            | (db, Ok _) =>
                (record,
                 {| st_db := db;
                    created_count := created_count st;
                    updated_count := updated_count st + 1;
                    processed_in_batch := processed_in_batch st |},
                 Ok tt)
            | (db, Raise _) =>
                (record,
                 {| st_db := db;
                    created_count := created_count st;
                    updated_count := updated_count st;
                    processed_in_batch := processed_in_batch st |},
                 Ok tt)
            end
        | None =>
            match existing_records !! unique_key with
            | Some existing_record =>
                match update (st_db st) (live_id (st_db st) existing_record) record with
                | (db, Ok _) =>
                    (record,
                     {| st_db := db;
                        created_count := created_count st;
                        updated_count := updated_count st + 1;
                        processed_in_batch :=
                          <[unique_key := live_id db existing_record]>
                            (processed_in_batch st) |},
                     Ok tt)
                | (db, Raise _) =>
                    (record,
                     {| st_db := db;
                        created_count := created_count st;
                        updated_count := updated_count st;
                        processed_in_batch := processed_in_batch st |},
                     Ok tt)
                end
            | None =>
                match create (st_db st) record with
                | (record, db, Ok new_record) =>
                    (record,
                     {| st_db := db;
                        created_count := created_count st + 1;
                        updated_count := updated_count st;
                        processed_in_batch :=
                          <[unique_key := row_id new_record]>
                            (processed_in_batch st) |},
                     Ok tt)
                | (record, db, Raise _) =>
                    (record,
                     {| st_db := db;
                        created_count := created_count st;
                        updated_count := updated_count st;
                        processed_in_batch := processed_in_batch st |},
                     Ok tt)
                end
            end
        end
    end.

Fixpoint process_records (existing_records : gmap string nat)
  (st : BatchState) (records : list pydict)
  : list pydict * BatchState * pyresult unit :=
  match records with
  | [] => ([], st, Ok tt)
  | record :: rest =>
      match process_record existing_records st record with
      | (record, st, Raise e) => (record :: rest, st, Raise e)
      | (record, st, Ok _) =>
          match process_records existing_records st rest with
          | (rest, st, r) => (record :: rest, st, r)
          end
      end
  end.

(** [bulk_create_or_update] returns the records as the call leaves
    them, the session, and (created_count, updated_count) or the
    exception re-raised after the rollback.  Every [create] and
    [update] commits, so the rollback keeps their writes. *)
Definition bulk_create_or_update (db : Session) (records : list pydict)
  : list pydict * Session * pyresult (Z * Z) :=
  match records with
  | [] => (records, db, Ok (0, 0))
  | _ =>
      match exists_batch_by_unique_key db records with
      | Raise e => (records, db, Raise e)
      | Ok existing_records =>
          let st0 :=
            {| st_db := db;
               created_count := 0;
               updated_count := 0;
               processed_in_batch := ∅ |} in
          match process_records existing_records st0 records with
          | (records, st, Raise e) => (records, st_db st, Raise e)
          | (records, st, Ok _) =>
              (records, st_db st, Ok (created_count st, updated_count st))
          end
      end
  end.
End Bulk.

(** ** A runtime for the examples

    [decimal_runtime] reads plain decimal literals ([-12.50]) as floats
    and zero-padded [YYYY-MM-DD HH:MM:SS] texts as datetimes.  On these
    inputs it computes what CPython computes (floats of at most fifteen
    significant digits); the general theorems below hold for every
    [PyLib] and do not depend on it. *)

Module Runtime.
Record dec := { mant : Z; scale : nat }.

Fixpoint normalise (m : Z) (s : nat) : dec :=
  match s with
  | O => {| mant := m; scale := O |}
  | S s' =>
      if m mod 10 =? 0 then normalise (m / 10) s'
      else {| mant := m; scale := s |}
  end.

Definition digit (c : ascii) : option Z :=
  let n := Z.of_N (Ascii.N_of_ascii c) in
  if (48 <=? n) && (n <=? 57) then Some (n - 48) else None.

Fixpoint digits (cs : list ascii) (acc : Z) : option Z :=
  match cs with
  | [] => Some acc
  | c :: cs' => d ← digit c; digits cs' (10 * acc + d)
  end.

Fixpoint chars (s : string) : list ascii :=
  match s with
  | EmptyString => []
  | String c s' => c :: chars s'
  end.

Fixpoint split_at (sep : ascii) (cs : list ascii)
  : list ascii * option (list ascii) :=
  match cs with
  | [] => ([], None)
  | c :: cs' =>
      if Ascii.eqb c sep then ([], Some cs')
      else let '(a, b) := split_at sep cs' in (c :: a, b)
  end.

Definition unsigned_of (cs : list ascii) : option dec :=
  let '(ip, fp) := split_at "."%char cs in
  let fp := default [] fp in
  match ip ++ fp with
  | [] => None
  | ds => m ← digits ds 0; Some (normalise m (length fp))
  end.

Definition dec_of_str (s : string) : option dec :=
  match chars s with
  | "-"%char :: cs =>
      d ← unsigned_of cs; Some {| mant := - mant d; scale := scale d |}
  | "+"%char :: cs => unsigned_of cs
  | cs => unsigned_of cs
  end.

Definition dec_eqb (a b : dec) : bool :=
  (mant a =? mant b) && Nat.eqb (scale a) (scale b).

Definition drop_first (s : string) : string :=
  match s with
  | EmptyString => EmptyString
  | String _ s' => s'
  end.

(** [n] written with [w] digits, zero-padded *)
Definition padded (w : nat) (n : Z) : string :=
  drop_first (pretty (10 ^ Z.of_nat w + n)).

Definition dec_str (d : dec) : string :=
  let a := Z.abs (mant d) in
  let p := 10 ^ Z.of_nat (scale d) in
  let sign := if mant d <? 0 then "-" else EmptyString in
  let frac :=
    match scale d with
    | O => "0"
    | S _ => padded (scale d) (a mod p)
    end in
  sign +:+ pretty (a / p) +:+ "." +:+ frac.

Record dt := {
  year : Z; month : Z; day : Z; hour : Z; minute : Z; second : Z
}.

Definition leap (y : Z) : bool :=
  ((y mod 4 =? 0) && negb (y mod 100 =? 0)) || (y mod 400 =? 0).

Definition days_in_month (y m : Z) : Z :=
  if m =? 2 then (if leap y then 29 else 28)
  else if (m =? 4) || (m =? 6) || (m =? 9) || (m =? 11) then 30
  else 31.

Definition dt_of_str (s : string) : option dt :=
  match chars s with
  | [y1; y2; y3; y4; "-"; m1; m2; "-"; d1; d2; " ";
     h1; h2; ":"; n1; n2; ":"; s1; s2]%char =>
      y ← digits [y1; y2; y3; y4] 0;
      m ← digits [m1; m2] 0;
      d ← digits [d1; d2] 0;
      h ← digits [h1; h2] 0;
      n ← digits [n1; n2] 0;
      sec ← digits [s1; s2] 0;
      if (1 <=? y) && (1 <=? m) && (m <=? 12) && (1 <=? d)
         && (d <=? days_in_month y m) && (h <=? 23) && (n <=? 59)
         && (sec <=? 59)
      then Some {| year := y; month := m; day := d;
                   hour := h; minute := n; second := sec |}
      else None
  | _ => None
  end.

Definition dt_str (d : dt) : string :=
  padded 4 (year d) +:+ "-" +:+ padded 2 (month d) +:+ "-"
    +:+ padded 2 (day d) +:+ " " +:+ padded 2 (hour d) +:+ ":"
    +:+ padded 2 (minute d) +:+ ":" +:+ padded 2 (second d).

Definition dt_eqb (a b : dt) : bool :=
  (year a =? year b) && (month a =? month b) && (day a =? day b)
  && (hour a =? hour b) && (minute a =? minute b) && (second a =? second b).
End Runtime.

Definition decimal_runtime : PyLib :=
  {| pyfloat := Runtime.dec;
     datetime := Runtime.dt;
     float_eqb := Runtime.dec_eqb;
     datetime_eqb := Runtime.dt_eqb;
     float_truthy := fun f => negb (Runtime.mant f =? 0);
     float_of_str := Runtime.dec_of_str;
     float_of_int := fun z => Some {| Runtime.mant := z; Runtime.scale := O |};
     float_str := Runtime.dec_str;
     strptime := Runtime.dt_of_str;
     strftime := Runtime.dt_str;
     datetime_str := Runtime.dt_str |}.

(** ** scraper.py

    The upstream source is a script of outcomes, one per call of
    [session.post] in call order (the way the repository's tests mock
    it); when the script is used up the source no longer answers.  The
    calls and the sleeps are recorded in order.  The rate limiter
    ([sleep_and_retry], [limits]) only delays a call and is not
    modelled. *)

Section Scraper.
Context `{PyLib}.

(** The decoded JSON body: [r_count] and [r_list] are the values under
    'count' and 'list' (None: the key is missing), [r_other] tells
    whether the dict has further keys. *)
Record ApiResult := {
  r_count : option Z;
  r_list : option (list pydict);
  r_other : bool
}.

Inductive transport_error := ConnectionError | Timeout | HTTPError.

Inductive outcome :=
| Response (result : ApiResult)
| TransportFailure (e : transport_error)
| JSONDecodeError
| OtherException.

Record FormData := {
  f_limit : Z;
  f_current : Z;
  pubDateStartTime : string;
  pubDateEndTime : string;
  prodPcatid : string;
  prodCatid : string;
  prodName : string
}.

Inductive event :=
| Post (data : FormData)
| Sleep (seconds : Z).

Record Network := {
  pending : list outcome;
  events : list event
}.

Definition post (nw : Network) (data : FormData) : Network * outcome :=
  let nw' := {| pending := tail (pending nw);
                events := events nw ++ [Post data] |} in
  match pending nw with
  | o :: _ => (nw', o)
  | [] => (nw', TransportFailure ConnectionError)
  end.

Definition sleep (nw : Network) (seconds : Z) : Network :=
  {| pending := pending nw; events := events nw ++ [Sleep seconds] |}.

(** The loop [for attempt in range(max_attempts)] from [attempt] on,
    with [remaining] turns left. *)
Fixpoint request_loop (max_attempts : nat) (interval : Z)
  (remaining attempt : nat) (nw : Network) (data : FormData)
  : Network * option ApiResult :=
  match remaining with
  | O => (nw, None)
  | S remaining =>
      match post nw data with
      | (nw, Response result) => (nw, Some result)
      | (nw, TransportFailure _) =>
          let is_last_attempt := Nat.eqb attempt (max_attempts - 1) in
          if is_last_attempt then (nw, None)
          else request_loop max_attempts interval remaining (S attempt)
                 (sleep nw interval) data
      | (nw, JSONDecodeError) => (nw, None)
      | (nw, OtherException) => (nw, None)
      end
  end.

Definition make_request_with (max_attempts : nat) (interval : Z)
  (nw : Network) (data : FormData) : Network * option ApiResult :=
  request_loop max_attempts interval max_attempts 0%nat nw data.

Definition _make_request : Network -> FormData -> Network * option ApiResult :=
  make_request_with Config.RETRY_MAX_ATTEMPTS Config.RETRY_INTERVAL.

(** The keyword filters of [scrape_page]. *)
Record Filters := {
  pub_date_start_time : string;
  pub_date_end_time : string;
  prod_pcatid : string;
  prod_catid : string;
  prod_name : string
}.

Definition no_filters : Filters :=
  {| pub_date_start_time := EmptyString; pub_date_end_time := EmptyString;
     prod_pcatid := EmptyString; prod_catid := EmptyString;
     prod_name := EmptyString |}.

Definition scrape_page (nw : Network) (limit current : Z) (kw : Filters)
  : Network * option ApiResult :=
  let form_data :=
    {| f_limit := limit;
       f_current := current;
       pubDateStartTime := pub_date_start_time kw;
       pubDateEndTime := pub_date_end_time kw;
       prodPcatid := prod_pcatid kw;
       prodCatid := prod_catid kw;
       prodName := prod_name kw |} in
  _make_request nw form_data.

(** bool(result) for a dict *)
Definition result_truthy (r : ApiResult) : bool :=
  bool_decide (is_Some (r_count r)) || bool_decide (is_Some (r_list r))
  || r_other r.

(** bool(max_pages) for an Optional[int] *)
Definition opt_truthy (n : option Z) : bool :=
  match n with
  | Some z => negb (z =? 0)
  | None => false
  end.

Definition opt_ge (current_page : Z) (max_pages : option Z) : bool :=
  match max_pages with
  | Some m => opt_truthy max_pages && (m <=? current_page)
  | None => false
  end.

Section Walk.
(** The state the save callback closes over. *)
Context {S' : Type}.
Variable limit : Z.
Variable max_pages : option Z.
Variable save_callback : option (list pydict -> S' -> S' * pyresult Z).
Variable kwargs : Filters.

Record WalkState := {
  all_records : list pydict;
  current_page : Z;
  total_count : option Z;
  total_pages : Z;
  total_saved : Z;
  closure : S'
}.

(** total_pages = (total_count + limit - 1) // limit, clamped *)
Definition count_pages (count : Z) : pyresult Z :=
  if limit =? 0 then
    Raise (Exn ZeroDivisionError "integer division or modulo by zero")
  else
    let total_pages := (count + limit - 1) / limit in
    Ok (match max_pages with
        | Some m =>
            if opt_truthy max_pages && (m <? total_pages) then m
            else total_pages
        | None => total_pages
        end).

Definition set_totals (st : WalkState) (count : option Z) (pages : Z)
  : WalkState :=
  {| all_records := all_records st;
     current_page := current_page st;
     total_count := count;
     total_pages := pages;
     total_saved := total_saved st;
     closure := closure st |}.

(** all_records.extend(page_records) *)
Definition extend_records (st : WalkState) (page_records : list pydict)
  : WalkState :=
  {| all_records := all_records st ++ page_records;
     current_page := current_page st;
     total_count := total_count st;
     total_pages := total_pages st;
     total_saved := total_saved st;
     closure := closure st |}.

(** The callback has run: its state, and total_saved += saved_count. *)
Definition saved (st : WalkState) (c : S') (saved_count : Z) : WalkState :=
  {| all_records := all_records st;
     current_page := current_page st;
     total_count := total_count st;
     total_pages := total_pages st;
     total_saved := total_saved st + saved_count;
     closure := c |}.

(** current_page += 1 *)
Definition next_page (st : WalkState) : WalkState :=
  {| all_records := all_records st;
     current_page := current_page st + 1;
     total_count := total_count st;
     total_pages := total_pages st;
     total_saved := total_saved st;
     closure := closure st |}.

(** if total_count is None: ... *)
Definition note_totals (st : WalkState) (result : ApiResult)
  : pyresult WalkState :=
  match total_count st with
  | None =>
      let count := default 0 (r_count result) in
      pages ← count_pages count;
      Ok (set_totals st (Some count) pages)
  | Some _ => Ok st
  end.

(** if save_callback and page_records: ... else: ... *)
Definition keep_page (st : WalkState) (page_records : list pydict)
  : WalkState :=
  match save_callback, page_records with
  | Some callback, _ :: _ =>
      match callback page_records (closure st) with
      | (c, Ok saved_count) => saved st c saved_count
      | (c, Raise _) => saved st c 0
      end
  | _, _ => extend_records st page_records
  end.

(** The body of [while True] from [st] on; [fuel] bounds the number
    of turns.  [None] is returned only when the fuel runs out. *)
Fixpoint walk (fuel : nat) (nw : Network) (st : WalkState)
  : Network * WalkState * option (pyresult unit) :=
  match fuel with
  | O => (nw, st, None)
  | S fuel =>
      match scrape_page nw limit (current_page st) kwargs with
      | (nw, None) => (nw, st, Some (Ok tt))
      | (nw, Some result) =>
          if negb (result_truthy result) then (nw, st, Some (Ok tt))
          else
            match note_totals st result with
            | Raise e => (nw, st, Some (Raise e))
            | Ok st =>
                let page_records := default [] (r_list result) in
                let st := keep_page st page_records in
                if Z.of_nat (length page_records) <? limit then
                  (nw, st, Some (Ok tt))
                else if opt_ge (current_page st) max_pages then
                  (nw, st, Some (Ok tt))
                else walk fuel (sleep nw 1) (next_page st)
            end
      end
  end.
End Walk.

Definition scrape_all_pages {S' : Type} (nw : Network) (c : S')
  (limit : Z) (max_pages : option Z)
  (save_callback : option (list pydict -> S' -> S' * pyresult Z))
  (kwargs : Filters) : Network * S' * pyresult (list pydict) :=
  let st0 :=
    {| all_records := [];
       current_page := 1;
       total_count := None;
       total_pages := 0;
       total_saved := 0;
       closure := c |} in
  match walk limit max_pages save_callback kwargs
          (S (length (pending nw))) nw st0 with
  | (nw, st, Some (Raise e)) => (nw, closure st, Raise e)
  | (nw, st, _) =>
      (nw, closure st,
       Ok (match save_callback with
           | Some _ => []
           | None => all_records st
           end))
  end.

Definition scrape_by_date_range {S' : Type} (nw : Network) (c : S')
  (start_date end_date : string) (limit : Z) (max_pages : option Z)
  (save_callback : option (list pydict -> S' -> S' * pyresult Z))
  : Network * S' * pyresult (list pydict) :=
  scrape_all_pages nw c limit max_pages save_callback
    {| pub_date_start_time := start_date;
       pub_date_end_time := end_date;
       prod_pcatid := EmptyString;
       prod_catid := EmptyString;
       prod_name := EmptyString |}.

Definition scrape_by_product {S' : Type} (nw : Network) (c : S')
  (prod_name prod_catid : string) (limit : Z) (max_pages : option Z)
  (save_callback : option (list pydict -> S' -> S' * pyresult Z))
  : Network * S' * pyresult (list pydict) :=
  scrape_all_pages nw c limit max_pages save_callback
    {| pub_date_start_time := EmptyString;
       pub_date_end_time := EmptyString;
       prod_pcatid := EmptyString;
       prod_catid := prod_catid;
       prod_name := prod_name |}.

(** The methods of the class [XinfadiScraper]. *)
Inductive method :=
| M_init | M_make_request | M_scrape_page | M_scrape_all_pages
| M_scrape_by_date_range | M_scrape_by_product | M_scrape_latest
| M_close | M_enter | M_exit.

Definition XinfadiScraper : list (string * method) :=
  [("__init__", M_init); ("_make_request", M_make_request);
   ("scrape_page", M_scrape_page); ("scrape_all_pages", M_scrape_all_pages);
   ("scrape_by_date_range", M_scrape_by_date_range);
   ("scrape_by_product", M_scrape_by_product);
   ("scrape_latest", M_scrape_latest); ("close", M_close);
   ("__enter__", M_enter); ("__exit__", M_exit)].

Fixpoint lookup_method (cls : list (string * method)) (name : string)
  : option method :=
  match cls with
  | [] => None
  | (n, m) :: rest => if String.eqb n name then Some m else lookup_method rest name
  end.

(** self.scraper.<name> *)
Definition getattr (name : string) : pyresult method :=
  match lookup_method XinfadiScraper name with
  | Some m => Ok m
  | None =>
      Raise (Exn AttributeError
               ("'XinfadiScraper' object has no attribute '" +:+ name +:+ "'"))
  end.

(** The keyword arguments that [scrape_all_pages] hands on to
    [scrape_page]. *)
Fixpoint filters_of (kwargs : list (string * string)) (kw : Filters)
  : pyresult Filters :=
  match kwargs with
  | [] => Ok kw
  | (k, v) :: rest =>
      let set f := filters_of rest f in
      if String.eqb k "pub_date_start_time" then
        set {| pub_date_start_time := v;
               pub_date_end_time := pub_date_end_time kw;
               prod_pcatid := prod_pcatid kw; prod_catid := prod_catid kw;
               prod_name := prod_name kw |}
      else if String.eqb k "pub_date_end_time" then
        set {| pub_date_start_time := pub_date_start_time kw;
               pub_date_end_time := v;
               prod_pcatid := prod_pcatid kw; prod_catid := prod_catid kw;
               prod_name := prod_name kw |}
      else if String.eqb k "prod_pcatid" then
        set {| pub_date_start_time := pub_date_start_time kw;
               pub_date_end_time := pub_date_end_time kw;
               prod_pcatid := v; prod_catid := prod_catid kw;
               prod_name := prod_name kw |}
      else if String.eqb k "prod_catid" then
        set {| pub_date_start_time := pub_date_start_time kw;
               pub_date_end_time := pub_date_end_time kw;
               prod_pcatid := prod_pcatid kw; prod_catid := v;
               prod_name := prod_name kw |}
      else if String.eqb k "prod_name" then
        set {| pub_date_start_time := pub_date_start_time kw;
               pub_date_end_time := pub_date_end_time kw;
               prod_pcatid := prod_pcatid kw; prod_catid := prod_catid kw;
               prod_name := v |}
      else
        Raise (Exn TypeError
                 ("scrape_page() got an unexpected keyword argument '"
                  +:+ k +:+ "'"))
  end.

(** A call [m(limit=..., max_pages=..., save_callback=..., **kwargs)]
    of a method found on the scraper. *)
Definition invoke {S' : Type} (m : method) (nw : Network) (c : S')
  (limit : Z) (max_pages : option Z)
  (save_callback : option (list pydict -> S' -> S' * pyresult Z))
  (kwargs : list (string * string))
  : Network * S' * pyresult (list pydict) :=
  match m with
  | M_scrape_all_pages =>
      match filters_of kwargs no_filters with
      | Ok kw => scrape_all_pages nw c limit max_pages save_callback kw
      | Raise e => (nw, c, Raise e)
      end
  | M_scrape_by_product =>
      if forallb (fun kv => String.eqb (fst kv) "prod_name"
                            || String.eqb (fst kv) "prod_catid") kwargs then
        match filters_of kwargs no_filters with
        | Ok kw =>
            scrape_by_product nw c (prod_name kw) (prod_catid kw)
              limit max_pages save_callback
        | Raise e => (nw, c, Raise e)
        end
      else
        (nw, c, Raise (Exn TypeError "scrape_by_product() got an unexpected keyword argument"))
  | _ =>
      (nw, c, Raise (Exn TypeError "the method does not take these arguments"))
  end.
End Scraper.

(** ** data_manager.py

    [clock n] is the day [n] days before now, formatted '%Y-%m-%d'.  The
    summary leaves out the elapsed wall-clock duration. *)

Section DataManager.
Context `{PyLib}.

Record Summary := {
  s_status : string;
  s_message : string;
  s_total_records : Z;
  s_new_records : Z;
  s_updated_records : Z
}.

Record Totals := {
  t_total_records : Z;
  t_total_new_count : Z;
  t_total_updated_count : Z
}.

(** The closure [save_callback] of [sync_data]: it writes to the
    session and to the three nonlocal counters. *)
Definition save_callback (page_records : list pydict) (c : Session * Totals)
  : (Session * Totals) * pyresult Z :=
  match page_records with
  | [] => (c, Ok 0)
  | _ =>
      match bulk_create_or_update (fst c) page_records with
      | (_, db, Ok (new_count, updated_count)) =>
          ((db,
            {| t_total_records :=
                 t_total_records (snd c) + Z.of_nat (length page_records);
               t_total_new_count := t_total_new_count (snd c) + new_count;
               t_total_updated_count :=
                 t_total_updated_count (snd c) + updated_count |}),
           Ok (new_count + updated_count))
      | (_, db, Raise e) => ((db, snd c), Raise e)
      end
  end.

Definition warning_summary : Summary :=
  {| s_status := "warning";
     s_message := "未获取到任何数据";
     s_total_records := 0;
     s_new_records := 0;
     s_updated_records := 0 |}.

Definition error_summary (e : exn) : Summary :=
  {| s_status := "error";
     s_message := "数据同步失败: " +:+ exn_str e;
     s_total_records := 0;
     s_new_records := 0;
     s_updated_records := 0 |}.

(** The tail of the try block: the audit entry and the summary. *)
Definition log_success (db : Session) (records_count new_count updated_count : Z)
  : Session * pyresult Summary :=
  match create_log db records_count new_count updated_count "success" None with
  | (db, Raise e) => (db, Raise e)
  | (db, Ok _) =>
      (db,
       Ok {| s_status := "success";
             s_message := "数据同步完成";
             s_total_records := records_count;
             s_new_records := new_count;
             s_updated_records := updated_count |})
  end.

(** The scraper call of either branch: the date window when days_back
    is truthy, [self.scraper.scrape_all] otherwise. *)
Definition scrape {S' : Type} (nw : Network) (c : S') (clock : Z -> string)
  (limit : Z) (max_pages days_back : option Z)
  (callback : option (list pydict -> S' -> S' * pyresult Z))
  (kwargs : list (string * string))
  : Network * S' * pyresult (list pydict) :=
  match days_back with
  | Some days =>
      if opt_truthy days_back then
        scrape_by_date_range nw c (clock days) (clock 0) limit max_pages callback
      else
        match getattr "scrape_all" with
        | Ok m => invoke m nw c limit max_pages callback kwargs
        | Raise e => (nw, c, Raise e)
        end
  | None =>
      match getattr "scrape_all" with
      | Ok m => invoke m nw c limit max_pages callback kwargs
      | Raise e => (nw, c, Raise e)
      end
  end.

(** The try block of [sync_data]. *)
Definition sync_try (db : Session) (nw : Network) (clock : Z -> string)
  (limit : Z) (max_pages days_back : option Z) (immediate_save : bool)
  (kwargs : list (string * string))
  : Session * Network * pyresult Summary :=
  if immediate_save then
    let totals0 :=
      {| t_total_records := 0; t_total_new_count := 0;
         t_total_updated_count := 0 |} in
    match scrape nw (db, totals0) clock limit max_pages days_back
            (Some save_callback) kwargs with
    | (nw, (db, _), Raise e) => (db, nw, Raise e)
    | (nw, (db, totals), Ok _) =>
        if t_total_records totals =? 0 then (db, nw, Ok warning_summary)
        else
          match log_success db (t_total_records totals)
                  (t_total_new_count totals) (t_total_updated_count totals) with
          | (db, r) => (db, nw, r)
          end
    end
  else
    match scrape nw tt clock limit max_pages days_back None kwargs with
    | (nw, _, Raise e) => (db, nw, Raise e)
    | (nw, _, Ok records) =>
        match records with
        | [] => (db, nw, Ok warning_summary)
        | _ =>
            match bulk_create_or_update db records with
            | (_, db, Raise e) => (db, nw, Raise e)
            | (_, db, Ok (new_count, updated_count)) =>
                match log_success db (Z.of_nat (length records))
                        new_count updated_count with
                | (db, r) => (db, nw, r)
                end
            end
        end
    end.

(** [sync_data]: the try block and its handler.  The handler writes
    the error entry inside its own try whose except clause passes. *)
Definition sync_data (db : Session) (nw : Network) (clock : Z -> string)
  (limit : Z) (max_pages days_back : option Z) (immediate_save : bool)
  (kwargs : list (string * string))
  : Session * Network * pyresult Summary :=
  match sync_try db nw clock limit max_pages days_back immediate_save kwargs with
  | (db, nw, Ok summary) => (db, nw, Ok summary)
  | (db, nw, Raise e) =>
      match create_log db 0 0 0 "error" (Some (exn_str e)) with
      | (db, _) => (db, nw, Ok (error_summary e))
      end
  end.

Definition sync_incremental (db : Session) (nw : Network)
  (clock : Z -> string) (days : Z) : Session * Network * pyresult Summary :=
  sync_data db nw clock 50 None (Some days) true [].

Definition sync_by_product (db : Session) (nw : Network)
  (clock : Z -> string) (prod_name prod_catid : string) (limit : Z)
  : Session * Network * pyresult Summary :=
  sync_data db nw clock limit None None true
    [("prod_name", prod_name); ("prod_catid", prod_catid)].
End DataManager.

(** * Vocabulary of the properties *)

(** ** Events of the fetch client *)

Section FetchVocabulary.
Context `{PyLib}.

(** The outcome of the i-th coming call of [session.post]. *)
Definition coming (nw : Network) (i : nat) : outcome :=
  default (TransportFailure ConnectionError) (pending nw !! i).

Definition is_transport (o : outcome) : bool :=
  match o with TransportFailure _ => true | _ => false end.

(** The requests and the sleeps among the recorded events. *)
Fixpoint posts (evs : list event) : list FormData :=
  match evs with
  | [] => []
  | Post d :: evs => d :: posts evs
  | Sleep _ :: evs => posts evs
  end.

Fixpoint sleeps (evs : list event) : list Z :=
  match evs with
  | [] => []
  | Post _ :: evs => sleeps evs
  | Sleep s :: evs => s :: sleeps evs
  end.

(** [n] attempts with a sleep between two of them *)
Fixpoint retry_events (n : nat) (data : FormData) (interval : Z) : list event :=
  match n with
  | O => []
  | S O => [Post data]
  | S n' => Post data :: Sleep interval :: retry_events n' data interval
  end.
End FetchVocabulary.

(** ** Pages of the pagination driver *)

Section PaginationVocabulary.
Context `{PyLib}.

(** result.get('list', []) *)
Definition page_of (r : ApiResult) : list pydict := default [] (r_list r).

(** The form that [scrape_page] posts. *)
Definition form_data (limit current : Z) (kw : Filters) : FormData :=
  {| f_limit := limit;
     f_current := current;
     pubDateStartTime := pub_date_start_time kw;
     pubDateEndTime := pub_date_end_time kw;
     prodPcatid := prod_pcatid kw;
     prodCatid := prod_catid kw;
     prodName := prod_name kw |}.

(** No rule of the loop ends the walk on page [page] answered by [r]:
    the body is not empty, the page is full, and the page cap, if
    there is one, is not reached. *)
Definition continues (limit : Z) (max_pages : option Z) (page : Z)
  (r : ApiResult) : bool :=
  result_truthy r
  && negb (Z.of_nat (length (page_of r)) <? limit)
  && negb (opt_ge page max_pages).

(** The requests for [k] pages from page [p] on, each followed by the
    pause of one second. *)
Fixpoint page_events (limit : Z) (kw : Filters) (p : Z) (k : nat)
  : list event :=
  match k with
  | O => []
  | S k' =>
      Post (form_data limit p kw) :: Sleep 1
        :: page_events limit kw (p + 1) k'
  end.

(** The page numbers of the requests, in order. *)
Definition requested (evs : list event) : list Z :=
  map f_current (posts evs).

(** The pages 1, ..., n *)
Definition first_pages (n : nat) : list Z := map Z.of_nat (seq 1 n).

(** The state the callback closes over, after the page answered by
    [r]: a page that is not empty goes through the callback. *)
Definition page_closure {S' : Type}
  (callback : option (list pydict -> S' -> S' * pyresult Z))
  (c : S') (r : ApiResult) : S' :=
  match callback, page_of r with
  | Some cb, _ :: _ => fst (cb (page_of r) c)
  | _, _ => c
  end.

(** One turn of the loop that goes on to the next page. *)
Definition turn {S' : Type} (limit : Z) (max_pages : option Z)
  (callback : option (list pydict -> S' -> S' * pyresult Z))
  (st : @WalkState _ S') (r : ApiResult) : @WalkState _ S' :=
  match note_totals limit max_pages st r with
  | Ok st1 => next_page (keep_page callback st1 (page_of r))
  | Raise _ => st
  end.

(** The fetch of page [page] fails on the script [script]. *)
Definition fetch_fails (limit page : Z) (kw : Filters)
  (script : list outcome) : Prop :=
  forall evs,
    snd (scrape_page {| pending := script; events := evs |} limit page kw)
    = None.
End PaginationVocabulary.

(** ** Audit entries of the orchestrator *)



Section SyncVocabulary.
Context `{PyLib}.



(** The filters of the date window of [days] days. *)
Definition window (clock : Z -> string) (days : Z) : Filters :=
  {| pub_date_start_time := clock days;
     pub_date_end_time := clock 0;
     prod_pcatid := EmptyString;
     prod_catid := EmptyString;
     prod_name := EmptyString |}.


End SyncVocabulary.

(** The exception of the lookup [self.scraper.scrape_all]. *)
Definition no_scrape_all : exn :=
  Exn AttributeError "'XinfadiScraper' object has no attribute 'scrape_all'".

(** ** Storage vocabulary *)

Section StorageVocabulary.
Context `{PyLib}.

(** Same audit table and same pending faults. *)
Definition same_audit (db db' : Session) : Prop :=
  tbl_scraping_logs db' = tbl_scraping_logs db
  /\ log_faults db' = log_faults db.

(** A record with a product name whose publish date is a text that
    [strptime] rejects. *)
Definition unparseable (record : pydict) : Prop :=
  truthy (dget record "prodName") = true
  /\ exists s, dget record "pubDate" = VStr s
               /\ s <> EmptyString /\ strptime s = None.
End StorageVocabulary.

(** ** Records of the upstream shape

    A record as the upstream source sends it: the thirteen business
    fields, the provenance fields, and an id when the source gives
    one.  [to_dict] is the dict that the ingestion path receives. *)

Section UpstreamRecords.
Context `{PyLib}.

Record ApiRecord := {
  a_id : option Z;
  a_prodName : string;
  a_prodCatid : pyval;
  a_prodCat : pyval;
  a_prodPcatid : pyval;
  a_prodPcat : pyval;
  a_lowPrice : pyval;
  a_highPrice : pyval;
  a_avgPrice : pyval;
  a_place : option string;
  a_specInfo : option string;
  a_unitInfo : pyval;
  a_pubDate : pyval;
  a_status : pyval;
  a_userIdCreate : pyval;
  a_userIdModified : pyval;
  a_userCreate : pyval;
  a_userModified : pyval;
  a_gmtCreate : option datetime;
  a_gmtModified : option datetime
}.

Definition opt_str (o : option string) : pyval :=
  match o with Some s => VStr s | None => VNone end.


Definition opt_date (o : option datetime) : pyval :=
  match o with Some d => VDate d | None => VNone end.

Definition id_entry (r : ApiRecord) : pydict :=
  match a_id r with
  | Some z => [("id", VInt z)]
  | None => []
  end.

Definition to_dict (r : ApiRecord) : pydict :=
  id_entry r ++
  [("prodName", VStr (a_prodName r));
   ("prodCatid", a_prodCatid r);
   ("prodCat", a_prodCat r);
   ("prodPcatid", a_prodPcatid r);
   ("prodPcat", a_prodPcat r);
   ("lowPrice", a_lowPrice r);
   ("highPrice", a_highPrice r);
   ("avgPrice", a_avgPrice r);
   ("place", opt_str (a_place r));
   ("specInfo", opt_str (a_specInfo r));
   ("unitInfo", a_unitInfo r);
   ("pubDate", a_pubDate r);
   ("status", a_status r);
   ("userIdCreate", a_userIdCreate r);
   ("userIdModified", a_userIdModified r);
   ("userCreate", a_userCreate r);
   ("userModified", a_userModified r);
   ("gmtCreate", opt_date (a_gmtCreate r));
   ("gmtModified", opt_date (a_gmtModified r))].

(** The publish timestamp is a text that parses, or a datetime. *)
Definition date_ok (v : pyval) : Prop :=
  (exists s d, v = VStr s /\ s <> EmptyString /\ strptime s = Some d)
  \/ (exists d, v = VDate d).

(** The price is null or converts to a float. *)
Definition price_ok (v : pyval) : Prop :=
  v = VNone \/ exists f, py_float v = Ok f.


(** A record the ingestion path can store: a product name, a
    publish timestamp that parses, prices that are null or numeric. *)
Record well_formed (r : ApiRecord) : Prop := {
  wf_name : a_prodName r <> EmptyString;
  wf_date : date_ok (a_pubDate r);
  wf_low : price_ok (a_lowPrice r);
  wf_high : price_ok (a_highPrice r);
  wf_avg : price_ok (a_avgPrice r)
}.

(** The price as [create] stores it. *)
Definition stored_price (v : pyval) : pyval :=
  if truthy v then
    match py_float v with
    | Ok f => VFloat f
    | Raise _ => VNone
    end
  else VNone.

(** The price as a query binds it. *)
Definition bound_price (v : pyval) : pyval :=
  match v with
  | VNone => VNone
  | _ =>
      match py_float v with
      | Ok f => VFloat f
      | Raise _ => VNone
      end
  end.

Definition parsed_date (v : pyval) : pyval :=
  match v with
  | VStr s =>
      match strptime s with
      | Some d => VDate d
      | None => VNone
      end
  | _ => v
  end.

(** The row that [create] stores for [r] under the id [id]. *)
Definition row_of (r : ApiRecord) (id : Z) : PriceDataRow :=
  [("id", VInt id);
   ("prod_name", VStr (a_prodName r));
   ("prod_catid", a_prodCatid r);
   ("prod_cat", a_prodCat r);
   ("prod_pcatid", a_prodPcatid r);
   ("prod_pcat", a_prodPcat r);
   ("low_price", stored_price (a_lowPrice r));
   ("high_price", stored_price (a_highPrice r));
   ("avg_price", stored_price (a_avgPrice r));
   ("place", opt_str (a_place r));
   ("spec_info", opt_str (a_specInfo r));
   ("unit_info", a_unitInfo r);
   ("pub_date", parsed_date (a_pubDate r));
   ("status", a_status r);
   ("user_id_create", a_userIdCreate r);
   ("user_id_modified", a_userIdModified r);
   ("user_create", a_userCreate r);
   ("user_modified", a_userModified r);
   ("gmt_create", opt_date (a_gmtCreate r));
   ("gmt_modified", opt_date (a_gmtModified r))].

(** The thirteen comparisons of the exact-match query for [r], with
    the values as the query binds them. *)
Definition bound_filter (r : ApiRecord) : list (string * pyval) :=
  [("prod_name", VStr (a_prodName r));
   ("prod_catid", a_prodCatid r);
   ("prod_cat", a_prodCat r);
   ("prod_pcatid", a_prodPcatid r);
   ("prod_pcat", a_prodPcat r);
   ("low_price", bound_price (a_lowPrice r));
   ("high_price", bound_price (a_highPrice r));
   ("avg_price", bound_price (a_avgPrice r));
   ("place", py_or (opt_str (a_place r)) (VStr EmptyString));
   ("spec_info", py_or (opt_str (a_specInfo r)) (VStr EmptyString));
   ("unit_info", a_unitInfo r);
   ("pub_date", parsed_date (a_pubDate r));
   ("status", a_status r)].

(** The stored row [x] differs from the record in a business-key
    field, as the lookup compares them. *)
Definition differs (r : ApiRecord) (x : PriceDataRow) : Prop :=
  exists c q, In (c, q) (bound_filter r) /\ sql_match (dget x c) q = false.




(** The key of the batch for [r], given the text of its publish date. *)
Definition key_of (r : ApiRecord) (date_str : string) : string :=
  unique_key (VStr (a_prodName r)) (a_prodCatid r) (a_prodCat r)
    (a_prodPcatid r) (a_prodPcat r) (a_lowPrice r) (a_highPrice r)
    (a_avgPrice r) (py_or (opt_str (a_place r)) (VStr EmptyString))
    (py_or (opt_str (a_specInfo r)) (VStr EmptyString)) (a_unitInfo r)
    date_str (a_status r).

End UpstreamRecords.

(** ** Sample data

    The records of the repository's deduplication tests, evaluated with
    the example runtime. *)

Module Samples.
#[local] Existing Instance decimal_runtime.

Definition empty_db : Session :=
  {| tbl_price_data := []; tbl_scraping_logs := []; log_faults := [] |}.

(** test_bulk_create_or_update_deduplication *)
Definition orange : pydict :=
  [("prodName", VStr "橙子"); ("prodCat", VStr "水果");
   ("prodCatid", VStr "003"); ("prodPcat", VStr "农产品");
   ("prodPcatid", VStr "100"); ("specInfo", VStr "脐橙");
   ("place", VStr "江西"); ("pubDate", VStr "2024-01-15 10:00:00");
   ("lowPrice", VStr "4.0"); ("highPrice", VStr "6.0");
   ("avgPrice", VStr "5.0"); ("unitInfo", VStr "斤");
   ("status", VStr "正常")].

(** test_any_field_change_creates_unique_record *)
Definition melon : pydict :=
  [("prodName", VStr "西瓜"); ("prodCat", VStr "水果");
   ("prodCatid", VStr "006"); ("prodPcat", VStr "农产品");
   ("prodPcatid", VStr "100"); ("specInfo", VStr "无籽");
   ("place", VStr "新疆"); ("pubDate", VStr "2024-01-15 10:00:00");
   ("lowPrice", VStr "2.0"); ("highPrice", VStr "4.0");
   ("avgPrice", VStr "3.0"); ("unitInfo", VStr "斤");
   ("status", VStr "正常")].


(** A record with a product name and a publish date and no place. *)
Definition plain : pydict :=
  [("prodName", VStr "白菜"); ("pubDate", VStr "2024-01-15 10:00:00")].

Definition rows_after (x : list pydict * Session * pyresult (Z * Z))
  : list PriceDataRow := tbl_price_data (snd (fst x)).

Definition counts (x : list pydict * Session * pyresult (Z * Z))
  : pyresult (Z * Z) := snd x.
End Samples.

Module MoreSamples.
#[local] Existing Instance decimal_runtime.
Import Samples.

(** The orange record with a publish date in another format. *)
Definition orange_bad_date : pydict :=
  dset orange "pubDate" (VStr "15/01/2024").

(** Records that carry the id of the upstream source. *)
Definition melon_7 : pydict := ("id", VInt 7) :: melon.


(** Storage after [create] of [melon_7]. *)
Definition db_melon_7 : Session := snd (fst (create empty_db melon_7)).

Definition stored_melon_7 : PriceDataRow :=
  default [] (head (tbl_price_data db_melon_7)).

(** The melon of the tests as a record of the upstream shape, with
    the id, the low price and the place left open. *)
Definition melon_with (id : option Z) (low : pyval) (place : option string)
  : ApiRecord :=
  {| a_id := id;
     a_prodName := "西瓜";
     a_prodCatid := VStr "006";
     a_prodCat := VStr "水果";
     a_prodPcatid := VStr "100";
     a_prodPcat := VStr "农产品";
     a_lowPrice := low;
     a_highPrice := VStr "4.0";
     a_avgPrice := VStr "3.0";
     a_place := place;
     a_specInfo := Some "无籽";
     a_unitInfo := VStr "斤";
     a_pubDate := VStr "2024-01-15 10:00:00";
     a_status := VStr "正常";
     a_userIdCreate := VNone;
     a_userIdModified := VNone;
     a_userCreate := VNone;
     a_userModified := VNone;
     a_gmtCreate := None;
     a_gmtModified := None |}.

Definition melon_record : ApiRecord :=
  melon_with None (VStr "2.0") (Some "新疆").

Definition melon_repriced : ApiRecord :=
  melon_with None (VStr "2.5") (Some "新疆").

(** The same melon without a low price. *)
Definition melon_unpriced : ApiRecord :=
  melon_with None VNone (Some "新疆").

(** The same melon with an empty place, and with a null place. *)
Definition melon_blank_place : ApiRecord :=
  melon_with None (VStr "2.0") (Some EmptyString).

Definition melon_null_place : ApiRecord :=
  melon_with None (VStr "2.0") None.


(** Storage after [create] of a record. *)
Definition db_with (r : ApiRecord) : Session :=
  snd (fst (create empty_db (to_dict r))).


Definition form (current : Z) : FormData :=
  {| f_limit := 20; f_current := current;
     pubDateStartTime := EmptyString; pubDateEndTime := EmptyString;
     prodPcatid := EmptyString; prodCatid := EmptyString;
     prodName := EmptyString |}.

(** A source that fails five times in a row, and one that answers
    with a body that is not JSON. *)
Definition net_down : Network :=
  {| pending :=
       [TransportFailure Timeout; TransportFailure ConnectionError;
        TransportFailure HTTPError; TransportFailure Timeout;
        TransportFailure ConnectionError];
     events := [] |}.

Definition net_garbled : Network :=
  {| pending := [JSONDecodeError]; events := [] |}.

Definition clock (days : Z) : string := "2024-01-15".




End MoreSamples.

Module PageSamples.
#[local] Existing Instance decimal_runtime.
Import Samples.

(** A page of [n] records of a source that reports [count] records. *)
Definition page (count : Z) (n : nat) : ApiResult :=
  {| r_count := Some count;
     r_list := Some (replicate n plain);
     r_other := false |}.

Definition net_of (script : list outcome) : Network :=
  {| pending := script; events := [] |}.

(** 40 records in pages of 20: two full pages, then an empty one. *)
Definition source_40 : Network :=
  net_of [Response (page 40 20); Response (page 40 20);
          Response (page 40 0); Response (page 40 0)].

(** 45 records in pages of 20: 20, 20 and 5 records. *)
Definition source_45 : Network :=
  net_of [Response (page 45 20); Response (page 45 20);
          Response (page 45 5); Response (page 45 0)].

(** A source that reports 45 records and keeps answering with full
    pages. *)
Definition source_45_full : Network :=
  net_of [Response (page 45 20); Response (page 45 20);
          Response (page 45 20); Response (page 45 20);
          Response (page 45 0)].

(** One full page, then a source that is down. *)
Definition source_then_down : Network :=
  net_of (Response (page 45 20) :: pending MoreSamples.net_down).

(** The walk of all pages, accumulating, with pages of 20. *)
Definition walk_20 (nw : Network) : Network * unit * pyresult (list pydict) :=
  scrape_all_pages nw tt 20 None None no_filters.

Definition events_of (x : Network * unit * pyresult (list pydict))
  : list event := events (fst (fst x)).
End PageSamples.

(** * Further vocabulary: the fetch client and the walk *)

Section FetchOutcome.
Context `{PyLib}.

(** What [_make_request] returns when the attempt with outcome [o]
    ends the call. *)
Definition decided (o : outcome) : option ApiResult :=
  match o with
  | Response result => Some result
  | _ => None
  end.

(** The form of a request of a walk: the page size and the filters
    of the walk, with some page number. *)
Definition walk_form (limit : Z) (kwargs : Filters) (d : FormData) : Prop :=
  d = form_data limit (f_current d) kwargs.
End FetchOutcome.

(** ** Further sample data *)

Module ExtraSamples.
#[local] Existing Instance decimal_runtime.
Import Samples MoreSamples PageSamples.

(** A source that answers at the third attempt. *)
Definition net_flaky : Network :=
  net_of [TransportFailure Timeout; TransportFailure HTTPError;
          Response (page 45 20); Response (page 45 20)].
End ExtraSamples.

(** * Further vocabulary: the keys of the deduplication engine *)

Section BatchKeys.
Context `{PyLib}.

(** The key that the loop of [bulk_create_or_update] computes for a
    record of the upstream shape whose publish date can be read. *)
Definition record_key (r : ApiRecord) : string :=
  match date_key (a_pubDate r) with
  | Ok (_, date_str) => key_of r date_str
  | Raise _ => EmptyString
  end.
End BatchKeys.

(** * Further vocabulary: records that keep their key when stored *)

Section StableKeys.
Context `{PyLib}.



End StableKeys.

(** * Further vocabulary: [update] and [delete] *)

Section UpdateKeys.
Context `{PyLib}.

(** The keys of an upstream record that [update] finds neither in
    its field mapping nor among the attributes of the row. *)
Definition unmapped_keys : list string :=
  ["prodCatid"; "prodCat"; "prodPcat"; "specInfo"; "unitInfo";
   "userIdCreate"; "userIdModified"; "userCreate"; "userModified";
   "gmtCreate"; "gmtModified"].

(** PriceDataCRUD.delete: the first row with this id is deleted;
    False when there is none. *)
Definition crud_delete (db : Session) (record_id : Z)
  : Session * pyresult bool :=
  match get_by_id (tbl_price_data db) record_id with
  | None => (db, Ok false)
  | Some (i, _) =>
      (with_price_data db (delete i (tbl_price_data db)), Ok true)
  end.

(** PriceDataCRUD.exists *)
Definition crud_exists (db : Session) (record_id : Z) : bool :=
  match get_by_id (tbl_price_data db) record_id with
  | Some _ => true
  | None => false
  end.

(** The id [record_id] is the id of at most one row. *)
Definition at_most_once (record_id : Z) (rows : list PriceDataRow) : Prop :=
  forall i j x y,
    rows !! i = Some x -> rows !! j = Some y ->
    dget x "id" = VInt record_id -> dget y "id" = VInt record_id ->
    i = j.
End UpdateKeys.

(** * Callers of the orchestrator *)

Section Scheduler.
Context `{PyLib}.

End Scheduler.

Section CommandLine.
Context `{PyLib}.

(** The arguments of the command [sync] of main.py. *)
Record SyncArgs := {
  arg_limit : Z;
  arg_max_pages : option Z;
  arg_days : option Z;
  arg_product : option string;
  arg_category : option string;
  arg_incremental : bool;
  arg_batch_save : bool
}.

(** bool(s) for an Optional[str] *)
Definition text_truthy (s : option string) : bool :=
  match s with
  | Some t => negb (String.eqb t EmptyString)
  | None => false
  end.

Definition keyword (name : string) (value : option string)
  : list (string * string) :=
  match value with
  | Some t => if text_truthy value then [(name, t)] else []
  | None => []
  end.

(** main.py: [sync_data(args)].  [setup] is the outcome of
    [dm.ensure_database_setup()], which propagates. *)
Definition main_sync_data (setup : pyresult unit) (args : SyncArgs)
  (db : Session) (nw : Network) (clock : Z -> string)
  : Session * Network * pyresult bool :=
  match setup with
  | Raise e => (db, nw, Raise e)
  | Ok _ =>
      let days_back :=
        if opt_truthy (arg_days args) then arg_days args else None in
      let kwargs :=
        keyword "prod_name" (arg_product args)
        ++ keyword "prod_catid" (arg_category args) in
      let immediate_save := negb (arg_batch_save args) in
      let run :=
        if arg_incremental args then
          sync_incremental db nw clock
            (if opt_truthy (arg_days args) then default 1 (arg_days args)
             else 1)
        else
          sync_data db nw clock (arg_limit args) (arg_max_pages args)
            days_back immediate_save kwargs in
      match run with
      | (db, nw, Ok result) =>
          (db, nw, Ok (String.eqb (s_status result) "success"))
      | (db, nw, Raise e) => (db, nw, Raise e)
      end
  end.
End CommandLine.

Module CallerSamples.
#[local] Existing Instance decimal_runtime.
Import Samples MoreSamples PageSamples.

(** One page whose only record has a publish date in another format. *)
Definition bad_page : ApiResult :=
  {| r_count := Some 1; r_list := Some [orange_bad_date]; r_other := false |}.

Definition source_bad_page : Network := net_of [Response bad_page].

(** The melon with its low price written without a decimal point. *)
Definition melon_short_price : ApiRecord :=
  melon_with None (VStr "2") (Some "新疆").


(** [sync --limit 20 --product 橙子] *)
Definition args_product : SyncArgs :=
  {| arg_limit := 20; arg_max_pages := None; arg_days := None;
     arg_product := Some "橙子"; arg_category := None;
     arg_incremental := false; arg_batch_save := false |}.
End CallerSamples.

(** * Duplicate groups of the orchestrator *)

Section Duplicates.
Context `{PyLib}.

(** data_manager.py: one entry of the result of
    [get_duplicate_records].  The entry's [pub_date] text is the
    group's date formatted by [isoformat]; it is read by no code and is
    left out here. *)
Record DuplicateGroup := {
  dup_prod_name : pyval;
  dup_avg_price : pyval;
  dup_count : Z;
  record_ids : list Z }.

(** The three comparisons of the query that fetches the rows of the
    group of [head]: product name, publish date and average price, a
    [None] compared by IS NULL. *)
Definition group_filter (head : PriceDataRow) : list (string * pyval) :=
  [("prod_name", dget head "prod_name");
   ("pub_date", dget head "pub_date");
   ("avg_price", dget head "avg_price")].

Definition in_group (head x : PriceDataRow) : bool :=
  row_matches (group_filter head) x.

(** GROUP BY prod_name, pub_date, avg_price: one row per group, the
    groups in the order of their first row. *)
Fixpoint group_heads (seen rows : list PriceDataRow) : list PriceDataRow :=
  match rows with
  | [] => []
  | x :: rest =>
      if existsb (fun head => in_group head x) seen
      then group_heads seen rest
      else x :: group_heads (seen ++ [x]) rest
  end.

(** DataManager.get_duplicate_records *)
Definition get_duplicate_records (db : Session) : list DuplicateGroup :=
  let rows := tbl_price_data db in
  let count head := Z.of_nat (length (List.filter (in_group head) rows)) in
  let duplicates := List.filter (fun head => 1 <? count head) (group_heads [] rows) in
  map (fun dup =>
         let records := List.filter (in_group dup) rows in
         {| dup_prod_name := dget dup "prod_name";
            dup_avg_price := dget dup "avg_price";
            dup_count := count dup;
            record_ids := map row_id records |})
      duplicates.

(** The summary that [clean_duplicates] returns; [duplicate_groups] is
    absent from two of its three shapes. *)
Record CleanSummary := {
  clean_status : string;
  clean_message : string;
  deleted_count : Z;
  duplicate_groups : option Z }.

(** The inner loop of [clean_duplicates] over the ids of one group. *)
Fixpoint delete_ids (db : Session) (ids : list Z) (deleted : Z)
  : Session * pyresult Z :=
  match ids with
  | [] => (db, Ok deleted)
  | record_id :: rest =>
      match crud_delete db record_id with
      | (db', Ok true) => delete_ids db' rest (deleted + 1)
      | (db', Ok false) => delete_ids db' rest deleted
      | (db', Raise e) => (db', Raise e)
      end
  end.

(** [record_ids[:-1]] when the latest row is kept, [record_ids[1:]]
    otherwise. *)
Definition record_ids_to_delete (keep_latest : bool) (record_ids : list Z)
  : list Z :=
  if keep_latest then removelast record_ids else tail record_ids.

(** What one pass of a delete loop keeps: rows are only removed, the
    counter grows by the number of rows removed, the audit table is
    left alone. *)
Definition removes (db db' : Session) (n n' : Z) : Prop :=
  sublist (tbl_price_data db') (tbl_price_data db)
  /\ Z.of_nat (length (tbl_price_data db')) + n'
     = Z.of_nat (length (tbl_price_data db)) + n
  /\ same_audit db db'.

(** The outer loop of [clean_duplicates] over the groups. *)
Fixpoint delete_groups (db : Session) (keep_latest : bool)
    (groups : list DuplicateGroup) (deleted : Z) : Session * pyresult Z :=
  match groups with
  | [] => (db, Ok deleted)
  | dup_group :: rest =>
      match delete_ids db
              (record_ids_to_delete keep_latest (record_ids dup_group))
              deleted with
      | (db', Ok deleted') => delete_groups db' keep_latest rest deleted'
      | (db', Raise e) => (db', Raise e)
      end
  end.

(** DataManager.clean_duplicates *)
Definition clean_duplicates (db : Session) (keep_latest : bool)
  : Session * CleanSummary :=
  let duplicates := get_duplicate_records db in
  match duplicates with
  | [] =>
      (db, {| clean_status := "success";
              clean_message := "未发现重复记录";
              deleted_count := 0;
              duplicate_groups := None |})
  | _ =>
      match delete_groups db keep_latest duplicates 0 with
      | (db', Ok deleted) =>
          (db', {| clean_status := "success";
                   clean_message :=
                     "清理完成，删除了 " +:+ pretty deleted +:+ " 条重复记录";
                   deleted_count := deleted;
                   duplicate_groups := Some (Z.of_nat (length duplicates)) |})
      | (db', Raise e) =>
          (db', {| clean_status := "error";
                   clean_message := "清理失败: " +:+ exn_str e;
                   deleted_count := 0;
                   duplicate_groups := None |})
      end
  end.

(** Every row has an integer id and no two rows share one: the
    primary key of the table. *)
Record keyed (rows : list PriceDataRow) : Prop := {
  keyed_int : forall x, In x rows -> dget x "id" = VInt (row_id x);
  keyed_unique : NoDup (map row_id rows) }.

(** On the rows of the table, agreeing on product name, publish date
    and average price is an equivalence. *)
Record grouped (rows : list PriceDataRow) : Prop := {
  grouped_refl : forall x, In x rows -> in_group x x = true;
  grouped_sym : forall x y,
    In x rows -> In y rows -> in_group x y = true -> in_group y x = true;
  grouped_trans : forall x y z,
    In x rows -> In y rows -> In z rows ->
    in_group x y = true -> in_group y z = true -> in_group x z = true }.
End Duplicates.

Module DuplicateSamples.
Import Samples MoreSamples.
Local Existing Instance decimal_runtime.

(** The melon record from another place of origin. *)
Definition melon_other_place : ApiRecord :=
  melon_with None (VStr "2.0") (Some "山东").

(** Storage after the melon record and its variant were created. *)
Definition db_two_places : Session :=
  snd (fst (create (db_with melon_record) (to_dict melon_other_place))).
End DuplicateSamples.

(** * Properties *)

(** ** Fetch client *)

Section FetchClient.
Context `{PyLib}.

Lemma post_coming nw data :
  post nw data =
    ({| pending := tail (pending nw); events := events nw ++ [Post data] |},
     coming nw 0).
Proof. unfold post, coming. destruct (pending nw); reflexivity. Qed.

Lemma coming_tail nw evs i :
  coming {| pending := tail (pending nw); events := evs |} i = coming nw (S i).
Proof. unfold coming. simpl. destruct (pending nw); reflexivity. Qed.

Lemma request_loop_all_fail max interval data :
  forall remaining attempt nw,
    (attempt + remaining = max)%nat ->
    (forall i, (i < remaining)%nat -> is_transport (coming nw i) = true) ->
    request_loop max interval remaining attempt nw data =
      ({| pending := drop remaining (pending nw);
          events := events nw ++ retry_events remaining data interval |},
       None).
Proof.
  induction remaining as [|r IH]; intros attempt nw Hsum Hfail.
  - simpl. rewrite drop_0, app_nil_r. destruct nw; reflexivity.
  - cbn [request_loop]. rewrite post_coming.
    pose proof (Hfail 0%nat ltac:(lia)) as H0.
    destruct (coming nw 0) as [| e | |]; try discriminate.
    destruct r as [|r'].
    + replace (attempt =? max - 1)%nat with true
        by (symmetry; apply Nat.eqb_eq; lia).
      simpl. destruct (pending nw); reflexivity.
    + replace (attempt =? max - 1)%nat with false
        by (symmetry; apply Nat.eqb_neq; lia).
      rewrite IH.
      * unfold sleep. simpl pending. simpl events.
        f_equal. f_equal.
        -- destruct (pending nw); reflexivity.
        -- rewrite <- !app_assoc. reflexivity.
      * lia.
      * intros i Hi. unfold sleep. simpl pending.
        rewrite coming_tail. apply Hfail. lia.
Qed.

Lemma retry_events_SS n data interval :
  retry_events (S (S n)) data interval =
    Post data :: Sleep interval :: retry_events (S n) data interval.
Proof. reflexivity. Qed.

Lemma posts_retry_events n data interval :
  posts (retry_events n data interval) = replicate n data.
Proof.
  induction n as [|n IH]; [reflexivity|].
  destruct n as [|n']; [reflexivity|].
  rewrite retry_events_SS. cbn [posts].
  rewrite IH. reflexivity.
Qed.

Lemma sleeps_retry_events n data interval :
  sleeps (retry_events n data interval) = replicate (n - 1) interval.
Proof.
  induction n as [|n IH]; [reflexivity|].
  destruct n as [|n']; [reflexivity|].
  rewrite retry_events_SS. cbn [sleeps].
  rewrite IH. simpl. rewrite Nat.sub_0_r. reflexivity.
Qed.

(** A call answered at once. *)
Lemma make_request_response nw result rest data :
  pending nw = Response result :: rest ->
  _make_request nw data =
    ({| pending := rest; events := events nw ++ [Post data] |}, Some result).
Proof.
  intros Hp. unfold _make_request, make_request_with.
  unfold Config.RETRY_MAX_ATTEMPTS. cbn [request_loop].
  rewrite post_coming. unfold coming. rewrite Hp. reflexivity.
Qed.
End FetchClient.

(** C7.  When every attempt of a call ends in a transport-level failure
    (connection error, timeout or HTTP error), [_make_request] makes
    exactly RETRY_MAX_ATTEMPTS posts with exactly RETRY_MAX_ATTEMPTS - 1
    sleeps of RETRY_INTERVAL seconds between them and returns None; when
    the first attempt ends in a JSON decode failure it makes one post, no
    sleep, and returns None. *)
Theorem C7_retry_bound `{PyLib} (nw : Network) (data : FormData) :
  ((forall i, (i < Config.RETRY_MAX_ATTEMPTS)%nat ->
      is_transport (coming nw i) = true) ->
   exists new,
     _make_request nw data =
       ({| pending := drop Config.RETRY_MAX_ATTEMPTS (pending nw);
           events := events nw ++ new |}, None)
     /\ posts new = replicate Config.RETRY_MAX_ATTEMPTS data
     /\ sleeps new =
          replicate (Config.RETRY_MAX_ATTEMPTS - 1) Config.RETRY_INTERVAL
     /\ new = retry_events Config.RETRY_MAX_ATTEMPTS data Config.RETRY_INTERVAL)
  /\ (coming nw 0 = JSONDecodeError ->
      _make_request nw data =
        ({| pending := tail (pending nw); events := events nw ++ [Post data] |},
         None)).
Proof.
  split.
  - intros Hfail.
    exists (retry_events Config.RETRY_MAX_ATTEMPTS data Config.RETRY_INTERVAL).
    split; [|split; [|split]].
    + unfold _make_request, make_request_with.
      apply request_loop_all_fail; [lia | exact Hfail].
    + apply posts_retry_events.
    + apply sleeps_retry_events.
    + reflexivity.
  - intros Hjson. unfold _make_request, make_request_with.
    unfold Config.RETRY_MAX_ATTEMPTS. cbn [request_loop].
    rewrite post_coming, Hjson. reflexivity.
Qed.

(** ** The ingestion path leaves the audit table alone *)

Section Frame.
Context `{PyLib}.

Lemma same_audit_refl db : same_audit db db.
Proof. split; reflexivity. Qed.


Lemma same_audit_with_price_data db rows :
  same_audit db (with_price_data db rows).
Proof. split; reflexivity. Qed.


Lemma update_same_audit db record_id update_data db' r :
  update db record_id update_data = (db', r) -> same_audit db db'.
Proof.
  unfold update. intros Hu.
  repeat case_match; simplify_eq;
    auto using same_audit_refl, same_audit_with_price_data.
Qed.




End Frame.

(** ** Pagination driver: the loop always ends *)

Section WalkBasics.
Context `{PyLib}.

Lemma post_pending nw data nw' o :
  post nw data = (nw', o) ->
  pending nw' = tail (pending nw)
  /\ (forall r, o = Response r -> pending nw = Response r :: pending nw').
Proof.
  unfold post. intros Hp.
  destruct (pending nw) as [|o' rest] eqn:E; simplify_eq; simpl;
    split; try reflexivity; intros; simplify_eq; reflexivity.
Qed.

Lemma request_loop_pending max interval data :
  forall remaining attempt nw nw' res,
    request_loop max interval remaining attempt nw data = (nw', res) ->
    (length (pending nw') <= length (pending nw))%nat
    /\ (is_Some res -> (length (pending nw') < length (pending nw))%nat).
Proof.
  induction remaining as [|r IH]; intros attempt nw nw' res Hl.
  - simpl in Hl. simplify_eq. split; [lia|]. intros [? ?]; discriminate.
  - cbn [request_loop] in Hl.
    destruct (post nw data) as [nw1 o] eqn:Hp.
    apply post_pending in Hp as [Ht Hr].
    assert (length (pending nw1) <= length (pending nw))%nat as Hle
      by (rewrite Ht; destruct (pending nw); simpl; lia).
    destruct o as [result | e | |].
    + simplify_eq. split; [exact Hle|]. intros _.
      rewrite (Hr result eq_refl). simpl. lia.
    + destruct (attempt =? max - 1)%nat.
      * simplify_eq. split; [exact Hle|]. intros [? ?]; discriminate.
      * apply IH in Hl as [H1 H2]. unfold sleep in *. simpl in *.
        split; [lia|]. intros Hs. specialize (H2 Hs). lia.
    + simplify_eq. split; [exact Hle|]. intros [? ?]; discriminate.
    + simplify_eq. split; [exact Hle|]. intros [? ?]; discriminate.
Qed.

Lemma scrape_page_pending nw limit current kw nw' res :
  scrape_page nw limit current kw = (nw', res) ->
  (length (pending nw') <= length (pending nw))%nat
  /\ (is_Some res -> (length (pending nw') < length (pending nw))%nat).
Proof. unfold scrape_page, _make_request, make_request_with.
       apply request_loop_pending. Qed.

Section Loop.
Context {S' : Type}.
Variable limit : Z.
Variable max_pages : option Z.
Variable callback : option (list pydict -> S' -> S' * pyresult Z).
Variable kwargs : Filters.

(** With more fuel than pending outcomes the loop ends by itself. *)
Lemma walk_ends :
  forall fuel nw st,
    (length (pending nw) < fuel)%nat ->
    exists nw' st' r,
      walk limit max_pages callback kwargs fuel nw st = (nw', st', Some r).
Proof.
  induction fuel as [|fuel IH]; intros nw st Hf; [lia|].
  cbn [walk].
  destruct (scrape_page nw limit (current_page st) kwargs) as [nw1 res] eqn:Hs.
  apply scrape_page_pending in Hs as [Hle Hlt].
  destruct res as [result|]; [|eauto].
  destruct (negb (result_truthy result)); [eauto|].
  destruct (note_totals limit max_pages st result) as [st1|e]; [|eauto].
  destruct (Z.of_nat _ <? limit); [eauto|].
  destruct (opt_ge _ max_pages); [eauto|].
  apply IH. unfold sleep. simpl.
  specialize (Hlt ltac:(eauto)). lia.
Qed.

Variable P : S' -> Prop.
Hypothesis callback_keeps :
  forall cb page c c' r,
    callback = Some cb -> cb page c = (c', r) -> P c -> P c'.



End Loop.

End WalkBasics.

(** ** Sync orchestrator *)

Section Orchestrator.
Context `{PyLib}.

Lemma getattr_scrape_all : getattr "scrape_all" = Raise no_scrape_all.
Proof. reflexivity. Qed.

(** Without a date window the scraper call fails before any request. *)
Lemma scrape_without_window {S' : Type} nw (c : S') clock limit max_pages
  days_back callback kwargs :
  opt_truthy days_back = false ->
  scrape nw c clock limit max_pages days_back callback kwargs
  = (nw, c, Raise no_scrape_all).
Proof.
  intros Hd. unfold scrape. rewrite getattr_scrape_all.
  destruct days_back as [d|]; [rewrite Hd|]; reflexivity.
Qed.



End Orchestrator.


(** C3.  Whenever days_back is not supplied (or is 0), the lookup
    [self.scraper.scrape_all] fails: [sync_data] sends no request,
    leaves the price table as it is and returns the 'error' summary
    with zero counts, for either value of immediate_save; so does
    [sync_by_product].  Hence a 'success' summary is only returned on the
    date-window path. *)
Theorem C3_scrape_all_missing `{PyLib} (db : Session) (nw : Network)
  (clock : Z -> string) (limit : Z) (max_pages days_back : option Z)
  (immediate_save : bool) (kwargs : list (string * string)) :
  (opt_truthy days_back = false ->
   exists db',
     sync_data db nw clock limit max_pages days_back immediate_save kwargs
     = (db', nw, Ok (error_summary no_scrape_all))
     /\ tbl_price_data db' = tbl_price_data db
     /\ s_status (error_summary no_scrape_all) = "error"
     /\ s_total_records (error_summary no_scrape_all) = 0
     /\ s_new_records (error_summary no_scrape_all) = 0
     /\ s_updated_records (error_summary no_scrape_all) = 0)
  /\ (forall prod_name prod_catid,
      exists db',
        sync_by_product db nw clock prod_name prod_catid limit
        = (db', nw, Ok (error_summary no_scrape_all))
        /\ tbl_price_data db' = tbl_price_data db)
  /\ (forall db' nw' s,
      sync_data db nw clock limit max_pages days_back immediate_save kwargs
      = (db', nw', Ok s) ->
      s_status s = "success" -> opt_truthy days_back = true).
Proof.
  assert (forall limit max_pages days_back immediate_save kwargs,
    opt_truthy days_back = false ->
    exists db',
      sync_data db nw clock limit max_pages days_back immediate_save kwargs
      = (db', nw, Ok (error_summary no_scrape_all))
      /\ tbl_price_data db' = tbl_price_data db) as Hmiss.
  { clear. intros limit max_pages days_back immediate_save kwargs Hd.
    unfold sync_data, sync_try.
    rewrite !scrape_without_window by exact Hd.
    destruct immediate_save; unfold create_log;
      destruct (log_faults db) as [|[|] faults];
      eexists; split; reflexivity. }
  split; [|split].
  - intros Hd. destruct (Hmiss limit max_pages days_back immediate_save kwargs Hd)
      as (db' & Hs & Hp). exists db'. repeat split; assumption.
  - intros prod_name prod_catid. unfold sync_by_product.
    apply Hmiss. reflexivity.
  - intros db' nw' s Hs Hst.
    destruct (opt_truthy days_back) eqn:Hd; [reflexivity|].
    destruct (Hmiss limit max_pages days_back immediate_save kwargs Hd)
      as (db2 & Hs2 & _).
    rewrite Hs2 in Hs. injection Hs as _ _ <-. discriminate Hst.
Qed.

(** ** Dicts and bound filters *)

Section DictFacts.
Context `{PyLib}.

Lemma dget_dset (d : pydict) k v k' :
  dget (dset d k v) k' = if String.eqb k k' then v else dget d k'.
Proof.
  induction d as [|[k0 v0] d IH]; simpl.
  - reflexivity.
  - destruct (String.eqb_spec k0 k) as [->|Hne]; simpl.
    + destruct (String.eqb k k'); reflexivity.
    + rewrite IH. destruct (String.eqb_spec k0 k') as [->|Hne'];
        [|reflexivity].
      destruct (String.eqb_spec k k') as [->|_]; [congruence|reflexivity].
Qed.

Lemma dget_dset_ne (d : pydict) k v k' :
  String.eqb k k' = false -> dget (dset d k v) k' = dget d k'.
Proof. intros Hne. rewrite dget_dset, Hne. reflexivity. Qed.

Lemma dcontains_dset_ne (d : pydict) k v k' :
  String.eqb k k' = false -> dcontains (dset d k v) k' = dcontains d k'.
Proof.
  intros Hne. induction d as [|[k0 v0] d IH]; simpl.
  - rewrite Hne. reflexivity.
  - destruct (String.eqb_spec k0 k) as [->|Hne0]; simpl;
      [reflexivity|rewrite IH; reflexivity].
Qed.



End DictFacts.

(** ** PriceDataCRUD.create *)

Section CreateFacts.
Context `{PyLib}.

Lemma set_float_get k_in k_out d d' r k :
  set_float k_in k_out d = (d', r) ->
  String.eqb k_out k = false -> dget d' k = dget d k.
Proof.
  unfold set_float. intros Hs Hne.
  destruct (dcontains d k_in && truthy (dget d k_in)); [|congruence].
  destruct (py_float (dget d k_in)); simplify_eq; [|reflexivity].
  apply dget_dset_ne. exact Hne.
Qed.

Lemma set_pub_date_get d d' r k :
  set_pub_date d = (d', r) ->
  String.eqb "pub_date" k = false -> dget d' k = dget d k.
Proof.
  unfold set_pub_date. intros Hs Hne.
  destruct (dcontains d "pubDate" && truthy (dget d "pubDate"));
    [|congruence].
  destruct (dget d "pubDate") as [| | |s|]; simplify_eq;
    try (apply dget_dset_ne; exact Hne).
  destruct (py_strptime s); simplify_eq;
    [apply dget_dset_ne; exact Hne|reflexivity].
Qed.

(** The conversions only write the four snake-case keys. *)
Lemma convert_fields_get d d' r k :
  convert_fields d = (d', r) ->
  String.eqb "low_price" k = false -> String.eqb "high_price" k = false ->
  String.eqb "avg_price" k = false -> String.eqb "pub_date" k = false ->
  dget d' k = dget d k.
Proof.
  unfold convert_fields, and_then. intros Hc H1 H2 H3 H4.
  destruct (set_float "lowPrice" "low_price" d) as [d1 r1] eqn:E1.
  pose proof (set_float_get _ _ _ _ _ k E1 H1) as G1.
  destruct r1; [|simplify_eq; exact G1].
  destruct (set_float "highPrice" "high_price" d1) as [d2 r2] eqn:E2.
  pose proof (set_float_get _ _ _ _ _ k E2 H2) as G2.
  destruct r2; [|simplify_eq; congruence].
  destruct (set_float "avgPrice" "avg_price" d2) as [d3 r3] eqn:E3.
  pose proof (set_float_get _ _ _ _ _ k E3 H3) as G3.
  destruct r3; [|simplify_eq; congruence].
  pose proof (set_pub_date_get _ _ _ k Hc H4). congruence.
Qed.

Lemma convert_fields_filter d d' r v :
  convert_fields d = (d', r) ->
  business_filter d' v = business_filter d v
  /\ dget d' "pubDate" = dget d "pubDate"
  /\ dget d' "prodName" = dget d "prodName".
Proof.
  intros Hc. unfold business_filter.
  rewrite !(convert_fields_get d d' r _ Hc) by reflexivity.
  auto.
Qed.

Lemma exists_by_unique_key_converted db d d' r :
  convert_fields d = (d', r) ->
  exists_by_unique_key db d' = exists_by_unique_key db d.
Proof.
  intros Hc. unfold exists_by_unique_key.
  destruct (convert_fields_filter d d' r VNone Hc) as (_ & -> & _).
  destruct (dget d "pubDate") as [| | |s|];
    try (cbn [mbind pyresult_bind];
         rewrite (proj1 (convert_fields_filter d d' r _ Hc)); reflexivity).
  destruct (py_strptime s) as [dt|e]; [|reflexivity].
  cbn [mbind pyresult_bind].
  rewrite (proj1 (convert_fields_filter d d' r _ Hc)). reflexivity.
Qed.

Lemma set_float_ok k_in k_out d :
  (truthy (dget d k_in) = true -> exists f, py_float (dget d k_in) = Ok f) ->
  exists d', set_float k_in k_out d = (d', Ok tt).
Proof.
  intros Hf. unfold set_float.
  destruct (dcontains d k_in); simpl; [|eauto].
  destruct (truthy (dget d k_in)); [|eauto].
  destruct (Hf eq_refl) as [f ->]. eauto.
Qed.

End CreateFacts.


(** ** A publish date that does not parse *)

Section BadDate.
Context `{PyLib}.

Lemma unparseable_date_key record :
  unparseable record ->
  truthy (dget record "prodName") && truthy (dget record "pubDate") = true
  /\ exists e, date_key (dget record "pubDate") = Raise e.
Proof.
  intros (Hname & s & Hs & Hne & Hparse). rewrite Hname, Hs. split.
  - simpl. destruct (String.eqb_spec s EmptyString); [contradiction|reflexivity].
  - unfold date_key, py_strptime. rewrite Hparse. eauto.
Qed.

Lemma batch_conditions_unparseable records :
  (exists record, In record records /\ unparseable record) ->
  exists e, batch_conditions records = Raise e.
Proof.
  induction records as [|r rest IH]; intros (record & Hin & Hbad).
  - destruct Hin.
  - cbn [batch_conditions].
    destruct Hin as [->|Hin].
    + destruct (unparseable_date_key _ Hbad) as (-> & e & ->). eauto.
    + destruct (IH (ex_intro _ record (conj Hin Hbad))) as [e He].
      rewrite He.
      destruct (truthy (dget r "prodName") && truthy (dget r "pubDate"));
        [|eauto].
      destruct (date_key (dget r "pubDate")); eauto.
Qed.
End BadDate.


(** ** Pagination driver: which pages are requested *)

Section Pages.
Context `{PyLib}.
Context {S' : Type}.
Variable limit : Z.
Variable max_pages : option Z.
Variable callback : option (list pydict -> S' -> S' * pyresult Z).
Variable kwargs : Filters.
Hypothesis limit_nonzero : limit <> 0.

Local Abbreviation walk' := (walk limit max_pages callback kwargs).
Local Abbreviation turn' := (turn limit max_pages callback).

Lemma scrape_page_response nw r rest current :
  pending nw = Response r :: rest ->
  scrape_page nw limit current kwargs =
    ({| pending := rest;
        events := events nw ++ [Post (form_data limit current kwargs)] |},
     Some r).
Proof. intros Hp. unfold scrape_page. apply make_request_response. exact Hp. Qed.

Lemma note_totals_ok (st : @WalkState _ S') r :
  exists st1,
    note_totals limit max_pages st r = Ok st1
    /\ current_page st1 = current_page st
    /\ closure st1 = closure st
    /\ all_records st1 = all_records st.
Proof.
  unfold note_totals. destruct (total_count st); [eauto|].
  unfold count_pages.
  destruct (limit =? 0) eqn:E; [apply Z.eqb_eq in E; contradiction|].
  cbn [mbind pyresult_bind]. eexists. split; [reflexivity|]. auto.
Qed.

Lemma keep_page_current (st : @WalkState _ S') page :
  current_page (keep_page callback st page) = current_page st.
Proof.
  unfold keep_page. destruct callback as [cb|]; [|reflexivity].
  destruct page; [reflexivity|].
  destruct (cb _ _) as [c [n|e]]; reflexivity.
Qed.

Lemma keep_page_closure (st : @WalkState _ S') r :
  closure (keep_page callback st (page_of r))
  = page_closure callback (closure st) r.
Proof.
  unfold keep_page, page_closure. destruct callback as [cb|]; [|reflexivity].
  destruct (page_of r); [reflexivity|].
  destruct (cb _ _) as [c [n|e]]; reflexivity.
Qed.

Lemma turn_current (st : @WalkState _ S') r :
  current_page (turn' st r) = current_page st + 1.
Proof.
  unfold turn. destruct (note_totals_ok st r) as (st1 & -> & Hc & _).
  cbn [next_page current_page]. rewrite keep_page_current, Hc. reflexivity.
Qed.

Lemma turn_closure (st : @WalkState _ S') r :
  closure (turn' st r) = page_closure callback (closure st) r.
Proof.
  unfold turn. destruct (note_totals_ok st r) as (st1 & -> & _ & Hc & _).
  cbn [next_page closure]. rewrite keep_page_closure, Hc. reflexivity.
Qed.

Lemma fold_turn_current rs : forall st : @WalkState _ S',
  current_page (fold_left turn' rs st) = current_page st + Z.of_nat (length rs).
Proof.
  induction rs as [|r rs IH]; intros st; simpl fold_left.
  - simpl. lia.
  - rewrite IH, turn_current. simpl length. lia.
Qed.

Lemma fold_turn_closure rs : forall st : @WalkState _ S',
  closure (fold_left turn' rs st)
  = fold_left (page_closure callback) rs (closure st).
Proof.
  induction rs as [|r rs IH]; intros st; simpl fold_left; [reflexivity|].
  rewrite IH, turn_closure. reflexivity.
Qed.

(** A turn on which no rule fires goes on to the next page. *)
Lemma walk_turn fuel nw (st : @WalkState _ S') r rest :
  pending nw = Response r :: rest ->
  continues limit max_pages (current_page st) r = true ->
  walk' (S fuel) nw st =
    walk' fuel
      {| pending := rest;
         events := events nw
                   ++ page_events limit kwargs (current_page st) 1 |}
      (turn' st r).
Proof.
  intros Hp Hc. unfold continues in Hc.
  apply andb_true_iff in Hc as [Hc Hcap].
  apply andb_true_iff in Hc as [Htruthy Hfull].
  cbn [walk]. rewrite (scrape_page_response nw r rest _ Hp).
  rewrite Htruthy. cbn [negb].
  unfold turn. destruct (note_totals_ok st r) as (st1 & -> & Hcur & _).
  fold (page_of r).
  apply negb_true_iff in Hfull. rewrite Hfull.
  rewrite keep_page_current, Hcur.
  apply negb_true_iff in Hcap. rewrite Hcap.
  unfold sleep. cbn [pending events page_events].
  rewrite <- app_assoc. reflexivity.
Qed.

Lemma page_events_app p k1 k2 :
  page_events limit kwargs p (k1 + k2) =
    page_events limit kwargs p k1
    ++ page_events limit kwargs (p + Z.of_nat k1) k2.
Proof.
  revert p. induction k1 as [|k1 IH]; intros p.
  - simpl. rewrite Z.add_0_r. reflexivity.
  - cbn [Nat.add page_events app]. rewrite IH.
    replace (p + 1 + Z.of_nat k1) with (p + Z.of_nat (S k1)) by lia.
    reflexivity.
Qed.

(** As long as no rule fires the walk goes from page to page. *)
Lemma walk_many rest :
  forall rs fuel nw (st : @WalkState _ S'),
    pending nw = map Response rs ++ rest ->
    (forall i r, rs !! i = Some r ->
       continues limit max_pages (current_page st + Z.of_nat i) r = true) ->
    walk' (length rs + fuel) nw st =
      walk' fuel
        {| pending := rest;
           events := events nw
                     ++ page_events limit kwargs (current_page st) (length rs) |}
        (fold_left turn' rs st).
Proof.
  induction rs as [|r rs IH]; intros fuel nw st Hp Hc.
  - simpl in *. rewrite app_nil_r. destruct nw; simpl in *; subst; reflexivity.
  - cbn [length Nat.add map app] in *.
    rewrite (walk_turn _ nw st r (map Response rs ++ rest) Hp).
    2:{ specialize (Hc 0%nat r eq_refl). rewrite Z.add_0_r in Hc. exact Hc. }
    rewrite IH.
    + cbn [pending events fold_left]. rewrite turn_current.
      rewrite <- app_assoc.
      change (S (length rs)) with (1 + length rs)%nat.
      rewrite (page_events_app (current_page st) 1 (length rs)).
      reflexivity.
    + reflexivity.
    + intros i r' Hi. rewrite turn_current.
      specialize (Hc (S i) r' Hi).
      replace (current_page st + 1 + Z.of_nat i)
        with (current_page st + Z.of_nat (S i)) by lia.
      exact Hc.
Qed.

(** The turn on which a rule fires is the last one. *)
Lemma walk_last_response fuel nw (st : @WalkState _ S') r rest :
  pending nw = Response r :: rest ->
  continues limit max_pages (current_page st) r = false ->
  exists st',
    walk' (S fuel) nw st =
      ({| pending := rest;
          events := events nw
                    ++ [Post (form_data limit (current_page st) kwargs)] |},
       st', Some (Ok tt))
    /\ closure st' =
         (if result_truthy r then page_closure callback (closure st) r
          else closure st).
Proof.
  intros Hp Hc. unfold continues in Hc.
  cbn [walk]. rewrite (scrape_page_response nw r rest _ Hp).
  destruct (result_truthy r) eqn:Htruthy; cbn [negb andb] in *; [|eauto].
  destruct (note_totals_ok st r) as (st1 & -> & Hcur & Hclo & _).
  fold (page_of r).
  destruct (Z.of_nat (length (page_of r)) <? limit) eqn:Hshort.
  - eexists. split; [reflexivity|]. rewrite keep_page_closure, Hclo. reflexivity.
  - cbn [negb andb] in Hc. apply negb_false_iff in Hc.
    rewrite keep_page_current, Hcur, Hc.
    eexists. split; [reflexivity|]. rewrite keep_page_closure, Hclo. reflexivity.
Qed.

Lemma walk_last_failure fuel nw nw' (st : @WalkState _ S') :
  scrape_page nw limit (current_page st) kwargs = (nw', None) ->
  walk' (S fuel) nw st = (nw', st, Some (Ok tt)).
Proof. intros Hs. cbn [walk]. rewrite Hs. reflexivity. Qed.
End Pages.

Section AllPages.
Context `{PyLib}.
Context {S' : Type}.
Variable limit : Z.
Variable max_pages : option Z.
Variable callback : option (list pydict -> S' -> S' * pyresult Z).
Variable kwargs : Filters.
Hypothesis limit_nonzero : limit <> 0.

Lemma requested_app evs1 evs2 :
  requested (evs1 ++ evs2) = requested evs1 ++ requested evs2.
Proof.
  unfold requested. rewrite <- map_app. f_equal.
  induction evs1 as [|[d|s] evs1 IH]; simpl; [reflexivity| |exact IH].
  rewrite IH. reflexivity.
Qed.

Lemma requested_page_events p k :
  requested (page_events limit kwargs p k)
  = map (fun i => p + Z.of_nat i) (seq 0 k).
Proof.
  revert p. induction k as [|k IH]; intros p; [reflexivity|].
  cbn [page_events seq map].
  change (requested (Post (form_data limit p kwargs) :: Sleep 1
                     :: page_events limit kwargs (p + 1) k))
    with (p :: requested (page_events limit kwargs (p + 1) k)).
  rewrite IH, Z.add_0_r. f_equal.
  rewrite <- seq_shift, map_map. apply map_ext. intros i. lia.
Qed.

Lemma first_pages_spec n :
  first_pages n = map (fun i => 1 + Z.of_nat i) (seq 0 n).
Proof.
  unfold first_pages. rewrite <- seq_shift, map_map.
  apply map_ext. intros i. lia.
Qed.

Lemma first_pages_S n :
  first_pages (S n) = first_pages n ++ [1 + Z.of_nat n].
Proof.
  rewrite !first_pages_spec. replace (S n) with (n + 1)%nat by lia.
  rewrite seq_app, map_app. reflexivity.
Qed.

(** The requests of one call of the fetch client all carry its form. *)
Lemma request_loop_events max interval data :
  forall remaining attempt nw nw' res,
    request_loop max interval remaining attempt nw data = (nw', res) ->
    exists new k,
      events nw' = events nw ++ new /\ posts new = replicate k data.
Proof.
  induction remaining as [|r IH]; intros attempt nw nw' res Hl.
  - simpl in Hl. simplify_eq. exists [], 0%nat. rewrite app_nil_r. auto.
  - cbn [request_loop] in Hl. rewrite post_coming in Hl.
    assert (exists new k,
                events {| pending := tail (pending nw);
                          events := events nw ++ [Post data] |}
                = events nw ++ new /\ posts new = replicate k data) as Hone.
    { exists (cons (Post data) nil), 1%nat. split; reflexivity. }
    destruct (coming nw 0) as [result | e | |];
      try (injection Hl as <- <-; exact Hone).
    destruct (attempt =? max - 1)%nat;
      [injection Hl as <- <-; exact Hone|].
    apply IH in Hl as (new & k & Hev & Hposts).
    unfold sleep in Hev. cbn [events] in Hev.
    exists (Post data :: Sleep interval :: new), (S k).
    split; [rewrite Hev, <- !app_assoc; reflexivity|].
    cbn [posts replicate]. rewrite Hposts. reflexivity.
Qed.

Lemma scrape_page_events nw nw' current res :
  scrape_page nw limit current kwargs = (nw', res) ->
  exists new k,
    events nw' = events nw ++ new /\ requested new = replicate k current.
Proof.
  unfold scrape_page, _make_request, make_request_with. intros Hs.
  apply request_loop_events in Hs as (new & k & Hev & Hposts).
  exists new, k. split; [exact Hev|].
  unfold requested. rewrite Hposts. clear.
  induction k as [|k IH]; [reflexivity|].
  cbn [replicate map]. rewrite IH. reflexivity.
Qed.

(** The walk that ends on an answer. *)
Lemma scrape_all_pages_to_response nw (c : S') rs r_last rest :
  pending nw = map Response (rs ++ [r_last]) ++ rest ->
  (forall i r, rs !! i = Some r ->
     continues limit max_pages (1 + Z.of_nat i) r = true) ->
  continues limit max_pages (1 + Z.of_nat (length rs)) r_last = false ->
  exists records,
    scrape_all_pages nw c limit max_pages callback kwargs =
      ({| pending := rest;
          events := events nw
                    ++ page_events limit kwargs 1 (length rs)
                    ++ [Post (form_data limit (1 + Z.of_nat (length rs)) kwargs)] |},
       (if result_truthy r_last
        then page_closure callback
               (fold_left (page_closure callback) rs c) r_last
        else fold_left (page_closure callback) rs c),
       Ok records).
Proof.
  intros Hp Hcont Hlast. unfold scrape_all_pages.
  rewrite map_app, <- app_assoc in Hp. cbn [map app] in Hp.
  replace (S (length (pending nw)))
    with (length rs + S (S (length rest)))%nat
    by (rewrite Hp, length_app, length_map; simpl; lia).
  match goal with
  | |- context [walk _ _ _ _ _ nw ?s] => set (st0 := s)
  end.
  rewrite (walk_many limit max_pages callback kwargs limit_nonzero
             (Response r_last :: rest) rs _ nw st0 Hp Hcont).
  match goal with
  | |- context [walk _ _ _ _ (S ?f) ?n ?s] =>
      destruct (walk_last_response limit max_pages callback kwargs
                  limit_nonzero f n s r_last rest eq_refl) as (st' & -> & Hclo)
  end.
  { rewrite fold_turn_current by exact limit_nonzero. exact Hlast. }
  rewrite fold_turn_current by exact limit_nonzero.
  rewrite fold_turn_closure in Hclo by exact limit_nonzero.
  cbn [closure pending events] in *. rewrite Hclo, <- app_assoc.
  eexists. reflexivity.
Qed.

(** The walk that ends on a failed fetch. *)
Lemma scrape_all_pages_to_failure nw (c : S') rs rest :
  pending nw = map Response rs ++ rest ->
  (forall i r, rs !! i = Some r ->
     continues limit max_pages (1 + Z.of_nat i) r = true) ->
  fetch_fails limit (1 + Z.of_nat (length rs)) kwargs rest ->
  exists nw' new k records,
    scrape_all_pages nw c limit max_pages callback kwargs =
      (nw', fold_left (page_closure callback) rs c, Ok records)
    /\ events nw' = events nw ++ page_events limit kwargs 1 (length rs) ++ new
    /\ requested new = replicate k (1 + Z.of_nat (length rs)).
Proof.
  intros Hp Hcont Hfail. unfold scrape_all_pages.
  replace (S (length (pending nw)))
    with (length rs + S (length rest))%nat
    by (rewrite Hp, length_app, length_map; lia).
  match goal with
  | |- context [walk _ _ _ _ _ nw ?s] => set (st0 := s)
  end.
  rewrite (walk_many limit max_pages callback kwargs limit_nonzero
             rest rs _ nw st0 Hp Hcont).
  assert (current_page
            (fold_left (turn limit max_pages callback) rs st0)
          = 1 + Z.of_nat (length rs)) as Hcur
    by (rewrite fold_turn_current by exact limit_nonzero; reflexivity).
  change (current_page st0) with 1.
  set (nwk := {| pending := rest;
                 events := events nw
                           ++ page_events limit kwargs 1 (length rs) |}).
  destruct (scrape_page nwk limit (1 + Z.of_nat (length rs)) kwargs)
    as [nw' res] eqn:Hs.
  assert (res = None) as ->.
  { pose proof (Hfail (events nw ++ page_events limit kwargs 1 (length rs)))
      as Hnone.
    fold nwk in Hnone. rewrite Hs in Hnone. exact Hnone. }
  rewrite (walk_last_failure limit max_pages callback kwargs _ nwk nw')
    by (rewrite Hcur; exact Hs).
  apply scrape_page_events in Hs as (new & k & Hev & Hreq).
  cbn [events nwk] in Hev.
  exists nw', new, k. eexists.
  rewrite fold_turn_closure by exact limit_nonzero. cbn [closure st0].
  split; [reflexivity|]. split; [|exact Hreq].
  rewrite Hev, <- app_assoc. reflexivity.
Qed.
End AllPages.

Section CapFacts.
Context `{PyLib}.

Lemma opt_ge_below p q max_pages :
  p <= q -> opt_ge q max_pages = false -> opt_ge p max_pages = false.
Proof.
  unfold opt_ge, opt_truthy. destruct max_pages as [m|]; [|reflexivity].
  intros Hle Hq. destruct (m =? 0); simpl in *; [reflexivity|].
  apply Z.leb_gt in Hq. apply Z.leb_gt. lia.
Qed.

Lemma full_page_truthy r n :
  length (page_of r) = S n -> result_truthy r = true.
Proof.
  unfold page_of, result_truthy. destruct (r_list r) as [l|]; [|discriminate].
  intros _. rewrite (bool_decide_true (is_Some (Some l))) by (exists l; reflexivity).
  rewrite orb_true_r. reflexivity.
Qed.
End CapFacts.

(** C4 (as amended).  The driver requests the pages 1, 2, 3, ... in
    order and ends the walk exactly on the first page on which one of
    these holds: the fetch client reports failure (or the body is an
    empty object), the page has fewer records than the page size, or
    max_pages is supplied (and not 0) and the page number has reached
    it.  The total-page count ceil(total_count / page_size), clamped to
    max_pages, is computed on the first page and does not end the walk.
    In particular, for a source that reports 45 records and answers
    with 20, 20 and 5 records for a page size of 20, the driver requests
    exactly the pages 1, 2 and 3 and leaves the rest of the script
    untouched. *)
Theorem C4_walk_stops `{PyLib} {S' : Type} (limit : Z) (max_pages : option Z)
  (callback : option (list pydict -> S' -> S' * pyresult Z))
  (kwargs : Filters) (c : S') (nw : Network) :
  (forall rs r_last rest,
      limit <> 0 ->
      (forall i r, rs !! i = Some r ->
         continues limit max_pages (1 + Z.of_nat i) r = true) ->
      continues limit max_pages (1 + Z.of_nat (length rs)) r_last = false ->
      pending nw = map Response (rs ++ [r_last]) ++ rest ->
      exists new c' records,
        scrape_all_pages nw c limit max_pages callback kwargs =
          ({| pending := rest; events := events nw ++ new |}, c', Ok records)
        /\ requested new = first_pages (S (length rs)))
  /\ (forall rs rest,
        limit <> 0 ->
        (forall i r, rs !! i = Some r ->
           continues limit max_pages (1 + Z.of_nat i) r = true) ->
        fetch_fails limit (1 + Z.of_nat (length rs)) kwargs rest ->
        pending nw = map Response rs ++ rest ->
        exists nw' new c' records k,
          scrape_all_pages nw c limit max_pages callback kwargs =
            (nw', c', Ok records)
          /\ events nw' = events nw ++ new
          /\ requested new =
               first_pages (length rs)
               ++ replicate k (1 + Z.of_nat (length rs)))
  /\ (forall r1 r2 r3 rest,
        limit = 20 ->
        opt_ge 2 max_pages = false ->
        r_count r1 = Some 45 ->
        length (page_of r1) = 20%nat ->
        length (page_of r2) = 20%nat ->
        length (page_of r3) = 5%nat ->
        pending nw = Response r1 :: Response r2 :: Response r3 :: rest ->
        exists new c' records,
          scrape_all_pages nw c limit max_pages callback kwargs =
            ({| pending := rest; events := events nw ++ new |}, c', Ok records)
          /\ requested new = [1; 2; 3]).
Proof.
  assert (forall rs r_last rest,
      limit <> 0 ->
      (forall i r, rs !! i = Some r ->
         continues limit max_pages (1 + Z.of_nat i) r = true) ->
      continues limit max_pages (1 + Z.of_nat (length rs)) r_last = false ->
      pending nw = map Response (rs ++ [r_last]) ++ rest ->
      exists new c' records,
        scrape_all_pages nw c limit max_pages callback kwargs =
          ({| pending := rest; events := events nw ++ new |}, c', Ok records)
        /\ requested new = first_pages (S (length rs))) as Hresp.
  { intros rs r_last rest Hl Hcont Hlast Hp.
    destruct (scrape_all_pages_to_response limit max_pages callback kwargs Hl
                nw c rs r_last rest Hp Hcont Hlast) as [records Hs].
    eexists _, _, records. split; [exact Hs|].
    rewrite requested_app, requested_page_events, first_pages_S,
      first_pages_spec.
    reflexivity. }
  split; [exact Hresp|]. split.
  - intros rs rest Hl Hcont Hfail Hp.
    destruct (scrape_all_pages_to_failure limit max_pages callback kwargs Hl
                nw c rs rest Hp Hcont Hfail)
      as (nw' & new & k & records & Hs & Hev & Hreq).
    eexists nw', _, _, records, k. split; [exact Hs|]. split; [exact Hev|].
    rewrite requested_app, requested_page_events, Hreq, first_pages_spec.
    reflexivity.
  - intros r1 r2 r3 rest Hl Hcap Hcount H1 H2 H3 Hp. subst limit.
    apply (Hresp [r1; r2] r3 rest); [lia| | |exact Hp].
    + intros i r Hi. unfold continues.
      destruct i as [|[|i]]; simpl in Hi; simplify_eq.
      * rewrite (full_page_truthy r 19 H1), H1.
        change (1 + Z.of_nat 0) with 1.
        rewrite (opt_ge_below 1 2 max_pages ltac:(lia) Hcap). reflexivity.
      * rewrite (full_page_truthy r 19 H2), H2.
        change (1 + Z.of_nat 1) with 2. rewrite Hcap. reflexivity.
    + unfold continues. rewrite H3. simpl.
      rewrite andb_false_r. reflexivity.
Qed.

Section Examples4.
Import Samples MoreSamples PageSamples.
#[local] Existing Instance decimal_runtime.

(** C4, counterexample.  The source reports 40 records; with a page
    size of 20 the total-page count is 2.  After page 2 the page
    counter has reached that count and the walk goes on: page 3 is
    requested.  A source that reports 45 records and keeps answering
    with full pages is asked for pages 4 and 5 as well. *)
Lemma C4_counterexample :
  count_pages 20 None 40 = Ok 2
  /\ requested (events_of (walk_20 source_40)) = [1; 2; 3]
  /\ requested (events_of (walk_20 source_40)) <> first_pages 2
  /\ count_pages 20 None 45 = Ok 3
  /\ requested (events_of (walk_20 source_45_full)) = [1; 2; 3; 4; 5].
Proof.
  split; [reflexivity|]. split; [vm_compute; reflexivity|].
  split; [vm_compute; discriminate|].
  split; [reflexivity|]. vm_compute. reflexivity.
Qed.

Lemma C4_walk_stops_witness :
  (20 <> 0
   /\ opt_ge 2 None = false
   /\ r_count (page 45 20) = Some 45
   /\ length (page_of (page 45 20)) = 20%nat
   /\ length (page_of (page 45 5)) = 5%nat
   /\ exists new c' records,
       walk_20 source_45 =
         ({| pending := [Response (page 45 0)];
             events := events source_45 ++ new |}, c', Ok records)
       /\ requested new = [1; 2; 3])
  /\ (fetch_fails 20 (1 + Z.of_nat (length [page 45 20])) no_filters
        (pending net_down)
      /\ exists nw' new c' records k,
          walk_20 source_then_down = (nw', c', Ok records)
          /\ events nw' = events source_then_down ++ new
          /\ requested new =
               first_pages (length [page 45 20])
               ++ replicate k (1 + Z.of_nat (length [page 45 20]))).
Proof.
  assert (fetch_fails 20 (1 + Z.of_nat (length [page 45 20])) no_filters
            (pending net_down)) as Hfail
    by (intros evs; reflexivity).
  assert (forall i r, [page 45 20] !! i = Some r ->
            continues 20 None (1 + Z.of_nat i) r = true) as Hcont.
  { intros i r Hi. destruct i as [|[|i]]; simpl in Hi; try discriminate.
    injection Hi as <-. reflexivity. }
  split.
  - split; [lia|]. do 4 (split; [reflexivity|]).
    exact (proj2 (proj2 (C4_walk_stops 20 None None no_filters tt source_45))
             (page 45 20) (page 45 20) (page 45 5) [Response (page 45 0)]
             eq_refl eq_refl eq_refl eq_refl eq_refl eq_refl eq_refl).
  - split; [exact Hfail|].
    exact (proj1 (proj2 (C4_walk_stops 20 None None no_filters tt
                           source_then_down))
             [page 45 20] (pending net_down) ltac:(lia) Hcont Hfail eq_refl).
Defined.
End Examples4.

(** ** Partial ingestion *)

Section Partial.
Context `{PyLib}.


End Partial.


Section Examples8.
Import Samples MoreSamples.
#[local] Existing Instance decimal_runtime.


End Examples8.

(** ** The claims on sample data *)

Section Examples1.
Import Samples MoreSamples.
#[local] Existing Instance decimal_runtime.

Lemma C7_retry_bound_witness :
  ((forall i, (i < Config.RETRY_MAX_ATTEMPTS)%nat ->
      is_transport (coming net_down i) = true)
   /\ exists new,
       _make_request net_down (form 1) =
         ({| pending := drop Config.RETRY_MAX_ATTEMPTS (pending net_down);
             events := events net_down ++ new |}, None)
       /\ posts new = replicate Config.RETRY_MAX_ATTEMPTS (form 1)
       /\ sleeps new =
            replicate (Config.RETRY_MAX_ATTEMPTS - 1) Config.RETRY_INTERVAL
       /\ new = retry_events Config.RETRY_MAX_ATTEMPTS (form 1)
                  Config.RETRY_INTERVAL)
  /\ (coming net_garbled 0 = JSONDecodeError
      /\ _make_request net_garbled (form 1) =
           ({| pending := tail (pending net_garbled);
               events := events net_garbled ++ [Post (form 1)] |}, None)).
Proof.
  assert (forall i, (i < Config.RETRY_MAX_ATTEMPTS)%nat ->
            is_transport (coming net_down i) = true) as Hdown.
  { intros i Hi. unfold Config.RETRY_MAX_ATTEMPTS in Hi.
    do 5 (destruct i as [|i]; [reflexivity|]). lia. }
  split.
  - split; [exact Hdown|].
    exact (proj1 (C7_retry_bound net_down (form 1)) Hdown).
  - split; [reflexivity|].
    exact (proj2 (C7_retry_bound net_garbled (form 1)) eq_refl).
Defined.

Lemma C3_scrape_all_missing_witness :
  opt_truthy None = false
  /\ exists db',
      sync_data empty_db net_down clock 20 None None true []
      = (db', net_down, Ok (error_summary no_scrape_all))
      /\ tbl_price_data db' = tbl_price_data empty_db.
Proof.
  split; [reflexivity|].
  destruct (proj1 (C3_scrape_all_missing empty_db net_down clock 20 None None
                     true []) eq_refl) as (db' & Hs & Hp & _).
  exists db'. split; assumption.
Defined.


(** The guard at work: the stored melon is found and returned. *)
Example create_twice_returns_existing :
  snd (create db_melon_7 melon_7) = Ok stored_melon_7
  /\ snd (fst (create db_melon_7 melon_7)) = db_melon_7
  /\ tbl_price_data db_melon_7 = [stored_melon_7].
Proof. repeat split; vm_compute; reflexivity. Qed.




(** C1, the failing input.  The batch [plain] is one record with a
    product name and a publish timestamp and no place.  The first call
    creates it; the second call on the same batch, against the storage
    the first call left, creates it again: created_count is 1, not 0,
    and storage holds two rows. *)
Lemma C1_second_call_creates_again :
  let first := bulk_create_or_update empty_db [plain] in
  let second := bulk_create_or_update (snd (fst first)) (fst (fst first)) in
  let second_fresh := bulk_create_or_update (snd (fst first)) [plain] in
  counts first = Ok (1, 0)
  /\ counts second = Ok (1, 0)
  /\ length (rows_after second) = 2%nat
  /\ counts second_fresh = Ok (1, 0)
  /\ length (rows_after second_fresh) = 2%nat.
Proof. repeat split; vm_compute; reflexivity. Qed.
End Examples1.

(** ** Records of the upstream shape in the deduplication engine *)

(** Comparisons of key names are evaluated; values stay symbolic. *)
Ltac eval_eqb :=
  repeat match goal with
    | |- context [String.eqb ?a ?b] =>
        let v := eval vm_compute in (String.eqb a b) in
        match v with
        | true => change (String.eqb a b) with true
        | false => change (String.eqb a b) with false
        end
    end.

Ltac dict_simpl :=
  repeat (progress (cbn [dget dset dcontains app fst snd]; eval_eqb; cbn iota)).

Section RecordFacts.
Context `{PyLib}.

Lemma bind_plain c v :
  PriceData.mem c PriceData.float_columns = false ->
  PriceData.mem c PriceData.datetime_columns = false ->
  bind_column c v = Ok v.
Proof. intros H1 H2. unfold bind_column. rewrite H1, H2. reflexivity. Qed.

Lemma bind_price c v :
  PriceData.mem c PriceData.float_columns = true ->
  price_ok v -> bind_column c v = Ok (bound_price v).
Proof.
  intros H1 Hv. unfold bind_column, bound_price. rewrite H1.
  destruct Hv as [->|[f Hf]]; [reflexivity|].
  rewrite Hf. destruct v; reflexivity.
Qed.

Lemma bind_date c v :
  PriceData.mem c PriceData.float_columns = false ->
  PriceData.mem c PriceData.datetime_columns = true ->
  (v = VNone \/ exists d, v = VDate d) ->
  bind_column c v = Ok v.
Proof.
  intros H1 H2 Hv. unfold bind_column. rewrite H1, H2.
  destruct Hv as [->|[d ->]]; reflexivity.
Qed.

Lemma date_ok_parsed v :
  date_ok v -> exists d, parsed_date v = VDate d.
Proof.
  intros [(s & d & -> & _ & Hs)|(d & ->)]; simpl; [rewrite Hs|]; eauto.
Qed.

Lemma date_ok_truthy v : date_ok v -> truthy v = true.
Proof.
  intros [(s & d & -> & Hne & _)|(d & ->)]; simpl; [|reflexivity].
  destruct (String.eqb_spec s EmptyString); [contradiction|reflexivity].
Qed.

Lemma date_ok_key v :
  date_ok v -> exists date_str, date_key v = Ok (parsed_date v, date_str).
Proof.
  intros [(s & d & -> & _ & Hs)|(d & ->)]; simpl.
  - unfold py_strptime. rewrite Hs. simpl. eauto.
  - eauto.
Qed.

Lemma name_truthy (s : string) :
  s <> EmptyString -> truthy (VStr s) = true.
Proof.
  intros Hne. simpl.
  destruct (String.eqb_spec s EmptyString); [contradiction|reflexivity].
Qed.

(** The filter of the lookup, as it is bound. *)
Lemma bind_filter r :
  well_formed r ->
  bind_all (business_filter (to_dict r) (parsed_date (a_pubDate r)))
  = Ok (bound_filter r).
Proof.
  intros [Hname Hdate Hlow Hhigh Havg].
  destruct (date_ok_parsed _ Hdate) as [d Hd].
  unfold business_filter, to_dict, id_entry, bound_filter.
  destruct (a_id r); dict_simpl; cbn [bind_all];
    repeat (first
              [ rewrite bind_plain by reflexivity
              | rewrite (bind_price "low_price") by (try reflexivity; assumption)
              | rewrite (bind_price "high_price") by (try reflexivity; assumption)
              | rewrite (bind_price "avg_price") by (try reflexivity; assumption)
              | rewrite (bind_date "pub_date")
                  by (try reflexivity; right; eauto) ];
            cbn [mbind pyresult_bind]);
    reflexivity.
Qed.

Lemma dget_pubDate r : dget (to_dict r) "pubDate" = a_pubDate r.
Proof. unfold to_dict, id_entry. destruct (a_id r); dict_simpl; reflexivity. Qed.

Lemma dget_prodName r : dget (to_dict r) "prodName" = VStr (a_prodName r).
Proof. unfold to_dict, id_entry. destruct (a_id r); dict_simpl; reflexivity. Qed.

(** The lookup for a record of the upstream shape. *)
Lemma exists_by_unique_key_record db r :
  well_formed r ->
  exists_by_unique_key db (to_dict r)
  = Ok (List.find (row_matches (bound_filter r)) (tbl_price_data db)).
Proof.
  intros Hwf. unfold exists_by_unique_key. rewrite dget_pubDate.
  pose proof (bind_filter r Hwf) as Hb.
  destruct (wf_date r Hwf) as [(s & d & Hs & _ & Hp)|(d & Hd)].
  - rewrite Hs in *. unfold py_strptime. cbn [parsed_date] in Hb.
    rewrite Hp in *. cbn [mbind pyresult_bind].
    rewrite Hb. reflexivity.
  - rewrite Hd in *. cbn [mbind pyresult_bind parsed_date] in *.
    rewrite Hb. reflexivity.
Qed.

Lemma differs_no_match r x :
  differs r x -> row_matches (bound_filter r) x = false.
Proof.
  intros (c & q & Hin & Hne). unfold row_matches.
  destruct (forallb _ _) eqn:Hall; [|reflexivity].
  rewrite forallb_forall in Hall. specialize (Hall (c, q) Hin).
  cbn [fst snd] in Hall. congruence.
Qed.

Lemma find_differs r rows :
  (forall x, In x rows -> differs r x) ->
  List.find (row_matches (bound_filter r)) rows = None.
Proof.
  intros Hd. induction rows as [|x rows IH]; [reflexivity|].
  cbn [List.find]. rewrite (differs_no_match r x) by (apply Hd; left; reflexivity).
  apply IH. intros y Hy. apply Hd. right. exact Hy.
Qed.


Lemma batch_conditions_records rs :
  Forall well_formed rs ->
  batch_conditions (map to_dict rs)
  = Ok (map (fun r => business_filter (to_dict r) (parsed_date (a_pubDate r))) rs).
Proof.
  induction 1 as [|r rs Hwf _ IH]; [reflexivity|].
  cbn [map batch_conditions].
  rewrite dget_prodName, dget_pubDate.
  rewrite (name_truthy _ (wf_name r Hwf)).
  rewrite (date_ok_truthy _ (wf_date r Hwf)).
  destruct (date_ok_key _ (wf_date r Hwf)) as [date_str ->].
  cbn [andb mbind pyresult_bind fst]. rewrite IH. reflexivity.
Qed.

Lemma bind_conditions_records rs :
  Forall well_formed rs ->
  bind_conditions
    (map (fun r => business_filter (to_dict r) (parsed_date (a_pubDate r))) rs)
  = Ok (map bound_filter rs).
Proof.
  induction 1 as [|r rs Hwf _ IH]; [reflexivity|].
  cbn [map bind_conditions]. rewrite (bind_filter r Hwf), IH. reflexivity.
Qed.

End RecordFacts.

Section RecordCreate.
Context `{PyLib}.

Lemma set_float_out k_in k_out d d' :
  set_float k_in k_out d = (d', Ok tt) ->
  dget d' k_out =
    if dcontains d k_in && truthy (dget d k_in) then
      match py_float (dget d k_in) with
      | Ok f => VFloat f
      | Raise _ => VNone
      end
    else dget d k_out.
Proof.
  unfold set_float. destruct (dcontains d k_in && truthy (dget d k_in)).
  - destruct (py_float (dget d k_in)) as [f|e]; intros Hs; simplify_eq.
    rewrite dget_dset, String.eqb_refl. reflexivity.
  - intros Hs. simplify_eq. reflexivity.
Qed.

Lemma set_pub_date_out d d' :
  set_pub_date d = (d', Ok tt) ->
  dget d' "pub_date" =
    if dcontains d "pubDate" && truthy (dget d "pubDate") then
      parsed_date (dget d "pubDate")
    else dget d "pub_date".
Proof.
  unfold set_pub_date, parsed_date.
  destruct (dcontains d "pubDate" && truthy (dget d "pubDate"));
    [|intros Hs; simplify_eq; reflexivity].
  destruct (dget d "pubDate") as [| | |s|]; intros Hs; simplify_eq;
    try (rewrite dget_dset; reflexivity).
  unfold py_strptime in Hs. destruct (strptime s); simplify_eq.
  rewrite dget_dset. reflexivity.
Qed.

Lemma dcontains_to_dict r k :
  In k ["lowPrice"; "highPrice"; "avgPrice"; "pubDate"] ->
  dcontains (to_dict r) k = true.
Proof.
  intros Hk. unfold to_dict, id_entry.
  destruct (a_id r); simpl in Hk;
    repeat (destruct Hk as [<-|Hk]; [dict_simpl; reflexivity|]);
    destruct Hk.
Qed.

Lemma dget_to_dict_snake r k :
  In k ["low_price"; "high_price"; "avg_price"; "pub_date"] ->
  dget (to_dict r) k = VNone.
Proof.
  intros Hk. unfold to_dict, id_entry.
  destruct (a_id r); simpl in Hk;
    repeat (destruct Hk as [<-|Hk]; [dict_simpl; reflexivity|]);
    destruct Hk.
Qed.

Lemma dget_price r :
  dget (to_dict r) "lowPrice" = a_lowPrice r
  /\ dget (to_dict r) "highPrice" = a_highPrice r
  /\ dget (to_dict r) "avgPrice" = a_avgPrice r.
Proof.
  unfold to_dict, id_entry. destruct (a_id r); dict_simpl; auto.
Qed.

Lemma price_ok_float v :
  price_ok v -> truthy v = true -> exists f, py_float v = Ok f.
Proof. intros [->|Hf] Ht; [discriminate|exact Hf]. Qed.

(** The conversions of [create] on a record of the upstream shape. *)
Lemma convert_fields_record r :
  well_formed r ->
  exists d',
    convert_fields (to_dict r) = (d', Ok tt)
    /\ dget d' "low_price" = stored_price (a_lowPrice r)
    /\ dget d' "high_price" = stored_price (a_highPrice r)
    /\ dget d' "avg_price" = stored_price (a_avgPrice r)
    /\ dget d' "pub_date" = parsed_date (a_pubDate r).
Proof.
  intros Hwf. destruct (dget_price r) as (Glow & Ghigh & Gavg).
  unfold convert_fields, and_then.
  destruct (set_float_ok "lowPrice" "low_price" (to_dict r)) as [d1 E1].
  { rewrite Glow. apply price_ok_float, Hwf. }
  rewrite E1.
  destruct (set_float_ok "highPrice" "high_price" d1) as [d2 E2].
  { rewrite (set_float_get _ _ _ _ _ "highPrice" E1 eq_refl), Ghigh.
    apply price_ok_float, Hwf. }
  rewrite E2.
  destruct (set_float_ok "avgPrice" "avg_price" d2) as [d3 E3].
  { rewrite (set_float_get _ _ _ _ _ "avgPrice" E2 eq_refl).
    rewrite (set_float_get _ _ _ _ _ "avgPrice" E1 eq_refl), Gavg.
    apply price_ok_float, Hwf. }
  rewrite E3.
  assert (dget d3 "pubDate" = a_pubDate r) as Gdate.
  { rewrite (set_float_get _ _ _ _ _ "pubDate" E3 eq_refl).
    rewrite (set_float_get _ _ _ _ _ "pubDate" E2 eq_refl).
    rewrite (set_float_get _ _ _ _ _ "pubDate" E1 eq_refl).
    apply dget_pubDate. }
  assert (dcontains d3 "pubDate" = true) as Cdate.
  { unfold set_float in E1, E2, E3.
    repeat match goal with
           | E : (if ?b then _ else _) = _ |- _ => destruct b
           | E : match ?x with Ok _ => _ | Raise _ => _ end = _ |- _ =>
               destruct x
           end; simplify_eq;
      rewrite ?dcontains_dset_ne by reflexivity;
      apply dcontains_to_dict; simpl; auto. }
  assert (exists d', set_pub_date d3 = (d', Ok tt)) as [d4 E4].
  { unfold set_pub_date. rewrite Cdate, Gdate.
    rewrite (date_ok_truthy _ (wf_date r Hwf)). cbn [andb].
    destruct (wf_date r Hwf) as [(s & d & -> & _ & Hp)|(d & ->)];
      [unfold py_strptime; rewrite Hp|]; eauto. }
  exists d4. split; [exact E4|].
  pose proof (set_float_out _ _ _ _ E1) as O1.
  pose proof (set_float_out _ _ _ _ E2) as O2.
  pose proof (set_float_out _ _ _ _ E3) as O3.
  pose proof (set_pub_date_out _ _ E4) as O4.
  rewrite (dcontains_to_dict r "lowPrice"), Glow in O1 by (simpl; auto).
  rewrite (dget_to_dict_snake r "low_price") in O1 by (simpl; auto).
  assert (dget d1 "highPrice" = a_highPrice r) as G2
    by (rewrite (set_float_get _ _ _ _ _ "highPrice" E1 eq_refl); exact Ghigh).
  assert (dget d2 "avgPrice" = a_avgPrice r) as G3.
  { rewrite (set_float_get _ _ _ _ _ "avgPrice" E2 eq_refl).
    rewrite (set_float_get _ _ _ _ _ "avgPrice" E1 eq_refl). exact Gavg. }
  rewrite G2 in O2. rewrite G3 in O3. rewrite Cdate, Gdate in O4.
  rewrite (date_ok_truthy _ (wf_date r Hwf)) in O4. cbn [andb] in O4.
  assert (dget d1 "high_price" = VNone) as N2.
  { rewrite (set_float_get _ _ _ _ _ "high_price" E1 eq_refl).
    apply dget_to_dict_snake. simpl; auto. }
  assert (dget d2 "avg_price" = VNone) as N3.
  { rewrite (set_float_get _ _ _ _ _ "avg_price" E2 eq_refl).
    rewrite (set_float_get _ _ _ _ _ "avg_price" E1 eq_refl).
    apply dget_to_dict_snake. simpl; auto. }
  rewrite N2 in O2. rewrite N3 in O3.
  assert (forall (d : pydict) k b x,
            dget d k = (if b && truthy x
                        then match py_float x with
                             | Ok f => VFloat f
                             | Raise _ => VNone
                             end
                        else VNone) ->
            b = true -> dget d k = stored_price x) as Hst.
  { intros d k b x Hd ->. exact Hd. }
  assert (dcontains d1 "highPrice" = true) as C2.
  { unfold set_float in E1.
    repeat match goal with
           | E : (if ?b then _ else _) = _ |- _ => destruct b
           | E : match ?x with Ok _ => _ | Raise _ => _ end = _ |- _ =>
               destruct x
           end; simplify_eq;
      rewrite ?dcontains_dset_ne by reflexivity;
      apply dcontains_to_dict; simpl; auto. }
  assert (dcontains d2 "avgPrice" = true) as C3.
  { unfold set_float in E1, E2.
    repeat match goal with
           | E : (if ?b then _ else _) = _ |- _ => destruct b
           | E : match ?x with Ok _ => _ | Raise _ => _ end = _ |- _ =>
               destruct x
           end; simplify_eq;
      rewrite ?dcontains_dset_ne by reflexivity;
      apply dcontains_to_dict; simpl; auto. }
  split; [|split; [|split]].
  - rewrite (set_pub_date_get _ _ _ "low_price" E4 eq_refl).
    rewrite (set_float_get _ _ _ _ _ "low_price" E3 eq_refl).
    rewrite (set_float_get _ _ _ _ _ "low_price" E2 eq_refl).
    exact O1.
  - rewrite (set_pub_date_get _ _ _ "high_price" E4 eq_refl).
    rewrite (set_float_get _ _ _ _ _ "high_price" E3 eq_refl).
    exact (Hst _ _ _ _ O2 C2).
  - rewrite (set_pub_date_get _ _ _ "avg_price" E4 eq_refl).
    exact (Hst _ _ _ _ O3 C3).
  - exact O4.
Qed.




End RecordCreate.

Section RecordInsert.
Context `{PyLib}.











Lemma row_of_id r z : dset (row_of r 0) "id" (VInt z) = row_of r z.
Proof. unfold row_of. dict_simpl. reflexivity. Qed.


End RecordInsert.

Section NewRecord.
Context `{PyLib}.


End NewRecord.


Section Examples6.
Import Samples MoreSamples.
#[local] Existing Instance decimal_runtime.

Lemma melon_with_well_formed id low place :
  price_ok low -> well_formed (melon_with id low place).
Proof.
  intros Hlow. split; cbn [melon_with a_prodName a_pubDate a_lowPrice
                           a_highPrice a_avgPrice].
  - discriminate.
  - left. eexists _, _. split; [reflexivity|]. split; [discriminate|].
    vm_compute. reflexivity.
  - exact Hlow.
  - right. eexists. vm_compute. reflexivity.
  - right. eexists. vm_compute. reflexivity.
Qed.


Lemma db_with_melon_record :
  tbl_price_data (db_with melon_record) = [row_of melon_record 1].
Proof. reflexivity. Qed.



(** A null place against a stored empty place: the key of the batch
    takes them for the same record, the base row is updated and its
    place becomes null. *)
Example null_place_updates_base :
  counts (bulk_create_or_update (db_with melon_blank_place)
            [to_dict melon_null_place]) = Ok (0, 1)
  /\ map (fun x => dget x "place") (tbl_price_data (db_with melon_blank_place))
     = [VStr EmptyString]
  /\ map (fun x => dget x "place")
       (rows_after (bulk_create_or_update (db_with melon_blank_place)
                      [to_dict melon_null_place]))
     = [VNone].
Proof. repeat split; vm_compute; reflexivity. Qed.
End Examples6.


Section SecondRecord.
Context `{PyLib}.




(** The key that the loop computes for a record of the upstream shape. *)
Lemma unique_key_record r s :
  unique_key (VStr (a_prodName r)) (dget (to_dict r) "prodCatid")
    (dget (to_dict r) "prodCat") (dget (to_dict r) "prodPcatid")
    (dget (to_dict r) "prodPcat") (dget (to_dict r) "lowPrice")
    (dget (to_dict r) "highPrice") (dget (to_dict r) "avgPrice")
    (py_or (dget (to_dict r) "place") (VStr EmptyString))
    (py_or (dget (to_dict r) "specInfo") (VStr EmptyString))
    (dget (to_dict r) "unitInfo") s (dget (to_dict r) "status")
  = key_of r s.
Proof.
  unfold key_of, to_dict, id_entry. destruct (a_id r); dict_simpl; reflexivity.
Qed.











End SecondRecord.


Section Examples5.
Import Samples MoreSamples.
#[local] Existing Instance decimal_runtime.




(** A null price: the first record is created, the update with the
    second raises on the null price and is dropped. *)
Example null_price_update_is_dropped :
  counts (bulk_create_or_update empty_db
            [to_dict melon_unpriced; to_dict melon_unpriced]) = Ok (1, 0)
  /\ length (rows_after (bulk_create_or_update empty_db
                           [to_dict melon_unpriced; to_dict melon_unpriced]))
     = 1%nat
  /\ is_ok (snd (update (db_with melon_unpriced) 1 (to_dict melon_unpriced)))
     = false.
Proof. repeat split; vm_compute; reflexivity. Qed.
End Examples5.

(** * The fetch client beyond the retry bound *)

Section FetchClientMore.
Context `{PyLib}.

Lemma drop_S_tail {A} (l : list A) k : drop (S k) l = drop k (tail l).
Proof. destruct l; [cbn [tail]; rewrite !drop_nil|]; reflexivity. Qed.

Lemma request_loop_decided max interval data :
  forall k remaining attempt nw,
    (k < remaining)%nat ->
    (attempt + k < max)%nat ->
    (forall i, (i < k)%nat -> is_transport (coming nw i) = true) ->
    is_transport (coming nw k) = false ->
    request_loop max interval remaining attempt nw data =
      ({| pending := drop (S k) (pending nw);
          events := events nw ++ retry_events (S k) data interval |},
       decided (coming nw k)).
Proof.
  induction k as [|k IH]; intros remaining attempt nw Hrem Hatt Hfail Hdec;
    (destruct remaining as [|remaining]; [lia|]);
    cbn [request_loop]; rewrite post_coming.
  - destruct (coming nw 0) eqn:Ho; try discriminate Hdec;
      cbn [decided retry_events]; rewrite drop_S_tail, drop_0; reflexivity.
  - pose proof (Hfail 0%nat ltac:(lia)) as H0.
    destruct (coming nw 0) eqn:Ho; try discriminate H0.
    assert (Nat.eqb attempt (max - 1) = false) as ->
      by (apply Nat.eqb_neq; lia).
    rewrite (IH remaining (S attempt)); [|lia|lia| |].
    + unfold sleep. cbn [pending events].
      rewrite retry_events_SS, <- !app_assoc. cbn [app].
      rewrite (drop_S_tail (pending nw)). rewrite coming_tail. reflexivity.
    + intros i Hi. unfold sleep. cbn [pending events].
      rewrite coming_tail. apply Hfail. lia.
    + unfold sleep. cbn [pending events]. rewrite coming_tail. exact Hdec.
Qed.

End FetchClientMore.

(** X1.  The first attempt that does not end in a transport-level failure
    decides the call.  When the attempts before attempt [k + 1] fail at
    the transport level and [k + 1] is within RETRY_MAX_ATTEMPTS, the
    call makes exactly [k + 1] requests with [k] pauses of
    RETRY_INTERVAL between them and returns the decoded body of a
    response, or None for a JSON or other exception, without a further
    attempt. *)
Theorem make_request_first_decisive `{PyLib} (nw : Network) (data : FormData)
  (k : nat) :
  (k < Config.RETRY_MAX_ATTEMPTS)%nat ->
  (forall i, (i < k)%nat -> is_transport (coming nw i) = true) ->
  is_transport (coming nw k) = false ->
  _make_request nw data =
    ({| pending := drop (S k) (pending nw);
        events := events nw ++ retry_events (S k) data Config.RETRY_INTERVAL |},
     decided (coming nw k))
  /\ posts (retry_events (S k) data Config.RETRY_INTERVAL)
     = replicate (S k) data
  /\ sleeps (retry_events (S k) data Config.RETRY_INTERVAL)
     = replicate k Config.RETRY_INTERVAL.
Proof.
  intros Hk Hfail Hdec. split; [|split].
  - unfold _make_request, make_request_with.
    apply request_loop_decided; [exact Hk|lia|exact Hfail|exact Hdec].
  - apply posts_retry_events.
  - rewrite sleeps_retry_events. f_equal. lia.
Qed.


Section FetchExamples.
Import Samples MoreSamples PageSamples ExtraSamples.
#[local] Existing Instance decimal_runtime.

Lemma make_request_first_decisive_witness :
  _make_request net_flaky (form 1) =
    ({| pending := drop 3 (pending net_flaky);
        events := events net_flaky
                  ++ retry_events 3 (form 1) Config.RETRY_INTERVAL |},
     decided (coming net_flaky 2))
  /\ posts (retry_events 3 (form 1) Config.RETRY_INTERVAL)
     = replicate 3 (form 1)
  /\ sleeps (retry_events 3 (form 1) Config.RETRY_INTERVAL)
     = replicate 2 Config.RETRY_INTERVAL.
Proof.
  apply (make_request_first_decisive net_flaky (form 1) 2).
  - unfold Config.RETRY_MAX_ATTEMPTS. lia.
  - intros i Hi. do 2 (destruct i as [|i]; [reflexivity|]). lia.
  - reflexivity.
Defined.
End FetchExamples.

(** * The pagination driver beyond the stop rules *)

Section WalkInvariants.
Context `{PyLib}.
Context {S' : Type}.
Variable limit : Z.
Variable max_pages : option Z.
Variable callback : option (list pydict -> S' -> S' * pyresult Z).
Variable kwargs : Filters.

Lemma note_totals_fields (st st1 : @WalkState _ S') r :
  note_totals limit max_pages st r = Ok st1 ->
  current_page st1 = current_page st
  /\ all_records st1 = all_records st
  /\ closure st1 = closure st.
Proof.
  unfold note_totals. destruct (total_count st); [intros [= <-]; auto|].
  destruct (count_pages limit max_pages _); cbn [mbind pyresult_bind];
    [|discriminate].
  intros [= <-]. auto.
Qed.

Lemma keep_page_page (st : @WalkState _ S') page :
  current_page (keep_page callback st page) = current_page st.
Proof.
  unfold keep_page. destruct callback as [cb|]; [|reflexivity].
  destruct page; [reflexivity|].
  destruct (cb _ _) as [c [n|e]]; reflexivity.
Qed.

(** The pages requested from [st] on lie between the current page and
    the cap. *)
Lemma walk_within_cap m :
  max_pages = Some m ->
  m <> 0 ->
  forall fuel nw (st : @WalkState _ S') nw' st' r,
    walk limit max_pages callback kwargs fuel nw st = (nw', st', r) ->
    current_page st <= m ->
    exists new,
      events nw' = events nw ++ new
      /\ Forall (fun p => current_page st <= p <= m) (requested new).
Proof.
  intros Hm Hm0.
  induction fuel as [|fuel IH]; intros nw st nw' st' r Hw Hcur.
  { simpl in Hw. simplify_eq. exists []. rewrite app_nil_r. split; [reflexivity|constructor]. }
  cbn [walk] in Hw.
  destruct (scrape_page nw limit (current_page st) kwargs) as [nw1 res] eqn:Hs.
  apply scrape_page_events in Hs as (new1 & k & Hev1 & Hreq1).
  assert (Forall (fun p => current_page st <= p <= m) (requested new1)) as Hin1.
  { rewrite Hreq1. clear -Hcur.
    induction k as [|k IHk]; cbn [replicate]; constructor; [lia|exact IHk]. }
  assert (exists new, events nw1 = events nw ++ new
            /\ Forall (fun p => current_page st <= p <= m) (requested new))
    as Hdone by (exists new1; auto).
  destruct res as [result|]; [|simplify_eq; exact Hdone].
  destruct (negb (result_truthy result)); [simplify_eq; exact Hdone|].
  destruct (note_totals limit max_pages st result) as [st1|e] eqn:Hn;
    [|simplify_eq; exact Hdone].
  apply note_totals_fields in Hn as (Hc1 & _ & _).
  destruct (Z.of_nat _ <? limit); [simplify_eq; exact Hdone|].
  rewrite keep_page_page, Hc1 in Hw.
  destruct (opt_ge (current_page st) max_pages) eqn:Hge;
    [simplify_eq; exact Hdone|].
  apply IH in Hw as (new2 & Hev2 & Hin2).
  - exists (new1 ++ [Sleep 1] ++ new2). split.
    + rewrite Hev2. unfold sleep. cbn [events]. rewrite Hev1, <- !app_assoc.
      reflexivity.
    + rewrite !requested_app. apply Forall_app. split; [exact Hin1|].
      apply Forall_app. split; [constructor|].
      cbn [next_page current_page] in Hin2. rewrite keep_page_page, Hc1 in Hin2.
      eapply Forall_impl; [exact Hin2|]. cbn beta. intros p Hp. lia.
  - cbn [next_page current_page]. rewrite keep_page_page, Hc1.
    rewrite Hm in Hge. unfold opt_ge, opt_truthy in Hge.
    destruct (m =? 0) eqn:E; [apply Z.eqb_eq in E; contradiction|].
    cbn [negb andb] in Hge. apply Z.leb_gt in Hge. lia.
Qed.
End WalkInvariants.

Section CallbackIndependence.
Context `{PyLib}.
Context {S1 S2 : Type}.
Variable limit : Z.
Variable max_pages : option Z.
Variable cb1 : option (list pydict -> S1 -> S1 * pyresult Z).
Variable cb2 : option (list pydict -> S2 -> S2 * pyresult Z).
Variable kwargs : Filters.

Lemma keep_page_count {S0 : Type}
  (cb : option (list pydict -> S0 -> S0 * pyresult Z))
  (st : @WalkState _ S0) page :
  total_count (keep_page cb st page) = total_count st.
Proof.
  unfold keep_page. destruct cb as [f|]; [|reflexivity].
  destruct page; [reflexivity|].
  destruct (f _ _) as [c [n|e]]; reflexivity.
Qed.

Lemma note_totals_related (st1 : @WalkState _ S1) (st2 : @WalkState _ S2) r :
  current_page st1 = current_page st2 ->
  total_count st1 = total_count st2 ->
  match note_totals limit max_pages st1 r, note_totals limit max_pages st2 r with
  | Ok a, Ok b =>
      current_page a = current_page b /\ total_count a = total_count b
  | Raise e1, Raise e2 => e1 = e2
  | _, _ => False
  end.
Proof.
  intros Hc Ht. unfold note_totals. rewrite <- Ht.
  destruct (total_count st1) eqn:E1; [split; [exact Hc|congruence]|].
  destruct (count_pages limit max_pages (default 0 (r_count r)));
    cbn [mbind pyresult_bind]; [cbn; split; [exact Hc|reflexivity]|reflexivity].
Qed.

Lemma walk_same_requests :
  forall fuel nw (st1 : @WalkState _ S1) (st2 : @WalkState _ S2),
    current_page st1 = current_page st2 ->
    total_count st1 = total_count st2 ->
    fst (fst (walk limit max_pages cb1 kwargs fuel nw st1))
    = fst (fst (walk limit max_pages cb2 kwargs fuel nw st2))
    /\ snd (walk limit max_pages cb1 kwargs fuel nw st1)
       = snd (walk limit max_pages cb2 kwargs fuel nw st2).
Proof.
  induction fuel as [|fuel IH]; intros nw st1 st2 Hc Ht; [split; reflexivity|].
  cbn [walk]. rewrite <- Hc.
  destruct (scrape_page nw limit (current_page st1) kwargs) as [nw1 res].
  destruct res as [result|]; [|split; reflexivity].
  destruct (negb (result_truthy result)); [split; reflexivity|].
  pose proof (note_totals_related st1 st2 result Hc Ht) as Hn.
  destruct (note_totals limit max_pages st1 result) as [a|e1],
           (note_totals limit max_pages st2 result) as [b|e2];
    try contradiction; [|subst; split; reflexivity].
  destruct Hn as [Hc' Ht'].
  destruct (Z.of_nat _ <? limit); [split; reflexivity|].
  rewrite !keep_page_page, <- Hc'.
  destruct (opt_ge (current_page a) max_pages); [split; reflexivity|].
  apply IH.
  - cbn [next_page current_page]. rewrite !keep_page_page, Hc'. reflexivity.
  - cbn [next_page total_count]. rewrite !keep_page_count. exact Ht'.
Qed.
End CallbackIndependence.

(** X3.  With a page cap [max_pages = m >= 1] the driver never requests a
    page beyond the cap: whatever the source answers, every request of
    the walk carries a page number between 1 and [m]. *)
Theorem scrape_all_pages_within_cap `{PyLib} {S' : Type} (nw : Network)
  (c : S') (limit m : Z)
  (callback : option (list pydict -> S' -> S' * pyresult Z))
  (kwargs : Filters) :
  1 <= m ->
  exists new,
    events (fst (fst (scrape_all_pages nw c limit (Some m) callback kwargs)))
    = events nw ++ new
    /\ Forall (fun p => 1 <= p <= m) (requested new).
Proof.
  intros Hm. unfold scrape_all_pages.
  match goal with
  | |- context [walk ?l ?mp ?cb ?k ?f ?n ?s] =>
      destruct (walk l mp cb k f n s) as [[nw1 st1] o] eqn:Hw
  end.
  apply (walk_within_cap limit (Some m) callback kwargs m eq_refl) in Hw;
    [|lia|cbn; lia].
  destruct o as [[|e]|]; exact Hw.
Qed.

(** X4.  The requests of a walk do not depend on the save callback: with any
    two callbacks (or none), whether they save, skip or raise, the
    driver posts the same forms, sleeps the same pauses and consumes the
    same answers, and it raises in the one run exactly when it raises in
    the other.  An exception of the callback never ends the walk. *)
Theorem scrape_all_pages_requests_independent `{PyLib} {S1 S2 : Type}
  (nw : Network) (c1 : S1) (c2 : S2) (limit : Z) (max_pages : option Z)
  (cb1 : option (list pydict -> S1 -> S1 * pyresult Z))
  (cb2 : option (list pydict -> S2 -> S2 * pyresult Z))
  (kwargs : Filters) :
  fst (fst (scrape_all_pages nw c1 limit max_pages cb1 kwargs))
  = fst (fst (scrape_all_pages nw c2 limit max_pages cb2 kwargs))
  /\ is_ok (snd (scrape_all_pages nw c1 limit max_pages cb1 kwargs))
     = is_ok (snd (scrape_all_pages nw c2 limit max_pages cb2 kwargs)).
Proof.
  unfold scrape_all_pages.
  match goal with
  | |- context [walk limit max_pages cb1 kwargs ?f nw ?s1] =>
      match goal with
      | |- context [walk limit max_pages cb2 kwargs f nw ?s2] =>
          destruct (walk_same_requests limit max_pages cb1 cb2 kwargs f nw s1 s2
                      eq_refl eq_refl) as [Hnw Hres];
          destruct (walk limit max_pages cb1 kwargs f nw s1) as [[nw1 st1] o1];
          destruct (walk limit max_pages cb2 kwargs f nw s2) as [[nw2 st2] o2]
      end
  end.
  cbn [fst snd] in Hnw, Hres. subst.
  destruct o2 as [[|e]|]; split; reflexivity.
Qed.

Section Accumulation.
Context `{PyLib}.
Variable limit : Z.
Variable max_pages : option Z.
Variable kwargs : Filters.
Hypothesis limit_nonzero : limit <> 0.

Local Abbreviation no_callback :=
  (@None (list pydict -> unit -> unit * pyresult Z)).

Lemma turn_records (st : @WalkState _ unit) r :
  all_records (turn limit max_pages no_callback st r)
  = all_records st ++ page_of r.
Proof.
  unfold turn.
  destruct (note_totals_ok limit max_pages limit_nonzero st r)
    as (st1 & -> & _ & _ & Hrec).
  cbn [next_page all_records keep_page extend_records]. rewrite Hrec.
  reflexivity.
Qed.

Lemma fold_turn_records rs : forall st : @WalkState _ unit,
  all_records (fold_left (turn limit max_pages no_callback) rs st)
  = all_records st ++ concat (map page_of rs).
Proof.
  induction rs as [|r rs IH]; intros st; cbn [fold_left map concat].
  - rewrite app_nil_r. reflexivity.
  - rewrite IH, turn_records, <- app_assoc. reflexivity.
Qed.

Lemma walk_last_records fuel nw (st : @WalkState _ unit) r rest :
  pending nw = Response r :: rest ->
  continues limit max_pages (current_page st) r = false ->
  result_truthy r = true ->
  exists nw' st',
    walk limit max_pages no_callback kwargs (S fuel) nw st
    = (nw', st', Some (Ok tt))
    /\ all_records st' = all_records st ++ page_of r.
Proof.
  intros Hp Hc Htruthy. unfold continues in Hc. rewrite Htruthy in Hc.
  cbn [andb] in Hc.
  cbn [walk]. rewrite (scrape_page_response limit kwargs nw r rest _ Hp).
  rewrite Htruthy. cbn [negb].
  destruct (note_totals_ok limit max_pages limit_nonzero st r)
    as (st1 & -> & Hcur & _ & Hrec).
  fold (page_of r). cbn [keep_page].
  destruct (Z.of_nat (length (page_of r)) <? limit) eqn:Hshort.
  - eexists _, _. split; [reflexivity|].
    cbn [extend_records all_records]. f_equal. exact Hrec.
  - cbn [negb andb] in Hc. apply negb_false_iff in Hc.
    cbn [extend_records current_page]. rewrite Hcur, Hc.
    eexists _, _. split; [reflexivity|].
    cbn [extend_records all_records]. f_equal. exact Hrec.
Qed.
End Accumulation.

(** X5.  Without a save callback the driver returns the records of the pages
    it was answered, in order: the full pages on which it went on and
    the page on which it stopped.  With a save callback it returns the
    empty list, whatever was fetched. *)
Theorem scrape_all_pages_accumulates `{PyLib} (nw : Network) (limit : Z)
  (max_pages : option Z) (kwargs : Filters) (rs : list ApiResult)
  (r_last : ApiResult) (rest : list outcome) :
  limit <> 0 ->
  pending nw = map Response (rs ++ [r_last]) ++ rest ->
  (forall i r, rs !! i = Some r ->
     continues limit max_pages (1 + Z.of_nat i) r = true) ->
  continues limit max_pages (1 + Z.of_nat (length rs)) r_last = false ->
  result_truthy r_last = true ->
  snd (scrape_all_pages nw tt limit max_pages None kwargs)
  = Ok (concat (map page_of (rs ++ [r_last])))
  /\ forall (S' : Type) (c : S') (cb : list pydict -> S' -> S' * pyresult Z),
       snd (scrape_all_pages nw c limit max_pages (Some cb) kwargs) = Ok [].
Proof.
  intros Hl Hp Hcont Hlast Htruthy. split.
  - unfold scrape_all_pages.
    rewrite map_app, <- app_assoc in Hp. cbn [map app] in Hp.
    replace (S (length (pending nw)))
      with (length rs + S (S (length rest)))%nat
      by (rewrite Hp, length_app, length_map; simpl; lia).
    match goal with
    | |- context [walk _ _ _ _ _ nw ?s] => set (st0 := s)
    end.
    rewrite (walk_many limit max_pages None kwargs Hl
               (Response r_last :: rest) rs _ nw st0 Hp Hcont).
    match goal with
    | |- context [walk _ _ _ _ (S ?f) ?n ?s] =>
        destruct (walk_last_records limit max_pages kwargs Hl f n s r_last rest
                    eq_refl) as (nw' & st' & -> & Hrec)
    end.
    { rewrite fold_turn_current by exact Hl. exact Hlast. }
    { exact Htruthy. }
    cbn [snd]. rewrite Hrec, fold_turn_records by exact Hl.
    subst st0. cbn [all_records app].
    rewrite map_app, concat_app. cbn [map concat]. rewrite app_nil_r.
    reflexivity.
  - intros S' c cb. unfold scrape_all_pages.
    rewrite map_app, <- app_assoc in Hp. cbn [map app] in Hp.
    replace (S (length (pending nw)))
      with (length rs + S (S (length rest)))%nat
      by (rewrite Hp, length_app, length_map; simpl; lia).
    match goal with
    | |- context [walk _ _ _ _ _ nw ?s] => set (st0 := s)
    end.
    rewrite (walk_many limit max_pages (Some cb) kwargs Hl
               (Response r_last :: rest) rs _ nw st0 Hp Hcont).
    match goal with
    | |- context [walk _ _ _ _ (S ?f) ?n ?s] =>
        destruct (walk_last_response limit max_pages (Some cb) kwargs Hl f n s
                    r_last rest eq_refl) as (st' & -> & _)
    end.
    { rewrite fold_turn_current by exact Hl. exact Hlast. }
    reflexivity.
Qed.

(** X6.  A page size of 0 makes the first answered page fatal: the total-page
    count divides by the page size, so the walk raises ZeroDivisionError
    after its first request, before any record is kept or saved. *)
Theorem scrape_all_pages_zero_limit `{PyLib} {S' : Type} (nw : Network)
  (c : S') (max_pages : option Z)
  (callback : option (list pydict -> S' -> S' * pyresult Z))
  (kwargs : Filters) (r : ApiResult) (rest : list outcome) :
  pending nw = Response r :: rest ->
  result_truthy r = true ->
  scrape_all_pages nw c 0 max_pages callback kwargs =
    ({| pending := rest;
        events := events nw ++ [Post (form_data 0 1 kwargs)] |},
     c,
     Raise (Exn ZeroDivisionError "integer division or modulo by zero")).
Proof.
  intros Hp Htruthy. unfold scrape_all_pages. cbn [walk current_page].
  unfold scrape_page. rewrite (make_request_response nw r rest _ Hp).
  rewrite Htruthy. reflexivity.
Qed.

(** X7.  The total-page count that the driver computes and logs on the first
    page: for a positive page size and a count that is not negative it
    is the least number of pages that hold [count] records, and a page
    cap that is not 0 replaces it when it is smaller. *)
Theorem count_pages_is_ceiling `{PyLib} (limit count : Z) :
  0 < limit ->
  0 <= count ->
  exists pages,
    count_pages limit None count = Ok pages
    /\ (pages - 1) * limit < count <= pages * limit
    /\ forall m,
         count_pages limit (Some m) count
         = Ok (if m =? 0 then pages else Z.min m pages).
Proof.
  intros Hl Hc. unfold count_pages.
  destruct (limit =? 0) eqn:E; [apply Z.eqb_eq in E; lia|].
  exists ((count + limit - 1) / limit). split; [reflexivity|]. split.
  - pose proof (Z.div_mod (count + limit - 1) limit ltac:(lia)) as Hdm.
    pose proof (Z.mod_pos_bound (count + limit - 1) limit Hl) as Hmod.
    nia.
  - intros m. unfold opt_truthy. destruct (m =? 0); cbn [negb andb];
      [reflexivity|].
    destruct (m <? (count + limit - 1) / limit) eqn:Hlt; f_equal.
    + apply Z.ltb_lt in Hlt. lia.
    + apply Z.ltb_ge in Hlt. lia.
Qed.

Section WalkExamples.
Import Samples MoreSamples PageSamples ExtraSamples.
#[local] Existing Instance decimal_runtime.

Lemma scrape_all_pages_within_cap_witness :
  exists new,
    events (fst (fst (scrape_all_pages source_45_full tt 20 (Some 2) None
                        no_filters)))
    = events source_45_full ++ new
    /\ Forall (fun p => 1 <= p <= 2) (requested new).
Proof.
  apply (scrape_all_pages_within_cap source_45_full tt 20 2 None no_filters).
  lia.
Defined.

Lemma scrape_all_pages_accumulates_witness :
  snd (scrape_all_pages source_45 tt 20 None None no_filters)
  = Ok (concat (map page_of ([page 45 20; page 45 20] ++ [page 45 5])))
  /\ forall (S' : Type) (c : S') (cb : list pydict -> S' -> S' * pyresult Z),
       snd (scrape_all_pages source_45 c 20 None (Some cb) no_filters)
       = Ok [].
Proof.
  apply (scrape_all_pages_accumulates source_45 20 None no_filters
           [page 45 20; page 45 20] (page 45 5) [Response (page 45 0)]).
  - lia.
  - reflexivity.
  - intros i r Hi. do 2 (destruct i as [|i]; [injection Hi as <-; reflexivity|]).
    discriminate Hi.
  - reflexivity.
  - reflexivity.
Defined.

Lemma scrape_all_pages_zero_limit_witness :
  scrape_all_pages source_45 tt 0 None None no_filters =
    ({| pending := tail (pending source_45);
        events := events source_45 ++ [Post (form_data 0 1 no_filters)] |},
     tt,
     Raise (Exn ZeroDivisionError "integer division or modulo by zero")).
Proof.
  apply (scrape_all_pages_zero_limit source_45 tt None None no_filters
           (page 45 20) (tail (pending source_45))); reflexivity.
Defined.

Lemma count_pages_is_ceiling_witness :
  exists pages,
    count_pages 20 None 45 = Ok pages
    /\ (pages - 1) * 20 < 45 <= pages * 20
    /\ forall m,
         count_pages 20 (Some m) 45
         = Ok (if m =? 0 then pages else Z.min m pages).
Proof. apply (count_pages_is_ceiling 20 45); lia. Defined.
End WalkExamples.

Section Forms.
Context `{PyLib}.
Context {S' : Type}.
Variable limit : Z.
Variable max_pages : option Z.
Variable callback : option (list pydict -> S' -> S' * pyresult Z).
Variable kwargs : Filters.

Lemma posts_app evs1 evs2 : posts (evs1 ++ evs2) = posts evs1 ++ posts evs2.
Proof.
  induction evs1 as [|[d|s] evs1 IH]; simpl; [reflexivity| |exact IH].
  rewrite IH. reflexivity.
Qed.

Lemma walk_forms :
  forall fuel nw (st : @WalkState _ S') nw' st' r,
    walk limit max_pages callback kwargs fuel nw st = (nw', st', r) ->
    exists new,
      events nw' = events nw ++ new
      /\ Forall (walk_form limit kwargs) (posts new).
Proof.
  induction fuel as [|fuel IH]; intros nw st nw' st' r Hw.
  { simpl in Hw. simplify_eq. exists []. rewrite app_nil_r.
    split; [reflexivity|constructor]. }
  cbn [walk] in Hw.
  destruct (scrape_page nw limit (current_page st) kwargs) as [nw1 res] eqn:Hs.
  unfold scrape_page, _make_request, make_request_with in Hs.
  apply request_loop_events in Hs as (new1 & k & Hev1 & Hposts1).
  assert (Forall (walk_form limit kwargs) (posts new1)) as Hin1.
  { rewrite Hposts1. clear.
    induction k as [|k IHk]; cbn [replicate]; constructor;
      [reflexivity|exact IHk]. }
  assert (exists new, events nw1 = events nw ++ new
                      /\ Forall (walk_form limit kwargs) (posts new)) as Hdone
    by (exists new1; auto).
  destruct res as [result|]; [|simplify_eq; exact Hdone].
  destruct (negb (result_truthy result)); [simplify_eq; exact Hdone|].
  destruct (note_totals limit max_pages st result) as [st1|e];
    [|simplify_eq; exact Hdone].
  destruct (Z.of_nat _ <? limit); [simplify_eq; exact Hdone|].
  destruct (opt_ge _ max_pages); [simplify_eq; exact Hdone|].
  apply IH in Hw as (new2 & Hev2 & Hin2).
  exists (new1 ++ [Sleep 1] ++ new2). split.
  - rewrite Hev2. unfold sleep. cbn [events]. rewrite Hev1, <- !app_assoc.
    reflexivity.
  - rewrite !posts_app. apply Forall_app. split; [exact Hin1|exact Hin2].
Qed.

Lemma scrape_all_pages_forms nw (c : S') :
  exists new,
    events (fst (fst (scrape_all_pages nw c limit max_pages callback kwargs)))
    = events nw ++ new
    /\ Forall (walk_form limit kwargs) (posts new).
Proof.
  unfold scrape_all_pages.
  match goal with
  | |- context [walk ?l ?mp ?cb ?k ?f ?n ?s] =>
      destruct (walk l mp cb k f n s) as [[nw1 st1] o] eqn:Hw
  end.
  apply walk_forms in Hw. destruct o as [[|e]|]; exact Hw.
Qed.
End Forms.

(** X8.  What the driver sends.  Every request of [scrape_by_date_range]
    carries the page size and the two dates of the window and no
    product filter; every request of [scrape_by_product] carries the
    page size, the product name and the category id and no date.  The
    walk adds earlier events to nothing but its own. *)
Theorem scrape_requests_carry_filters `{PyLib} {S' : Type} (nw : Network)
  (c : S') (limit : Z) (max_pages : option Z)
  (callback : option (list pydict -> S' -> S' * pyresult Z))
  (start_date end_date prod_name prod_catid : string) :
  (exists new,
     events (fst (fst (scrape_by_date_range nw c start_date end_date limit
                         max_pages callback)))
     = events nw ++ new
     /\ Forall (fun d =>
                  f_limit d = limit
                  /\ pubDateStartTime d = start_date
                  /\ pubDateEndTime d = end_date
                  /\ prodPcatid d = EmptyString
                  /\ prodCatid d = EmptyString
                  /\ prodName d = EmptyString) (posts new))
  /\ (exists new,
        events (fst (fst (scrape_by_product nw c prod_name prod_catid limit
                            max_pages callback)))
        = events nw ++ new
        /\ Forall (fun d =>
                     f_limit d = limit
                     /\ pubDateStartTime d = EmptyString
                     /\ pubDateEndTime d = EmptyString
                     /\ prodPcatid d = EmptyString
                     /\ prodCatid d = prod_catid
                     /\ prodName d = prod_name) (posts new)).
Proof.
  split.
  - unfold scrape_by_date_range.
    match goal with
    | |- context [scrape_all_pages nw c limit max_pages callback ?kw] =>
        destruct (scrape_all_pages_forms limit max_pages callback kw nw c)
          as (new & Hev & Hforms)
    end.
    exists new. split; [exact Hev|].
    eapply Forall_impl; [exact Hforms|]. intros d Hd. unfold walk_form in Hd.
    rewrite Hd. cbn. repeat split; reflexivity.
  - unfold scrape_by_product.
    match goal with
    | |- context [scrape_all_pages nw c limit max_pages callback ?kw] =>
        destruct (scrape_all_pages_forms limit max_pages callback kw nw c)
          as (new & Hev & Hforms)
    end.
    exists new. split; [exact Hev|].
    eapply Forall_impl; [exact Hforms|]. intros d Hd. unfold walk_form in Hd.
    rewrite Hd. cbn. repeat split; reflexivity.
Qed.

(** * The orchestrator and its callers *)

Section WalkNeverRaises.
Context `{PyLib}.
Context {S' : Type}.
Variable limit : Z.
Variable max_pages : option Z.
Variable callback : option (list pydict -> S' -> S' * pyresult Z).
Variable kwargs : Filters.
Hypothesis limit_nonzero : limit <> 0.


End WalkNeverRaises.

Section OrchestratorMore.
Context `{PyLib}.

Lemma days_truthy days : days <> 0 -> opt_truthy (Some days) = true.
Proof.
  intros Hd. unfold opt_truthy.
  destruct (days =? 0) eqn:E; [apply Z.eqb_eq in E; contradiction|reflexivity].
Qed.


Lemma sync_data_without_window db nw clock limit max_pages days_back
  immediate_save kwargs :
  opt_truthy days_back = false ->
  exists db',
    sync_data db nw clock limit max_pages days_back immediate_save kwargs
    = (db', nw, Ok (error_summary no_scrape_all))
    /\ tbl_price_data db' = tbl_price_data db.
Proof.
  intros Hd. unfold sync_data, sync_try.
  rewrite !scrape_without_window by exact Hd.
  destruct immediate_save; unfold create_log;
    destruct (log_faults db) as [|[|] faults];
    eexists; split; reflexivity.
Qed.

Lemma bulk_unparseable db records :
  (exists record, In record records /\ unparseable record) ->
  exists e, bulk_create_or_update db records = (records, db, Raise e).
Proof.
  intros Hbad.
  destruct (batch_conditions_unparseable records Hbad) as [e He].
  exists e. unfold bulk_create_or_update, exists_batch_by_unique_key.
  destruct records as [|r rest]; [destruct Hbad as (? & [] & _)|].
  rewrite He. reflexivity.
Qed.
End OrchestratorMore.


(** X10.  When the first page of a date-window run cannot be fetched, the run
    ends as 'warning' with zero totals and writes nothing: storage and
    the audit table are as they were, in either save mode. *)
Theorem sync_first_fetch_fails `{PyLib} (db : Session) (nw : Network)
  (clock : Z -> string) (limit : Z) (max_pages : option Z) (days : Z)
  (immediate_save : bool) (kwargs : list (string * string)) :
  days <> 0 ->
  fetch_fails limit 1 (window clock days) (pending nw) ->
  sync_data db nw clock limit max_pages (Some days) immediate_save kwargs
  = (db, fst (scrape_page nw limit 1 (window clock days)), Ok warning_summary).
Proof.
  intros Hd Hfail.
  assert (snd (scrape_page nw limit 1 (window clock days)) = None) as Hnone
    by (destruct nw as [p evs]; apply Hfail).
  unfold sync_data, sync_try, scrape. rewrite (days_truthy days Hd).
  unfold scrape_by_date_range, scrape_all_pages. cbn [walk current_page].
  fold (window clock days).
  destruct (scrape_page nw limit 1 (window clock days)) as [nw1 res].
  cbn [snd] in Hnone. subst res.
  destruct immediate_save; reflexivity.
Qed.

(** X11.  A page with a record whose publish date does not parse, in a
    date-window run that ends on that page.  With immediate save the
    exception of the deduplication engine is caught by the driver: the
    page is lost and the run ends as 'warning' with storage as it was.
    With batch save the same exception reaches the orchestrator: the run
    ends as 'error' with storage as it was. *)
Theorem sync_page_with_bad_date `{PyLib} (db : Session) (nw : Network)
  (clock : Z -> string) (limit : Z) (max_pages : option Z) (days : Z)
  (kwargs : list (string * string)) (r : ApiResult) (page : list pydict)
  (rest : list outcome) :
  days <> 0 ->
  pending nw = Response r :: rest ->
  r_list r = Some page ->
  (exists record, In record page /\ unparseable record) ->
  Z.of_nat (length page) < limit ->
  let nw1 :=
    {| pending := rest;
       events := events nw ++ [Post (form_data limit 1 (window clock days))] |}
  in
  sync_data db nw clock limit max_pages (Some days) true kwargs
  = (db, nw1, Ok warning_summary)
  /\ exists e db',
       sync_data db nw clock limit max_pages (Some days) false kwargs
       = (db', nw1, Ok (error_summary e))
       /\ tbl_price_data db' = tbl_price_data db.
Proof.
  intros Hd Hp Hlist Hbad Hshort nw1.
  assert (limit <> 0) as Hl by lia.
  assert (result_truthy r = true) as Htruthy.
  { unfold result_truthy. rewrite Hlist.
    rewrite (bool_decide_true (is_Some (Some page))) by (exists page; reflexivity).
    rewrite orb_true_r. reflexivity. }
  assert (exists p ps, page = p :: ps) as (p & ps & Hpage).
  { destruct page as [|p ps]; [destruct Hbad as (? & [] & _)|eauto]. }
  apply Z.ltb_lt in Hshort.
  split.
  - destruct (bulk_unparseable db page Hbad) as [e He].
    unfold sync_data, sync_try, scrape. rewrite (days_truthy days Hd).
    unfold scrape_by_date_range, scrape_all_pages. cbn [walk current_page].
    fold (window clock days).
    rewrite (scrape_page_response limit (window clock days) nw r rest _ Hp).
    rewrite Htruthy. cbn [negb].
    match goal with
    | |- context [note_totals ?l ?m ?s ?x] =>
        destruct (note_totals_ok l m Hl s x) as (st1 & -> & _ & Hclo & _)
    end.
    rewrite Hlist. cbn [default from_option id]. rewrite Hshort.
    subst page. unfold keep_page, save_callback.
    rewrite Hclo. cbn [closure fst snd]. rewrite He. reflexivity.
  - destruct (bulk_unparseable db page Hbad) as [e He].
    exists e.
    unfold sync_data, sync_try, scrape. rewrite (days_truthy days Hd).
    unfold scrape_by_date_range, scrape_all_pages. cbn [walk current_page].
    fold (window clock days).
    rewrite (scrape_page_response limit (window clock days) nw r rest _ Hp).
    rewrite Htruthy. cbn [negb].
    match goal with
    | |- context [note_totals ?l ?m ?s ?x] =>
        destruct (note_totals_ok l m Hl s x) as (st1 & -> & _ & _ & Hrec)
    end.
    rewrite Hlist. cbn [default from_option id]. rewrite Hshort.
    subst page. cbn [keep_page extend_records all_records].
    rewrite Hrec. cbn [all_records app]. rewrite He.
    unfold create_log. destruct (log_faults db) as [|[|] faults];
      eexists; split; reflexivity.
Qed.


(** X13.  The command [sync] of main.py without [--incremental] and without
    [--days] (or with [--days 0]) always fails: whatever the other
    arguments, the orchestrator is called without a date window, no
    request is made, storage is as it was and the command reports
    failure. *)
Theorem cli_sync_needs_days `{PyLib} (args : SyncArgs) (db : Session)
  (nw : Network) (clock : Z -> string) :
  arg_incremental args = false ->
  opt_truthy (arg_days args) = false ->
  exists db',
    main_sync_data (Ok tt) args db nw clock = (db', nw, Ok false)
    /\ tbl_price_data db' = tbl_price_data db.
Proof.
  intros Hinc Hdays. unfold main_sync_data. rewrite Hinc, Hdays.
  match goal with
  | |- context [sync_data ?d ?n ?c ?l ?m ?days ?i ?k] =>
      destruct (sync_data_without_window d n c l m days i k eq_refl)
        as (db' & -> & Hrows)
  end.
  exists db'. split; [reflexivity|exact Hrows].
Qed.

Section CallerExamples.
Import Samples MoreSamples PageSamples ExtraSamples CallerSamples.
#[local] Existing Instance decimal_runtime.


Lemma net_down_fails limit page kw :
  fetch_fails limit page kw (pending net_down).
Proof. intros evs. reflexivity. Qed.

Lemma sync_first_fetch_fails_witness :
  sync_data empty_db net_down clock 20 None (Some 2) true []
  = (empty_db, fst (scrape_page net_down 20 1 (window clock 2)),
     Ok warning_summary).
Proof.
  apply (sync_first_fetch_fails empty_db net_down clock 20 None 2 true []).
  - lia.
  - apply net_down_fails.
Defined.

Lemma orange_bad_date_unparseable : unparseable orange_bad_date.
Proof.
  split; [reflexivity|]. exists "15/01/2024".
  split; [reflexivity|]. split; [discriminate|reflexivity].
Qed.

Lemma sync_page_with_bad_date_witness :
  let nw1 :=
    {| pending := [];
       events := events source_bad_page
                 ++ [Post (form_data 20 1 (window clock 2))] |} in
  sync_data empty_db source_bad_page clock 20 None (Some 2) true []
  = (empty_db, nw1, Ok warning_summary)
  /\ exists e db',
       sync_data empty_db source_bad_page clock 20 None (Some 2) false []
       = (db', nw1, Ok (error_summary e))
       /\ tbl_price_data db' = tbl_price_data empty_db.
Proof.
  apply (sync_page_with_bad_date empty_db source_bad_page clock 20 None 2 []
           bad_page [orange_bad_date] []).
  - lia.
  - reflexivity.
  - reflexivity.
  - exists orange_bad_date. split; [left; reflexivity|].
    apply orange_bad_date_unparseable.
  - simpl. lia.
Defined.


Lemma cli_sync_needs_days_witness :
  exists db',
    main_sync_data (Ok tt) args_product empty_db source_45 clock
    = (db', source_45, Ok false)
    /\ tbl_price_data db' = tbl_price_data empty_db.
Proof.
  apply (cli_sync_needs_days args_product empty_db source_45 clock);
    reflexivity.
Defined.
End CallerExamples.

(** * The deduplication engine as a whole *)

Section BulkFailure.
Context `{PyLib}.




End BulkFailure.


Section BulkCounters.
Context `{PyLib}.




End BulkCounters.


Section FoundRecords.
Context `{PyLib}.

Lemma index_existing_misses conds rows k :
  (forall x, In x rows ->
     existsb (fun c => row_matches c x) conds = true -> row_key x <> k) ->
  forall i (m : gmap string nat),
    m !! k = None -> index_existing conds rows i m !! k = None.
Proof.
  induction rows as [|x rows IH]; intros Hne i m Hm; [exact Hm|].
  cbn [index_existing]. apply IH.
  - intros y Hy. apply Hne. right. exact Hy.
  - destruct (existsb _ conds) eqn:He; [|exact Hm].
    rewrite lookup_insert_ne; [exact Hm|].
    apply Hne; [left; reflexivity|exact He].
Qed.

Lemma exists_batch_single db r :
  well_formed r ->
  exists_batch_by_unique_key db [to_dict r]
  = Ok (index_existing [bound_filter r] (tbl_price_data db) 0%nat ∅).
Proof.
  intros Hwf. unfold exists_batch_by_unique_key.
  change [to_dict r] with (map to_dict [r]).
  rewrite (batch_conditions_records [r])
    by (constructor; [exact Hwf|constructor]).
  cbn [map mbind pyresult_bind].
  pose proof (bind_conditions_records [r]
                ltac:(constructor; [exact Hwf|constructor])) as Hb.
  cbn [map] in Hb. rewrite Hb. reflexivity.
Qed.

(** [create] on a record that matches a stored row returns the first
    such row and writes nothing. *)
Lemma create_found db r x :
  well_formed r ->
  List.find (row_matches (bound_filter r)) (tbl_price_data db) = Some x ->
  exists d', create db (to_dict r) = (d', db, Ok x).
Proof.
  intros Hwf Hfind.
  destruct (convert_fields_record r Hwf) as (d' & Hc & _).
  exists d'. unfold create. rewrite Hc.
  destruct (convert_fields_filter _ _ _ VNone Hc) as (_ & Hpd & Hpn).
  rewrite Hpd, Hpn, dget_prodName, dget_pubDate.
  rewrite (name_truthy _ (wf_name r Hwf)).
  rewrite (date_ok_truthy _ (wf_date r Hwf)). cbn [andb].
  rewrite (exists_by_unique_key_converted db _ _ _ Hc).
  rewrite (exists_by_unique_key_record db r Hwf).
  rewrite Hfind. reflexivity.
Qed.
End FoundRecords.

(** X16.  [created_count] counts records that were not inserted.  When a
    record matches a stored row in the query but the key text of the
    record is not the key text of that row (a price written as 2 against
    a stored 2.0, say), the batch lookup misses the row, [create] finds
    it and returns it, and the record is counted as created: the batch
    of this one record returns one created and none updated while
    storage is exactly as it was. *)
Theorem created_counts_found_record `{PyLib} (db : Session) (r : ApiRecord) :
  well_formed r ->
  (exists x, In x (tbl_price_data db)
             /\ row_matches (bound_filter r) x = true) ->
  (forall x, In x (tbl_price_data db) ->
             row_matches (bound_filter r) x = true ->
             row_key x <> record_key r) ->
  exists d',
    bulk_create_or_update db [to_dict r] = ([d'], db, Ok (1, 0)).
Proof.
  intros Hwf (x0 & Hin0 & Hm0) Hkeys.
  destruct (date_ok_key _ (wf_date r Hwf)) as [date_str Hdk].
  unfold record_key in Hkeys. rewrite Hdk in Hkeys.
  destruct (List.find (row_matches (bound_filter r)) (tbl_price_data db))
    as [x|] eqn:Hfind.
  2:{ apply (List.find_none _ _ Hfind) in Hin0. congruence. }
  unfold bulk_create_or_update.
  rewrite (exists_batch_single db r Hwf).
  cbn [process_records]. unfold process_record.
  rewrite dget_prodName, dget_pubDate.
  rewrite (name_truthy _ (wf_name r Hwf)).
  rewrite (date_ok_truthy _ (wf_date r Hwf)). cbn [negb orb].
  rewrite Hdk, unique_key_record. cbn [processed_in_batch st_db].
  rewrite lookup_empty.
  rewrite index_existing_misses; [| |apply lookup_empty].
  2:{ intros y Hy Hex. cbn [existsb] in Hex. rewrite orb_false_r in Hex.
      exact (Hkeys y Hy Hex). }
  destruct (create_found db r x Hwf Hfind) as [d' ->].
  exists d'. reflexivity.
Qed.

Section KeyText.
Context `{PyLib}.

Lemma append_assoc (a b c : string) : (a +:+ b) +:+ c = a +:+ (b +:+ c).
Proof.
  induction a as [|ch a IH]; [reflexivity|].
  change (String ch ((a +:+ b) +:+ c) = String ch (a +:+ (b +:+ c))).
  f_equal. exact IH.
Qed.
End KeyText.

(** X17.  The key text of the batch does not tell every two records apart.
    The fields are joined with the bar, so a bar inside a field moves
    the boundary: a name [a|b] with category id [c] has the key of the
    name [a] with category id [b|c].  And a null field is written as
    the text None, so it has the key of the field that holds the text
    None. *)
Theorem unique_key_collisions `{PyLib} (a b c : string)
  (prod_name prod_catid prod_cat prod_pcatid prod_pcat low_price high_price
   avg_price place spec_info unit_info status : pyval) (date_str : string) :
  unique_key (VStr (a +:+ "|" +:+ b)) (VStr c) prod_cat prod_pcatid prod_pcat
    low_price high_price avg_price place spec_info unit_info date_str status
  = unique_key (VStr a) (VStr (b +:+ "|" +:+ c)) prod_cat prod_pcatid prod_pcat
      low_price high_price avg_price place spec_info unit_info date_str status
  /\ unique_key prod_name prod_catid prod_cat prod_pcatid prod_pcat
       low_price high_price avg_price place spec_info VNone date_str status
     = unique_key prod_name prod_catid prod_cat prod_pcatid prod_pcat
         low_price high_price avg_price place spec_info (VStr "None")
         date_str status.
Proof.
  split; [|reflexivity].
  unfold unique_key. cbn [String.concat py_str].
  rewrite !append_assoc. reflexivity.
Qed.

Section UpdateLoop.
Context `{PyLib}.

Lemma set_field_unmapped db_obj k v :
  In k unmapped_keys -> set_field db_obj (k, v) = Ok db_obj.
Proof.
  unfold unmapped_keys. intros Hk. cbn [In] in Hk.
  repeat (destruct Hk as [<-|Hk]; [reflexivity|]). destruct Hk.
Qed.

Lemma set_fields_unmapped update_data :
  forall db_obj,
    Forall (fun item => In (fst item) unmapped_keys) update_data ->
    set_fields db_obj update_data = Ok db_obj.
Proof.
  induction update_data as [|[k v] rest IH]; intros db_obj Hall;
    [reflexivity|].
  inversion Hall as [|? ? Hk Hrest]; subst. cbn [fst] in Hk.
  cbn [set_fields]. rewrite (set_field_unmapped db_obj k v Hk).
  cbn [mbind pyresult_bind]. apply IH. exact Hrest.
Qed.
End UpdateLoop.

(** X18.  [update] ignores the upstream keys that are neither in its field
    mapping nor attributes of the row: an update whose data has only
    such keys (specInfo, unitInfo, prodCat, prodCatid, prodPcat and the
    provenance fields) does what the update with no data does, so these
    columns of a stored row are never refreshed from an upstream
    record. *)
Theorem update_ignores_unmapped_keys `{PyLib} (db : Session) (record_id : Z)
  (update_data : pydict) :
  Forall (fun item => In (fst item) unmapped_keys) update_data ->
  update db record_id update_data = update db record_id [].
Proof.
  intros Hall. unfold update.
  destruct (get_by_id (tbl_price_data db) record_id) as [[i db_obj]|];
    [|reflexivity].
  rewrite (set_fields_unmapped update_data db_obj Hall). reflexivity.
Qed.

Section BatchLookup.
Context `{PyLib}.

End BatchLookup.


(** * Lookup by id and [delete] *)

Section ById.
Context `{PyLib}.

Lemma sql_match_id (x : PriceDataRow) record_id :
  sql_match (dget x "id") (VInt record_id) = true
  <-> dget x "id" = VInt record_id.
Proof.
  cbn [sql_match]. destruct (dget x "id") as [|z|f|s|d]; cbn [sql_eq];
    try (split; discriminate).
  rewrite Z.eqb_eq. split; [intros ->; reflexivity|intros [= ->]; reflexivity].
Qed.

Lemma get_by_id_some (rows : list PriceDataRow) record_id :
  forall i x,
    get_by_id rows record_id = Some (i, x) ->
    rows !! i = Some x /\ dget x "id" = VInt record_id.
Proof.
  induction rows as [|r rows IH]; intros i x Hg; [discriminate Hg|].
  cbn [get_by_id] in Hg.
  destruct (sql_match (dget r "id") (VInt record_id)) eqn:Hm.
  - injection Hg as <- <-. split; [reflexivity|]. apply sql_match_id, Hm.
  - destruct (get_by_id rows record_id) as [[j y]|]; [|discriminate Hg].
    cbn in Hg. injection Hg as <- <-. exact (IH j y eq_refl).
Qed.

Lemma get_by_id_none (rows : list PriceDataRow) record_id :
  get_by_id rows record_id = None
  <-> forall i x, rows !! i = Some x -> dget x "id" <> VInt record_id.
Proof.
  induction rows as [|r rows IH]; cbn [get_by_id].
  - split; [intros _ i x Hi; destruct i; discriminate Hi|reflexivity].
  - destruct (sql_match (dget r "id") (VInt record_id)) eqn:Hm.
    + split; [discriminate|]. intros Hall. exfalso.
      apply (Hall 0%nat r eq_refl). apply sql_match_id, Hm.
    + destruct (get_by_id rows record_id) as [[j y]|] eqn:Hg.
      * split; [discriminate|]. intros Hall. exfalso.
        apply get_by_id_some in Hg as [Hj Hy].
        exact (Hall (S j) y Hj Hy).
      * split; [|reflexivity]. intros _ i x Hi.
        destruct i as [|i].
        -- injection Hi as <-. intros Hid. apply sql_match_id in Hid.
           congruence.
        -- exact (proj1 IH eq_refl i x Hi).
Qed.
End ById.

(** X20.  [delete] on a table in which the id occurs at most once.  It
    returns whether a row had the id; afterwards no row has it, every
    row with another id is still there and none was added; the audit
    table is untouched.  With an id that no row has it returns False
    and leaves storage as it was. *)
Theorem crud_delete_removes `{PyLib} (db db' : Session) (record_id : Z)
  (r : pyresult bool) :
  at_most_once record_id (tbl_price_data db) ->
  crud_delete db record_id = (db', r) ->
  r = Ok (crud_exists db record_id)
  /\ crud_exists db' record_id = false
  /\ (forall x, dget x "id" <> VInt record_id ->
        (In x (tbl_price_data db') <-> In x (tbl_price_data db)))
  /\ (crud_exists db record_id = false -> db' = db)
  /\ same_audit db db'.
Proof.
  intros Honce Hd. unfold crud_delete, crud_exists in *.
  destruct (get_by_id (tbl_price_data db) record_id) as [[i x0]|] eqn:Hg.
  - injection Hd as <- <-. cbn [with_price_data tbl_price_data].
    apply get_by_id_some in Hg as [Hi Hid0].
    split; [reflexivity|].
    assert (forall j y, delete i (tbl_price_data db) !! j = Some y ->
              dget y "id" <> VInt record_id) as Hgone.
    { intros j y Hj Hy. rewrite list_lookup_delete in Hj.
      destruct (decide (j < i)%nat) as [Hlt|Hge].
      - pose proof (Honce j i y x0 Hj Hi Hy Hid0). lia.
      - pose proof (Honce (S j) i y x0 Hj Hi Hy Hid0). lia. }
    split.
    { apply get_by_id_none in Hgone. rewrite Hgone. reflexivity. }
    split.
    { intros x Hx. rewrite <- !list_elem_of_In, !list_elem_of_lookup. split.
      - intros [j Hj]. rewrite list_lookup_delete in Hj. eauto.
      - intros [j Hj].
        assert (j <> i) as Hne.
        { intros ->. pose proof (eq_trans (eq_sym Hj) Hi) as E.
          injection E as ->. exact (Hx Hid0). }
        destruct (decide (j < i)%nat) as [Hlt|Hge].
        + exists j. rewrite list_lookup_delete_lt by exact Hlt. exact Hj.
        + exists (j - 1)%nat. rewrite list_lookup_delete_ge by lia.
          replace (S (j - 1)) with j by lia. exact Hj. }
    split; [discriminate|]. split; reflexivity.
  - injection Hd as <- <-. rewrite Hg.
    split; [reflexivity|]. split; [reflexivity|].
    split; [reflexivity|]. split; [reflexivity|]. apply same_audit_refl.
Qed.

(** X21.  [update] changes at most one row.  With an id that no row has it
    returns None and leaves storage as it was; when it raises, storage
    is as it was; when it returns a row, that row has replaced the
    first row with the id and every other row is in its place.  The
    number of rows and the audit table never change. *)
Theorem update_touches_one_row `{PyLib} (db db' : Session) (record_id : Z)
  (update_data : pydict) (r : pyresult (option PriceDataRow)) :
  update db record_id update_data = (db', r) ->
  same_audit db db'
  /\ length (tbl_price_data db') = length (tbl_price_data db)
  /\ match r with
     | Ok (Some row) =>
         exists i old,
           tbl_price_data db !! i = Some old
           /\ dget old "id" = VInt record_id
           /\ tbl_price_data db' = <[i := row]> (tbl_price_data db)
     | Ok None => db' = db /\ crud_exists db record_id = false
     | Raise _ => db' = db
     end.
Proof.
  intros Hu. split; [exact (update_same_audit _ _ _ _ _ Hu)|].
  unfold update, crud_exists in *.
  destruct (get_by_id (tbl_price_data db) record_id) as [[i old]|] eqn:Hg.
  - apply get_by_id_some in Hg as [Hi Hid].
    match type of Hu with
    | context [match ?c with Ok _ => _ | Raise _ => _ end] =>
        destruct c as [row|e]
    end; injection Hu as <- <-.
    + cbn [with_price_data tbl_price_data].
      split; [apply length_insert|]. exists i, old. auto.
    + split; reflexivity.
  - injection Hu as <- <-. split; [reflexivity|]. split; reflexivity.
Qed.

(** * [create] and the lookup: the round trip *)

Section RoundTrip.
Context `{PyLib}.




End RoundTrip.


Section SecondCall.
Context `{PyLib}.




End SecondCall.


(** * The storage properties on sample data *)

Section StorageExamples.
Import Samples MoreSamples PageSamples ExtraSamples CallerSamples.
#[local] Existing Instance decimal_runtime.



Lemma melon_short_price_well_formed : well_formed melon_short_price.
Proof.
  apply melon_with_well_formed. right. eexists. vm_compute. reflexivity.
Qed.

Lemma created_counts_found_record_witness :
  exists d',
    bulk_create_or_update (db_with melon_record) [to_dict melon_short_price]
    = ([d'], db_with melon_record, Ok (1, 0)).
Proof.
  apply (created_counts_found_record (db_with melon_record)
           melon_short_price).
  - apply melon_short_price_well_formed.
  - exists (row_of melon_record 1). split.
    + rewrite db_with_melon_record. left. reflexivity.
    + vm_compute. reflexivity.
  - intros x Hx _. rewrite db_with_melon_record in Hx.
    destruct Hx as [<-|[]]. vm_compute. discriminate.
Defined.

Lemma update_ignores_unmapped_keys_witness :
  update (db_with melon_record) 1
    [("specInfo", VStr "有籽"); ("unitInfo", VStr "公斤")]
  = update (db_with melon_record) 1 [].
Proof.
  apply (update_ignores_unmapped_keys (db_with melon_record) 1).
  constructor; [cbn; tauto|]. constructor; [cbn; tauto|]. constructor.
Defined.

Lemma melon_row_once : at_most_once 1 (tbl_price_data (db_with melon_record)).
Proof.
  rewrite db_with_melon_record. intros i j x y Hi Hj _ _.
  destruct i as [|i], j as [|j]; try reflexivity; discriminate.
Qed.

Lemma crud_delete_removes_witness :
  let out := crud_delete (db_with melon_record) 1 in
  snd out = Ok (crud_exists (db_with melon_record) 1)
  /\ crud_exists (fst out) 1 = false
  /\ (forall x, dget x "id" <> VInt 1 ->
        (In x (tbl_price_data (fst out))
         <-> In x (tbl_price_data (db_with melon_record))))
  /\ (crud_exists (db_with melon_record) 1 = false
      -> fst out = db_with melon_record)
  /\ same_audit (db_with melon_record) (fst out).
Proof.
  apply (crud_delete_removes (db_with melon_record)
           (fst (crud_delete (db_with melon_record) 1)) 1
           (snd (crud_delete (db_with melon_record) 1))).
  - apply melon_row_once.
  - destruct (crud_delete (db_with melon_record) 1). reflexivity.
Defined.

Lemma update_touches_one_row_witness :
  let out := update (db_with melon_record) 5 (to_dict melon_repriced) in
  same_audit (db_with melon_record) (fst out)
  /\ length (tbl_price_data (fst out))
     = length (tbl_price_data (db_with melon_record))
  /\ match snd out with
     | Ok (Some row) =>
         exists i old,
           tbl_price_data (db_with melon_record) !! i = Some old
           /\ dget old "id" = VInt 5
           /\ tbl_price_data (fst out)
              = <[i := row]> (tbl_price_data (db_with melon_record))
     | Ok None =>
         fst out = db_with melon_record
         /\ crud_exists (db_with melon_record) 5 = false
     | Raise _ => fst out = db_with melon_record
     end.
Proof.
  apply (update_touches_one_row (db_with melon_record)
           (fst (update (db_with melon_record) 5 (to_dict melon_repriced)))
           5 (to_dict melon_repriced)
           (snd (update (db_with melon_record) 5 (to_dict melon_repriced)))).
  destruct (update (db_with melon_record) 5 (to_dict melon_repriced)).
  reflexivity.
Defined.





End StorageExamples.

(** * Cleaning duplicate groups *)

Section DeleteLoops.
Context `{PyLib}.

Lemma removes_refl db n : removes db db n n.
Proof. repeat split; reflexivity. Qed.

Lemma removes_trans db1 db2 db3 n1 n2 n3 :
  removes db1 db2 n1 n2 -> removes db2 db3 n2 n3 -> removes db1 db3 n1 n3.
Proof.
  intros (S1 & L1 & A1 & B1) (S2 & L2 & A2 & B2).
  repeat split; [etrans; eassumption|lia|congruence|congruence].
Qed.

Lemma crud_delete_removes_one db record_id :
  exists db' b,
    crud_delete db record_id = (db', Ok b)
    /\ removes db db' 0 (if b then 1 else 0).
Proof.
  unfold crud_delete.
  destruct (get_by_id (tbl_price_data db) record_id) as [[i x]|] eqn:Hg.
  - apply get_by_id_some in Hg as [Hi _].
    eexists _, true. split; [reflexivity|].
    repeat split; cbn [tbl_price_data with_price_data].
    + apply sublist_delete.
    + pose proof (length_delete (tbl_price_data db) i (mk_is_Some _ _ Hi)) as Hl.
      apply lookup_lt_Some in Hi. lia.
  - exists db, false. split; [reflexivity|apply removes_refl].
Qed.

Lemma delete_ids_removes ids :
  forall db n, exists db' n',
    delete_ids db ids n = (db', Ok n') /\ removes db db' n n'.
Proof.
  induction ids as [|record_id rest IH]; intros db n; cbn [delete_ids].
  - exists db, n. split; [reflexivity|apply removes_refl].
  - destruct (crud_delete_removes_one db record_id) as (db1 & b & -> & R1).
    destruct b.
    + destruct (IH db1 (n + 1)) as (db' & n' & -> & R2).
      exists db', n'. split; [reflexivity|].
      destruct R1 as (S1 & L1 & A1 & B1), R2 as (S2 & L2 & A2 & B2).
      repeat split; [etrans; eassumption|lia|congruence|congruence].
    + destruct (IH db1 n) as (db' & n' & -> & R2).
      exists db', n'. split; [reflexivity|].
      destruct R1 as (S1 & L1 & A1 & B1), R2 as (S2 & L2 & A2 & B2).
      repeat split; [etrans; eassumption|lia|congruence|congruence].
Qed.

Lemma delete_groups_removes keep_latest groups :
  forall db n, exists db' n',
    delete_groups db keep_latest groups n = (db', Ok n')
    /\ removes db db' n n'.
Proof.
  induction groups as [|g rest IH]; intros db n; cbn [delete_groups].
  - exists db, n. split; [reflexivity|apply removes_refl].
  - destruct (delete_ids_removes
                (record_ids_to_delete keep_latest (record_ids g)) db n)
      as (db1 & n1 & -> & R1).
    destruct (IH db1 n1) as (db' & n' & -> & R2).
    exists db', n'. split; [reflexivity|].
    exact (removes_trans _ _ _ _ _ _ R1 R2).
Qed.
End DeleteLoops.

(** X24.  [clean_duplicates] only removes rows: the rows it leaves are
    a sub-list of the rows it found, [deleted_count] is exactly the
    number of rows that went away, and the audit table is untouched. *)
Theorem clean_duplicates_only_removes `{PyLib} (db : Session)
  (keep_latest : bool) :
  let db' := fst (clean_duplicates db keep_latest) in
  let summary := snd (clean_duplicates db keep_latest) in
  sublist (tbl_price_data db') (tbl_price_data db)
  /\ Z.of_nat (length (tbl_price_data db')) + deleted_count summary
     = Z.of_nat (length (tbl_price_data db))
  /\ same_audit db db'.
Proof.
  cbv zeta. unfold clean_duplicates.
  destruct (get_duplicate_records db) as [|g groups] eqn:Hd.
  - cbn [fst snd deleted_count]. repeat split; [reflexivity|lia].
  - destruct (delete_groups_removes keep_latest (g :: groups) db 0)
      as (db' & n' & -> & S1 & L1 & A1).
    cbn [fst snd deleted_count]. repeat split; [exact S1|lia|apply A1|apply A1].
Qed.

Section Sublists.
Context {A : Type}.

Lemma sublist_In (l1 l2 : list A) x : sublist l1 l2 -> In x l1 -> In x l2.
Proof.
  induction 1; cbn [In]; [tauto|tauto|tauto].
Qed.

Lemma filter_sublist (p : A -> bool) (l : list A) :
  sublist (List.filter p l) l.
Proof.
  induction l as [|a l IH]; cbn [List.filter]; [constructor|].
  destruct (p a); constructor; exact IH.
Qed.

Lemma two_members (l : list A) a b :
  In a l -> In b l -> a <> b -> (1 <? Z.of_nat (length l)) = true.
Proof.
  intros Ha Hb Hab. apply Z.ltb_lt.
  destruct l as [|x [|y l]]; cbn [In length] in *; [tauto| |lia].
  destruct Ha as [<-|[]], Hb as [<-|[]]. congruence.
Qed.
End Sublists.

Section ListFacts.
Context {A : Type} (f : A -> Z).

Lemma nodup_map_inj (l : list A) a b :
  NoDup (map f l) -> In a l -> In b l -> f a = f b -> a = b.
Proof.
  induction l as [|x l IH]; cbn [map In]; [intros _ []|].
  intros Hnd Ha Hb Hab. apply NoDup_cons in Hnd as [Hx Hnd].
  rewrite list_elem_of_In in Hx.
  destruct Ha as [<-|Ha], Hb as [<-|Hb].
  - reflexivity.
  - exfalso. apply Hx. rewrite Hab. apply in_map, Hb.
  - exfalso. apply Hx. rewrite <- Hab. apply in_map, Ha.
  - exact (IH Hnd Ha Hb Hab).
Qed.

Lemma delete_mem (l : list A) :
  forall i x0,
    NoDup (map f l) -> l !! i = Some x0 ->
    forall x, In x (delete i l) <-> In x l /\ f x <> f x0.
Proof.
  induction l as [|a l IH]; intros i x0 Hnd Hi x; [destruct i; discriminate Hi|].
  cbn [map] in Hnd. apply NoDup_cons in Hnd as [Ha Hnd].
  rewrite list_elem_of_In in Ha.
  destruct i as [|i].
  - injection Hi as <-. change (delete 0%nat (a :: l)) with l. cbn [In].
    split.
    + intros Hx. split; [right; exact Hx|].
      intros E. apply Ha. rewrite <- E. apply in_map, Hx.
    + intros [[<-|Hx] Hne]; [congruence|exact Hx].
  - change (delete (S i) (a :: l)) with (a :: delete i l).
    change ((a :: l) !! S i) with (l !! i) in Hi. cbn [In].
    rewrite (IH i x0 Hnd Hi x). split.
    + intros [<-|[Hx Hne]].
      * split; [left; reflexivity|]. intros E. apply Ha. rewrite E.
        apply in_map. apply list_elem_of_In. eapply list_elem_of_lookup_2, Hi.
      * split; [right; exact Hx|exact Hne].
    + intros [[<-|Hx] Hne]; [left; reflexivity|right; split; assumption].
Qed.

Lemma sublist_map (l1 l2 : list A) :
  sublist l1 l2 -> sublist (map f l1) (map f l2).
Proof.
  induction 1; cbn [map]; [constructor|constructor; assumption|constructor; assumption].
Qed.

Lemma nodup_map_lookup (l : list A) :
  forall i j x y,
    NoDup (map f l) -> l !! i = Some x -> l !! j = Some y ->
    f x = f y -> i = j.
Proof.
  intros i j x y Hnd Hi Hj E.
  apply (proj1 (NoDup_alt (map f l)) Hnd i j (f x)).
  - change (map f l) with (f <$> l). rewrite list_lookup_fmap, Hi. reflexivity.
  - change (map f l) with (f <$> l). rewrite list_lookup_fmap, Hj, E. reflexivity.
Qed.

Lemma to_delete_nil (keep_latest : bool) a :
  ~ In a (record_ids_to_delete keep_latest []).
Proof. destruct keep_latest; cbn; tauto. Qed.

(** The ids that one group loses: all but those of one row [z]. *)
Lemma to_delete_split (keep_latest : bool) (G : list A) :
  G <> [] ->
  exists z G0,
    (forall a, In a G <-> a = z \/ In a G0)
    /\ record_ids_to_delete keep_latest (map f G) = map f G0
    /\ (NoDup (map f G) -> ~ In (f z) (map f G0)).
Proof.
  intros Hne. destruct keep_latest; cbn [record_ids_to_delete].
  - destruct (exists_last Hne) as (G0 & z & ->). exists z, G0.
    split; [|split].
    + intros a. rewrite in_app_iff. cbn [In]. intuition congruence.
    + rewrite map_app. cbn [map]. apply removelast_last.
    + rewrite map_app. cbn [map]. intros Hnd Hin.
      apply NoDup_app in Hnd as (_ & Hnd & _).
      apply (Hnd (f z)); [apply list_elem_of_In, Hin|left].
  - destruct G as [|z G0]; [congruence|]. exists z, G0.
    split; [|split].
    + intros a. cbn [In]. intuition congruence.
    + reflexivity.
    + cbn [map]. intros Hnd. apply NoDup_cons in Hnd as [Hz _].
      rewrite list_elem_of_In in Hz. exact Hz.
Qed.

End ListFacts.

Section GroupHeads.
Context `{PyLib}.

Lemma heads_in (rows : list PriceDataRow) :
  forall seen h, In h (group_heads seen rows) -> In h rows.
Proof.
  induction rows as [|x rows IH]; intros seen h; cbn [group_heads In]; [tauto|].
  destruct (existsb (fun head => in_group head x) seen).
  - intros Hh. right. exact (IH _ _ Hh).
  - cbn [In]. intros [<-|Hh]; [left; reflexivity|right; exact (IH _ _ Hh)].
Qed.

Lemma heads_fresh (rows : list PriceDataRow) :
  forall seen h s,
    In h (group_heads seen rows) -> In s seen -> in_group s h = false.
Proof.
  induction rows as [|x rows IH]; intros seen h s; cbn [group_heads In]; [tauto|].
  destruct (existsb (fun head => in_group head x) seen) eqn:Hex.
  - apply IH.
  - cbn [In]. intros [<-|Hh] Hs.
    + destruct (in_group s x) eqn:Hsx; [|reflexivity].
      assert (existsb (fun head => in_group head x) seen = true) as Ht
        by (apply existsb_exists; exists s; split; assumption).
      congruence.
    + apply (IH (seen ++ [x]) h s Hh). apply in_or_app. left. exact Hs.
Qed.

Lemma heads_cover (rows : list PriceDataRow) :
  forall seen x,
    (forall y, In y rows -> in_group y y = true) ->
    In x rows ->
    exists h,
      (In h seen \/ In h (group_heads seen rows)) /\ in_group h x = true.
Proof.
  induction rows as [|a rows IH]; intros seen x Hrefl; cbn [group_heads In]; [tauto|].
  assert (forall y, In y rows -> in_group y y = true) as Hrefl'
    by (intros y Hy; apply Hrefl; right; exact Hy).
  destruct (existsb (fun head => in_group head a) seen) eqn:Hex.
  - intros [<-|Hx].
    + apply existsb_exists in Hex as (h & Hh & Hm). exists h. tauto.
    + exact (IH seen x Hrefl' Hx).
  - intros [<-|Hx].
    + exists a. split; [right; left; reflexivity|]. apply Hrefl. left. reflexivity.
    + destruct (IH (seen ++ [a]) x Hrefl' Hx) as (h & Hh & Hm).
      exists h. split; [|exact Hm]. cbn [In].
      rewrite in_app_iff in Hh. cbn [In] in Hh. tauto.
Qed.

Lemma heads_apart (all rows : list PriceDataRow) :
  grouped all ->
  forall seen,
    incl rows all ->
    forall h1 h2,
      In h1 (group_heads seen rows) -> In h2 (group_heads seen rows) ->
      in_group h1 h2 = true -> h1 = h2.
Proof.
  intros Hg. induction rows as [|x rows IH]; intros seen Hincl h1 h2;
    cbn [group_heads In]; [tauto|].
  assert (incl rows all) as Hincl' by (intros y Hy; apply Hincl; right; exact Hy).
  assert (In x all) as Hx by (apply Hincl; left; reflexivity).
  destruct (existsb (fun head => in_group head x) seen) eqn:Hex.
  - apply IH, Hincl'.
  - assert (forall h, In h (group_heads (seen ++ [x]) rows) ->
                      in_group x h = false) as Hfresh.
    { intros h Hh. apply (heads_fresh rows (seen ++ [x]) h x Hh).
      apply in_or_app. right. left. reflexivity. }
    cbn [In]. intros [<-|H1] [<-|H2] Hm.
    + reflexivity.
    + rewrite (Hfresh h2 H2) in Hm. discriminate Hm.
    + assert (in_group x h1 = true) as Hm'.
      { apply (grouped_sym all Hg h1 x); [|exact Hx|exact Hm].
        apply Hincl'. exact (heads_in _ _ _ H1). }
      rewrite (Hfresh h1 H1) in Hm'. discriminate Hm'.
    + exact (IH (seen ++ [x]) Hincl' h1 h2 H1 H2 Hm).
Qed.
End GroupHeads.

Section DeletedRows.
Context `{PyLib}.

Lemma keyed_sublist (rows' rows : list PriceDataRow) :
  sublist rows' rows -> keyed rows -> keyed rows'.
Proof.
  intros Hs [Hint Hnd]. split.
  - intros x Hx. apply Hint. exact (sublist_In _ _ _ Hs Hx).
  - exact (sublist_NoDup _ _ Hnd (sublist_map row_id _ _ Hs)).
Qed.

Lemma crud_delete_mem (db : Session) record_id :
  keyed (tbl_price_data db) ->
  forall x,
    In x (tbl_price_data (fst (crud_delete db record_id)))
    <-> In x (tbl_price_data db) /\ row_id x <> record_id.
Proof.
  intros [Hint Hnd] x. unfold crud_delete.
  destruct (get_by_id (tbl_price_data db) record_id) as [[i x0]|] eqn:Hg.
  - apply get_by_id_some in Hg as [Hi Hid].
    assert (row_id x0 = record_id) as <- by (unfold row_id; rewrite Hid; reflexivity).
    cbn [fst tbl_price_data with_price_data].
    exact (delete_mem row_id _ i x0 Hnd Hi x).
  - cbn [fst]. split; [|tauto]. intros Hx. split; [exact Hx|].
    pose proof Hx as Hx'. apply list_elem_of_In, list_elem_of_lookup in Hx' as [i Hi].
    intros E. apply (proj1 (get_by_id_none _ _) Hg i x Hi).
    rewrite (Hint x Hx). congruence.
Qed.

Lemma delete_ids_mem ids :
  forall db n,
    keyed (tbl_price_data db) ->
    forall x,
      In x (tbl_price_data (fst (delete_ids db ids n)))
      <-> In x (tbl_price_data db) /\ ~ In (row_id x) ids.
Proof.
  induction ids as [|record_id rest IH]; intros db n Hk x; cbn [delete_ids].
  - cbn [fst In]. tauto.
  - pose proof (crud_delete_mem db record_id Hk x) as Hone.
    destruct (crud_delete_removes_one db record_id) as (db1 & b & E & S1 & _).
    rewrite E in Hone |- *. cbn [fst] in Hone.
    pose proof (keyed_sublist _ _ S1 Hk) as Hk1.
    assert (forall m,
               In x (tbl_price_data (fst (delete_ids db1 rest m)))
               <-> In x (tbl_price_data db) /\ ~ In (row_id x) (record_id :: rest))
      as Hall.
    { intros m. rewrite (IH db1 m Hk1 x), Hone. cbn [In].
      intuition congruence. }
    destruct b; apply Hall.
Qed.

Lemma delete_groups_mem keep_latest groups :
  forall db n,
    keyed (tbl_price_data db) ->
    forall x,
      In x (tbl_price_data (fst (delete_groups db keep_latest groups n)))
      <-> In x (tbl_price_data db)
          /\ ~ In (row_id x)
                (flat_map (fun g => record_ids_to_delete keep_latest (record_ids g))
                          groups).
Proof.
  induction groups as [|g rest IH]; intros db n Hk x;
    cbn [delete_groups flat_map].
  - cbn [fst In]. tauto.
  - pose proof (delete_ids_mem
                  (record_ids_to_delete keep_latest (record_ids g)) db n Hk x)
      as Hone.
    destruct (delete_ids_removes
                (record_ids_to_delete keep_latest (record_ids g)) db n)
      as (db1 & n1 & E & S1 & _).
    rewrite E in Hone |- *. cbn [fst] in Hone.
    rewrite (IH db1 n1 (keyed_sublist _ _ S1 Hk) x), Hone, in_app_iff.
    tauto.
Qed.

Lemma clean_duplicates_mem (db : Session) keep_latest :
  keyed (tbl_price_data db) ->
  forall x,
    In x (tbl_price_data (fst (clean_duplicates db keep_latest)))
    <-> In x (tbl_price_data db)
        /\ ~ In (row_id x)
              (flat_map (fun g => record_ids_to_delete keep_latest (record_ids g))
                        (get_duplicate_records db)).
Proof.
  intros Hk x. unfold clean_duplicates.
  destruct (get_duplicate_records db) as [|g groups] eqn:Hd.
  - cbn [fst flat_map In]. tauto.
  - pose proof (delete_groups_mem keep_latest (g :: groups) db 0 Hk x) as Hm.
    destruct (delete_groups_removes keep_latest (g :: groups) db 0)
      as (db' & n' & E & _).
    rewrite E in Hm |- *. exact Hm.
Qed.

(** The ids that [clean_duplicates] asks [delete] to remove. *)
Lemma doomed_iff (db : Session) keep_latest record_id :
  In record_id
     (flat_map (fun g => record_ids_to_delete keep_latest (record_ids g))
               (get_duplicate_records db))
  <-> exists h,
        In h (group_heads [] (tbl_price_data db))
        /\ (1 <? Z.of_nat (length (List.filter (in_group h) (tbl_price_data db))))
           = true
        /\ In record_id
             (record_ids_to_delete keep_latest
                (map row_id (List.filter (in_group h) (tbl_price_data db)))).
Proof.
  unfold get_duplicate_records. cbv zeta. rewrite in_flat_map. split.
  - intros (g & Hg & Hin). apply in_map_iff in Hg as (h & <- & Hh).
    apply filter_In in Hh as [Hh Hbig]. exists h. cbn [record_ids] in Hin. tauto.
  - intros (h & Hh & Hbig & Hin). eexists. split.
    + apply in_map_iff. exists h. split; [reflexivity|].
      apply filter_In. split; assumption.
    + exact Hin.
Qed.
End DeletedRows.

(** X25.  On a table with a primary key on which agreeing on product
    name, publish date and average price is an equivalence,
    [clean_duplicates] leaves exactly one row of every group: each row
    found before has a row of its group left, and no two rows left
    agree on the three fields, whatever their other columns hold. *)
Theorem clean_duplicates_one_per_group `{PyLib} (db : Session)
  (keep_latest : bool) :
  keyed (tbl_price_data db) ->
  grouped (tbl_price_data db) ->
  let rows' := tbl_price_data (fst (clean_duplicates db keep_latest)) in
  (forall x, In x (tbl_price_data db) ->
             exists y, In y rows' /\ in_group x y = true)
  /\ (forall a b x y,
        rows' !! a = Some x -> rows' !! b = Some y ->
        in_group x y = true -> a = b).
Proof.
  intros Hk Hg. cbv zeta.
  set (rows := tbl_price_data db) in *.
  assert (forall h, NoDup (map row_id (List.filter (in_group h) rows))) as Hnd.
  { intros h. apply (sublist_NoDup _ _ (keyed_unique _ Hk)).
    apply sublist_map, filter_sublist. }
  assert (forall h x,
             In (row_id x) (map row_id (List.filter (in_group h) rows)) ->
             In x rows -> in_group h x = true) as Hback.
  { intros h x Hin Hx. apply in_map_iff in Hin as (x' & E & Hx').
    apply filter_In in Hx' as [Hx' Hm].
    rewrite <- (nodup_map_inj row_id rows x' x (keyed_unique _ Hk) Hx' Hx E).
    exact Hm. }
  split.
  - intros x Hx.
    destruct (in_dec Z.eq_dec (row_id x)
                (flat_map (fun g => record_ids_to_delete keep_latest (record_ids g))
                          (get_duplicate_records db))) as [Hd|Hd].
    + apply doomed_iff in Hd as (h & Hh & _ & Hin). fold rows in Hh, Hin.
      destruct (List.filter (in_group h) rows) as [|g0 G'] eqn:EG;
        [exfalso; exact (to_delete_nil _ _ Hin)|].
      destruct (to_delete_split row_id keep_latest (g0 :: G') ltac:(discriminate))
        as (z & G0 & Hmem & Hdel & Hz).
      specialize (Hnd h). rewrite EG in Hnd. specialize (Hz Hnd).
      assert (forall a, In a G0 -> In a rows /\ in_group h a = true) as HG0.
      { intros a Ha. apply filter_In. rewrite EG. apply Hmem. right. exact Ha. }
      assert (In z rows /\ in_group h z = true) as [Hzr Hhz].
      { apply filter_In. rewrite EG. apply Hmem. left. reflexivity. }
      assert (In h rows) as Hhr by exact (heads_in _ _ _ Hh).
      assert (in_group h x = true) as Hhx.
      { apply Hback; [|exact Hx]. rewrite EG.
        rewrite Hdel in Hin. apply in_map_iff in Hin as (x' & E & Hx').
        apply in_map_iff. exists x'. split; [exact E|]. apply Hmem. right. exact Hx'. }
      exists z. split.
      * apply clean_duplicates_mem; [exact Hk|]. split; [exact Hzr|].
        intros Hd'. apply doomed_iff in Hd' as (h' & Hh' & _ & Hin').
        fold rows in Hh', Hin'.
        assert (In h' rows) as Hhr' by exact (heads_in _ _ _ Hh').
        assert (in_group h' z = true) as Hhz'.
        { apply Hback; [|exact Hzr].
          destruct (List.filter (in_group h') rows) as [|g1 G1] eqn:EG1;
            [exfalso; exact (to_delete_nil _ _ Hin')|].
          destruct (to_delete_split row_id keep_latest (g1 :: G1) ltac:(discriminate))
            as (z1 & G01 & Hmem1 & Hdel1 & _).
          rewrite Hdel1 in Hin'. apply in_map_iff in Hin' as (z' & E & Hz').
          apply in_map_iff. exists z'. split; [exact E|]. apply Hmem1. right. exact Hz'. }
        assert (h = h') as <-.
        { apply (heads_apart rows rows Hg [] (fun y Hy => Hy) h h' Hh Hh').
          apply (grouped_trans _ Hg h z h' Hhr Hzr Hhr' Hhz).
          exact (grouped_sym _ Hg h' z Hhr' Hzr Hhz'). }
        rewrite EG, Hdel in Hin'. exact (Hz Hin').
      * apply (grouped_trans _ Hg x h z Hx Hhr Hzr); [|exact Hhz].
        exact (grouped_sym _ Hg h x Hhr Hx Hhx).
    + exists x. split; [|exact (grouped_refl _ Hg x Hx)].
      apply clean_duplicates_mem; [exact Hk|]. split; assumption.
  - intros a b x y Ha Hb Hm.
    destruct (decide (a = b)) as [|Hne]; [assumption|exfalso].
    assert (sublist (tbl_price_data (fst (clean_duplicates db keep_latest))) rows)
      as Hsub.
    { unfold clean_duplicates.
      destruct (get_duplicate_records db) as [|g groups]; [reflexivity|].
      destruct (delete_groups_removes keep_latest (g :: groups) db 0)
        as (db' & n' & -> & S1 & _). exact S1. }
    pose proof (keyed_sublist _ _ Hsub Hk) as Hk'.
    assert (row_id x <> row_id y) as Hid.
    { intros E. apply Hne.
      exact (nodup_map_lookup row_id _ a b x y (keyed_unique _ Hk') Ha Hb E). }
    assert (In x (tbl_price_data (fst (clean_duplicates db keep_latest)))) as Hx
      by (apply list_elem_of_In; eapply list_elem_of_lookup_2, Ha).
    assert (In y (tbl_price_data (fst (clean_duplicates db keep_latest)))) as Hy
      by (apply list_elem_of_In; eapply list_elem_of_lookup_2, Hb).
    apply (clean_duplicates_mem db keep_latest Hk) in Hx as [Hx Hdx].
    apply (clean_duplicates_mem db keep_latest Hk) in Hy as [Hy Hdy].
    fold rows in Hx, Hy.
    destruct (heads_cover rows [] x (grouped_refl _ Hg) Hx) as (h & [[]|Hh] & Hhx).
    assert (In h rows) as Hhr by exact (heads_in _ _ _ Hh).
    assert (in_group h y = true) as Hhy
      by exact (grouped_trans _ Hg h x y Hhr Hx Hy Hhx Hm).
    assert (In x (List.filter (in_group h) rows)) as HxG
      by (apply filter_In; split; assumption).
    assert (In y (List.filter (in_group h) rows)) as HyG
      by (apply filter_In; split; assumption).
    assert (x <> y) as Hxy by congruence.
    pose proof (two_members _ x y HxG HyG Hxy) as Hbig.
    destruct (List.filter (in_group h) rows) as [|g0 G'] eqn:EG; [destruct HxG|].
    destruct (to_delete_split row_id keep_latest (g0 :: G') ltac:(discriminate))
      as (z & G0 & Hmem & Hdel & _).
    assert (forall v, In v G0 ->
              In (row_id v)
                 (flat_map (fun g => record_ids_to_delete keep_latest (record_ids g))
                           (get_duplicate_records db))) as Hdoomed.
    { intros v Hv. apply doomed_iff. exists h. fold rows. rewrite EG.
      split; [exact Hh|split; [exact Hbig|]]. rewrite Hdel. apply in_map, Hv. }
    apply Hmem in HxG as [->|HxG]; [|exact (Hdx (Hdoomed _ HxG))].
    apply Hmem in HyG as [->|HyG]; [|exact (Hdy (Hdoomed _ HyG))].
    congruence.
Qed.

(** * The melon from two places of origin *)

Section DuplicateExamples.
Import Samples MoreSamples DuplicateSamples.
#[local] Existing Instance decimal_runtime.

Lemma db_two_places_rows :
  tbl_price_data db_two_places
  = [row_of melon_record 1; row_of melon_other_place 2].
Proof. reflexivity. Qed.

Lemma db_two_places_keyed : keyed (tbl_price_data db_two_places).
Proof.
  rewrite db_two_places_rows. split.
  - intros x [<-|[<-|[]]]; reflexivity.
  - change (NoDup [1; 2]). apply NoDup_cons. split; [|apply NoDup_singleton].
    intros Hin. apply list_elem_of_In in Hin. cbn in Hin. lia.
Qed.

Lemma db_two_places_grouped : grouped (tbl_price_data db_two_places).
Proof.
  rewrite db_two_places_rows. split.
  - intros x [<-|[<-|[]]]; vm_compute; reflexivity.
  - intros x y [<-|[<-|[]]] [<-|[<-|[]]] _; vm_compute; reflexivity.
  - intros x y z [<-|[<-|[]]] [<-|[<-|[]]] [<-|[<-|[]]] _ _; vm_compute; reflexivity.
Qed.

Lemma clean_duplicates_one_per_group_witness :
  let rows' := tbl_price_data (fst (clean_duplicates db_two_places true)) in
  (forall x, In x (tbl_price_data db_two_places) ->
             exists y, In y rows' /\ in_group x y = true)
  /\ (forall a b x y,
        rows' !! a = Some x -> rows' !! b = Some y ->
        in_group x y = true -> a = b).
Proof.
  apply (clean_duplicates_one_per_group db_two_places true).
  - apply db_two_places_keyed.
  - apply db_two_places_grouped.
Defined.

(** The two rows differ in their place of origin, one of the thirteen
    fields of the business key; they agree on name, date and average
    price, and only one of them is left. *)
Example two_places_one_left :
  exists_by_unique_key db_two_places (to_dict melon_record)
  = Ok (Some (row_of melon_record 1))
  /\ exists_by_unique_key db_two_places (to_dict melon_other_place)
     = Ok (Some (row_of melon_other_place 2))
  /\ tbl_price_data (fst (clean_duplicates db_two_places true))
     = [row_of melon_other_place 2]
  /\ tbl_price_data (fst (clean_duplicates db_two_places false))
     = [row_of melon_record 1]
  /\ deleted_count (snd (clean_duplicates db_two_places true)) = 1.
Proof. repeat split. Qed.
End DuplicateExamples.
